(** * Fund Manager workshop: orchestration pipeline and streaming-event relay

    A shallow embedding of
    - [src/fund_manager/completed/fund_manager.py]: the LangGraph pipeline
      ([create_graph], the three nodes, [call_agent_with_streaming],
      [save_to_memory]);
    - [src/fund_manager/app.py]: the client loop [invoke_fund_manager] with its
      tool-id dictionaries, and [load_current_session_summary].

    Python values that come out of [json.loads] are modelled by [json]; a
    Python [str] is modelled by the bytes of its UTF-8 encoding (a Rocq
    [string]); JSON numbers are integers (fractional numbers are outside the
    model).  The remote services ([invoke_agent_runtime], [create_event],
    [retrieve_memories]) and the library functions [json.loads],
    [json.dumps], [str] are variables of a section: every theorem holds for
    all of them. *)

(** Also embedded, beside the pipeline and the client loop:
    - [src/fund_manager/app.py]: [extract_json_from_text], the first lines of
      [display_financial_analysis], and [load_deployment_info];
    - [src/fund_manager/completed/fund_manager.py]:
      [AgentClient._load_agent_arns] and [AgentClient._load_memory_id];
    - [src/fund_manager/completed/deploy.py]: [load_memory_info],
      [load_agent_arns], and of [deploy_fund_manager] the variables of the
      launch and the wait for the runtime;
    - [src/fund_manager/completed/agentcore_memory/deploy_agentcore_memory.py]:
      [deploy_memory].

    The environment is a list of variables, the files of the repository a
    function from paths to what [open] and [json.load] find there, and the
    answers of the memory client and of [runtime.status()] are arguments. *)

From stdpp Require Import base option list strings gmap.
From Stdlib Require Import ZArith Ascii String.

Set Warnings "-register-all".

Local Open Scope string_scope.
Local Open Scope list_scope.

(** ** Python values read from JSON *)

Inductive json : Type :=
| JNull
| JBool (b : bool)
| JNum (n : Z)
| JStr (s : string)
| JArr (items : list json)
| JObj (fields : list (string * json)).

(** [bool(v)]: Python truthiness. *)
Definition truthy (v : json) : bool :=
  match v with
  | JNull => false
  | JBool b => b
  | JNum n => negb (n =? 0)%Z
  | JStr s => negb (String.eqb s "")
  | JArr items => match items with [] => false | _ => true end
  | JObj fields => match fields with [] => false | _ => true end
  end.

(** [v == "literal"] for a string literal. *)
Definition eq_str (v : json) (lit : string) : bool :=
  match v with
  | JStr s => String.eqb s lit
  | _ => false
  end.

(** The items of a [dict], first binding of a key first. *)
Fixpoint dict_lookup (fields : list (string * json)) (key : string) : option json :=
  match fields with
  | [] => None
  | (k, v) :: rest => if String.eqb k key then Some v else dict_lookup rest key
  end.

(** [d.get(key, default)] on a dict. *)
Definition dict_get (fields : list (string * json)) (key : string) (default : json) : json :=
  match dict_lookup fields key with
  | Some v => v
  | None => default
  end.

(** ** Bytes and text *)

Definition byte_in (lo hi : N) (c : ascii) : bool :=
  ((lo <=? N_of_ascii c) && (N_of_ascii c <=? hi))%N.

Definition continuation : ascii -> bool := byte_in 128 191.

(** Second byte allowed after a three-byte lead (no overlong form, no
    surrogate). *)
Definition second_of_three (b0 b1 : ascii) : bool :=
  (byte_in 224 224 b0 && byte_in 160 191 b1)
  || (byte_in 225 236 b0 && continuation b1)
  || (byte_in 237 237 b0 && byte_in 128 159 b1)
  || (byte_in 238 239 b0 && continuation b1).

(** Second byte allowed after a four-byte lead (no overlong form, at most
    U+10FFFF). *)
Definition second_of_four (b0 b1 : ascii) : bool :=
  (byte_in 240 240 b0 && byte_in 144 191 b1)
  || (byte_in 241 243 b0 && continuation b1)
  || (byte_in 244 244 b0 && byte_in 128 143 b1).

(** The strict UTF-8 decoder accepts exactly the well-formed sequences. *)
Fixpoint utf8_wellformed (s : string) : bool :=
  match s with
  | EmptyString => true
  | String b0 r0 =>
      if byte_in 0 127 b0 then utf8_wellformed r0
      else
        match r0 with
        | EmptyString => false
        | String b1 r1 =>
            if byte_in 194 223 b0 then continuation b1 && utf8_wellformed r1
            else
              match r1 with
              | EmptyString => false
              | String b2 r2 =>
                  if second_of_three b0 b1 then continuation b2 && utf8_wellformed r2
                  else
                    match r2 with
                    | EmptyString => false
                    | String b3 r3 =>
                        second_of_four b0 b1 && continuation b2 && continuation b3
                        && utf8_wellformed r3
                    end
              end
        end
  end.

(** [line.decode("utf-8")]: [None] stands for [UnicodeDecodeError]. *)
Definition decode_utf8 (line : string) : option string :=
  if utf8_wellformed line then Some line else None.

(** [s.startswith(p)]. *)
Fixpoint startswith (p s : string) : bool :=
  match p, s with
  | EmptyString, _ => true
  | String a p', String b s' => Ascii.eqb a b && startswith p' s'
  | String _ _, EmptyString => false
  end.

(** [s[n:]] where the first [n] characters of [s] are ASCII (one byte each),
    as they are after [startswith] of an ASCII prefix succeeded. *)
Fixpoint slice_from (n : nat) (s : string) : string :=
  match n, s with
  | O, _ => s
  | S n', String _ s' => slice_from n' s'
  | S _, EmptyString => EmptyString
  end.

(** ** Effects *)

(** Python exceptions, as far as the modelled code raises them. *)
Inductive exn : Type :=
| ClientError (cause : string)     (* invoke_agent_runtime raised *)
| StreamError (cause : string)     (* iter_lines raised: the transport broke *)
| StoreError (cause : string)      (* a Memory Store call raised *)
| UnicodeDecodeError               (* line.decode("utf-8") *)
| AttributeError                   (* .get or .split on a value that has none *)
| TypeError                        (* unhashable key, len() or in on a scalar, str + non-str *)
| KeyError                         (* d[key] with no such key *)
| GraphError.                      (* unknown node, or recursion limit reached *)

Inductive log_line : Type :=
| SavedLine (agent_type : string) (session_id : json)
| SaveFailedLine (agent_type : string) (e : exn).

(** What the pipeline does to the outside, in the order it does it.
    [CreateEvent] is the call [memory_client.create_event] made by
    [save_to_memory] for stage [agent_type]; [Retrieve] is
    [memory_client.retrieve_memories]; [Display] is a call of one of the
    rendering routines of app.py, by its name. *)
Inductive effect : Type :=
| Invoke (agent_type : string) (payload : json)
| Write (event : json)
| CreateEvent (agent_type : string) (memory_id actor_id : string) (session_id : json)
    (messages : list (string * string))
| Print (line : log_line)
| Retrieve (memory_id namespace query : string)
| Display (routine : string) (args : list json).

Inductive outcome (A : Type) : Type :=
| Returned (a : A)
| Raised (e : exn).
Arguments Returned {A} a.
Arguments Raised {A} e.

(** A computation: the effects performed, then a value or an exception. *)
Definition M (A : Type) : Type := list effect * outcome A.

Definition ret {A} (a : A) : M A := ([], Returned a).
Definition raise {A} (e : exn) : M A := ([], Raised e).
Definition perform (ef : effect) : M unit := ([ef], Returned tt).

Definition bind {A B} (m : M A) (k : A -> M B) : M B :=
  match m with
  | (t, Raised e) => (t, Raised e)
  | (t, Returned a) => (t ++ (k a).1, (k a).2)
  end.

(** [try: m except Exception as e: h e]. *)
Definition try_except {A} (m : M A) (h : exn -> M A) : M A :=
  match m with
  | (t, Raised e) => (t ++ (h e).1, (h e).2)
  | (t, Returned a) => (t, Returned a)
  end.

Declare Scope py_scope.
Delimit Scope py_scope with py.
Notation "'do' x <- m ; k" := (bind m (fun x => k))
  (at level 10, x name, m at level 100, k at level 200) : py_scope.
Notation "m ;; k" := (bind m (fun _ => k))
  (at level 100, k at level 200, right associativity) : py_scope.
Local Open Scope py_scope.

Definition trace {A} (m : M A) : list effect := m.1.
Definition result {A} (m : M A) : outcome A := m.2.

(** [event_data.get(key)]: [AttributeError] unless [event_data] is a dict. *)
Definition py_get (event_data : json) (key : string) : M json :=
  match event_data with
  | JObj fields => ret (dict_get fields key JNull)
  | _ => raise AttributeError
  end.


(** ** Python helpers of app.py *)

(** A key of a Python dict: [None], a number ([True] is [1], [False] is [0])
    or a [str]. *)
Abbreviation pykey := (option (Z + string)).

(** The key a value hashes to; lists and dicts are unhashable. *)
Definition key_of (v : json) : option pykey :=
  match v with
  | JNull => Some None
  | JBool b => Some (Some (inl (Z.b2z b)))
  | JNum n => Some (Some (inl n))
  | JStr s => Some (Some (inr s))
  | JArr _ | JObj _ => None
  end.

Definition as_key (v : json) : M pykey :=
  match key_of v with
  | Some k => ret k
  | None => raise TypeError
  end.

(** [sub in s] on two [str]. *)
Fixpoint contains (sub s : string) : bool :=
  startswith sub s
  || match s with
     | EmptyString => false
     | String _ s' => contains sub s'
     end.

(** [s.split("___")[-1]]: what follows the last separator found scanning
    from the left; [skip] characters of a separator are still to be passed. *)
Fixpoint last_segment (skip : nat) (s cur : string) : string :=
  match s with
  | EmptyString => cur
  | String _ s' =>
      match skip with
      | S k => last_segment k s' cur
      | O =>
          if startswith "___" s then last_segment 2 s' (slice_from 3 s)
          else last_segment 0 s' cur
      end
  end.

Definition split_last (s : string) : string := last_segment 0 s s.

(** ["lit" in v]: [None] stands for [TypeError]. *)
Definition py_in (lit : string) (v : json) : option bool :=
  match v with
  | JStr s => Some (contains lit s)
  | JArr items => Some (existsb (fun x => eq_str x lit) items)
  | JObj fields => Some (match dict_lookup fields lit with Some _ => true | None => false end)
  | JNull | JBool _ | JNum _ => None
  end.

(** [tool_name.split("___")[-1] if "___" in tool_name else tool_name]. *)
Definition actual_name (tool_name : json) : M json :=
  match py_in "___" tool_name with
  | None => raise TypeError
  | Some false => ret tool_name
  | Some true =>
      match tool_name with
      | JStr s => ret (JStr (split_last s))
      | _ => raise AttributeError
      end
  end.

(** The local variables of [invoke_fund_manager] that outlive one event.  The
    containers and placeholders are Streamlit handles: only their keys
    matter. *)
Record ClientState : Type := {
  current_agent : json;
  agent_containers : gset pykey;
  agent_thinking_containers : gset pykey;
  current_thinking : gmap pykey string;
  current_text_placeholders : gset pykey;
  tool_id_to_name : gmap pykey json;
  tool_id_to_input : gmap pykey json;
}.

Definition initial_client : ClientState :=
  {| current_agent := JNull; agent_containers := ∅; agent_thinking_containers := ∅;
     current_thinking := ∅; current_text_placeholders := ∅;
     tool_id_to_name := ∅; tool_id_to_input := ∅ |}.

Definition set_thinking (k : pykey) (text : string) (st : ClientState) : ClientState :=
  {| current_agent := current_agent st; agent_containers := agent_containers st;
     agent_thinking_containers := agent_thinking_containers st;
     current_thinking := <[k := text]> (current_thinking st);
     current_text_placeholders := current_text_placeholders st;
     tool_id_to_name := tool_id_to_name st; tool_id_to_input := tool_id_to_input st |}.

Definition set_tool (k : pykey) (name input : json) (st : ClientState) : ClientState :=
  {| current_agent := current_agent st; agent_containers := agent_containers st;
     agent_thinking_containers := agent_thinking_containers st;
     current_thinking := current_thinking st;
     current_text_placeholders := current_text_placeholders st;
     tool_id_to_name := <[k := name]> (tool_id_to_name st);
     tool_id_to_input := <[k := input]> (tool_id_to_input st) |}.

Definition del_tool (k : pykey) (st : ClientState) : ClientState :=
  {| current_agent := current_agent st; agent_containers := agent_containers st;
     agent_thinking_containers := agent_thinking_containers st;
     current_thinking := current_thinking st;
     current_text_placeholders := current_text_placeholders st;
     tool_id_to_name := delete k (tool_id_to_name st);
     tool_id_to_input := delete k (tool_id_to_input st) |}.

Definition start_agent (agent_name : json) (k : pykey) (st : ClientState) : ClientState :=
  {| current_agent := agent_name;
     agent_containers := {[k]} ∪ agent_containers st;
     agent_thinking_containers := {[k]} ∪ agent_thinking_containers st;
     current_thinking := <[k := ""]> (current_thinking st);
     current_text_placeholders := {[k]} ∪ current_text_placeholders st;
     tool_id_to_name := tool_id_to_name st; tool_id_to_input := tool_id_to_input st |}.

(** What [invoke_fund_manager] returns: [{"status": "success"}], or
    [{"status": "error", "error": ...}] with the [error] field of an event or
    with [str(e)] of an exception. *)
Inductive status : Type :=
| Success
| ErrorEvent (error : json)
| ErrorException (e : exn).

(** A record of [retrieve_memories]; [createdAt] and [created_at] are times
    in seconds, when present. *)
Record memory_record : Type := {
  content : option json;
  createdAt : option Z;
  created_at : option Z;
}.

(** What [load_current_session_summary] returns, by its [found] field. *)
Inductive summary : Type :=
| Found (session_id : string) (timestamp : string) (content_text : json)
| NotFound (session_id : string) (error : option exn).

(** ** The pipeline of fund_manager.py *)

Record FundManagerState : Type := {
  user_input : json;
  session_id : json;
  financial_analysis : json;
  portfolio_recommendation : json;
  risk_analysis : json;
}.

(** The body of a streamed response: the lines [iter_lines] yields, then a
    clean end ([None]) or an exception of the transport ([Some cause]). *)
Record response : Type := {
  lines : list string;
  broken : option string;
}.

(** LangGraph's [END] and its default [recursion_limit]. *)
Definition END : string := "__end__".
Definition recursion_limit : nat := 25.

Record StateGraph : Type := {
  nodes : list (string * (FundManagerState -> M FundManagerState));
  entry_point : string;
  edges : list (string * string);
}.

Fixpoint assoc {A} (key : string) (l : list (string * A)) : option A :=
  match l with
  | [] => None
  | (k, a) :: rest => if String.eqb k key then Some a else assoc key rest
  end.

(** [graph.stream(state)]: run the node, follow its edge, stop at [END]. *)
Fixpoint stream_from (g : StateGraph) (fuel : nat) (node : string)
    (state : FundManagerState) : M FundManagerState :=
  if String.eqb node END then ret state
  else
    match fuel with
    | O => raise GraphError
    | S fuel' =>
        match assoc node (nodes g), assoc node (edges g) with
        | Some fn, Some next =>
            do state' <- fn state;
            stream_from g fuel' next state'
        | _, _ => raise GraphError
        end
    end.

Definition stream (g : StateGraph) (state : FundManagerState) : M FundManagerState :=
  stream_from g recursion_limit (entry_point g) state.


(** ** Sample services

    Closed instances of the services, used in the examples below.
    [sample_loads] agrees with [json.loads] on the texts it lists, and is
    applied to no other text than the unparsable ["{oops"]. *)

Definition dq : string := String "034"%char EmptyString.
Definition quoted (s : string) : string := dq +:+ s +:+ dq.

(** [{"type": "text_chunk", "data": "hi"}] *)
Definition chunk_text : string :=
  "{" +:+ quoted "type" +:+ ": " +:+ quoted "text_chunk" +:+ ", "
  +:+ quoted "data" +:+ ": " +:+ quoted "hi" +:+ "}".
Definition chunk_event : json :=
  JObj [("type", JStr "text_chunk"); ("data", JStr "hi")].

(** [{"type": "streaming_complete", "result": "<r>"}] *)
Definition complete_text (r : string) : string :=
  "{" +:+ quoted "type" +:+ ": " +:+ quoted "streaming_complete" +:+ ", "
  +:+ quoted "result" +:+ ": " +:+ quoted r +:+ "}".
Definition complete_event (r : string) : json :=
  JObj [("type", JStr "streaming_complete"); ("result", JStr r)].

(** [{"type": "error", "error": "boom"}] *)
Definition error_text : string :=
  "{" +:+ quoted "type" +:+ ": " +:+ quoted "error" +:+ ", "
  +:+ quoted "error" +:+ ": " +:+ quoted "boom" +:+ "}".
Definition error_event : json :=
  JObj [("type", JStr "error"); ("error", JStr "boom")].

Definition sample_loads (text : string) : option json :=
  if String.eqb text chunk_text then Some chunk_event
  else if String.eqb text (complete_text "F") then Some (complete_event "F")
  else if String.eqb text (complete_text "P") then Some (complete_event "P")
  else if String.eqb text (complete_text "R") then Some (complete_event "R")
  else if String.eqb text error_text then Some error_event
  else if String.eqb text "42" then Some (JNum 42)
  else None.

(** [str] of a [str] is the [str] itself, [str(None)] is ["None"]; other
    values do not occur. *)
Definition sample_str (v : json) : string :=
  match v with
  | JStr s => s
  | JNull => "None"
  | _ => "?"
  end.

Definition sample_dumps (v : json) : string := "{...}".

Definition closing (ls : list string) : string + response :=
  inr {| lines := ls; broken := None |}.

(** Every agent answers; the financial one also sends a comment line and an
    unparsable frame. *)
Definition healthy_service (agent_type : string) (payload : json) : string + response :=
  if String.eqb agent_type "financial" then
    closing [": keep-alive"; "data: " +:+ chunk_text; "data: {oops";
             "data: " +:+ complete_text "F"]
  else if String.eqb agent_type "portfolio" then
    closing ["data: " +:+ chunk_text; "data: " +:+ complete_text "P"]
  else if String.eqb agent_type "risk" then
    closing ["data: " +:+ complete_text "R"]
  else inl "no such runtime".


(** The financial agent sends the JSON number 42 as a frame, then a chunk. *)
Definition scalar_service (agent_type : string) (payload : json) : string + response :=
  if String.eqb agent_type "financial" then
    closing ["data: 42"; "data: " +:+ chunk_text]
  else healthy_service agent_type payload.

(** The financial agent reports an error and closes. *)
Definition erring_service (agent_type : string) (payload : json) : string + response :=
  if String.eqb agent_type "financial" then closing ["data: " +:+ error_text]
  else if String.eqb agent_type "fund_manager" then
    closing ["data: " +:+ error_text; "data: " +:+ chunk_text]
  else healthy_service agent_type payload.

(** The financial agent closes without a [streaming_complete] frame. *)
Definition silent_service (agent_type : string) (payload : json) : string + response :=
  if String.eqb agent_type "financial" then closing ["data: " +:+ chunk_text]
  else healthy_service agent_type payload.

Definition store_up (memory_id actor_id : string) (session_id : json)
    (messages : list (string * string)) : option string := None.

Definition store_down (memory_id actor_id : string) (session_id : json)
    (messages : list (string * string)) : option string := Some "throttled".

Definition sample_request : json :=
  JObj [("total_investable_amount", JNum 50000000); ("age", JNum 32);
        ("stock_investment_experience_years", JNum 7);
        ("target_amount", JNum 70000000)].

Definition sample_session : json := JStr "session_20240101_120000".

(** [{"type": "tool_use", "tool_name": "calculator", "tool_use_id": "abc",
     "tool_input": "1+1"}] *)
Definition tool_use_event : json :=
  JObj [("type", JStr "tool_use"); ("tool_name", JStr "calculator");
        ("tool_use_id", JStr "abc"); ("tool_input", JStr "1+1")].

(** [{"type": "tool_result", "tool_use_id": "abc", "content": [{"text": "2"}]}] *)
Definition tool_result_fields : list (string * json) :=
  [("type", JStr "tool_result"); ("tool_use_id", JStr "abc");
   ("content", JArr [JObj [("text", JStr "2")]])].
Definition tool_result_event : json := JObj tool_result_fields.

(** The key of the call id ["abc"]. *)
Definition abc : pykey := Some (inr "abc").

(** A line that is not UTF-8: the single byte 255. *)
Definition stray_byte : string := String "255"%char EmptyString.

(** The client state after [node_start] of the financial stage and the
    [tool_use] event of call ["abc"]. *)
Definition client_after_tool_use : ClientState :=
  set_tool abc (JStr "calculator") (JStr "1+1")
    (start_agent (JStr "financial") (Some (inr "financial")) initial_client).

(** [display_financial_analysis] never raises. *)
Definition calm_display (result : json) : option exn := None.

(** Two summaries of one session, the older one first. *)
Definition older_record : memory_record :=
  {| content := Some (JObj [("text", JStr "first summary")]);
     createdAt := Some 100%Z; created_at := None |}.
Definition newer_record : memory_record :=
  {| content := Some (JObj [("text", JStr "second summary")]);
     createdAt := Some 200%Z; created_at := None |}.

Definition unordered_store (memory_id namespace query : string)
    : string + list memory_record :=
  if String.eqb namespace "fund_management/session/session_20240101_120000"
  then inr [older_record; newer_record]
  else inr [].

(** A stand-in for [isoformat]: the time in seconds, as a numeral. *)
Definition sample_isoformat (t : Z) : string :=
  if (t =? 100)%Z then "100" else if (t =? 200)%Z then "200" else "?".

(** ** More of app.py: text search *)

(** [text.find(c)] for a one-character [c]; [None] stands for [-1]. *)
Fixpoint find_char (c : ascii) (s : string) : option nat :=
  match s with
  | EmptyString => None
  | String a s' => if Ascii.eqb a c then Some 0 else S <$> find_char c s'
  end.

(** [text.rfind(c)] for a one-character [c]; [None] stands for [-1]. *)
Fixpoint rfind_char (c : ascii) (s : string) : option nat :=
  match s with
  | EmptyString => None
  | String a s' =>
      match rfind_char c s' with
      | Some i => Some (S i)
      | None => if Ascii.eqb a c then Some 0 else None
      end
  end.

(** ** More sample services *)

(** The financial agent sends a complete result, then the transport breaks. *)
Definition breaking_service (agent_type : string) (payload : json) : string + response :=
  if String.eqb agent_type "financial" then
    inr {| lines := ["data: " +:+ chunk_text; "data: " +:+ complete_text "F"];
           broken := Some "connection reset" |}
  else healthy_service agent_type payload.

(** ** Deployment information: deploy.py, fund_manager.py and app.py

    Paths are relative to the root of the repository, the scripts being at
    their places in it. *)

(** A file as [exists], [open] and [json.load] find it. *)
Inductive file : Type :=
| Absent
| Garbled
| Holds (value : json).

(** What loading deployment information raises: [open] on a missing file,
    [json.load] on a file that does not parse, a subscript that fails, and
    the [FileNotFoundError] deploy.py raises itself for what is not deployed. *)
Inductive load_exn : Type :=
| FileNotFoundError (path : string)
| JSONDecodeError (path : string)
| LookupFailed (e : exn)
| NotDeployed (missing : list string).

(** A loader: the paths it opens, in order, and its outcome. *)
Definition loading (A : Type) : Type := list string * (load_exn + A).

(** [os.getenv(name)]: [None] when the variable is not set. *)
Definition getenv (env : list (string * string)) (name : string) : json :=
  match assoc name env with
  | Some s => JStr s
  | None => JNull
  end.

(** [d[key] = v]: the binding is replaced in place or added at the end. *)
Fixpoint dict_set (fields : list (string * json)) (key : string) (v : json)
    : list (string * json) :=
  match fields with
  | [] => [(key, v)]
  | (k, x) :: rest =>
      if String.eqb k key then (k, v) :: rest else (k, x) :: dict_set rest key v
  end.

(** [d.update(other)]. *)
Definition dict_update (fields other : list (string * json)) : list (string * json) :=
  fold_left (fun d kv => dict_set d kv.1 kv.2) other fields.

(** [v[key]] for a string [key]. *)
Definition subscript (v : json) (key : string) : exn + json :=
  match v with
  | JObj fields =>
      match dict_lookup fields key with
      | Some x => inr x
      | None => inl KeyError
      end
  | JNull | JBool _ | JNum _ | JStr _ | JArr _ => inl TypeError
  end.

(** [path.exists()]. *)
Definition file_exists (fs : string -> file) (path : string) : bool :=
  match fs path with
  | Absent => false
  | Garbled | Holds _ => true
  end.

(** [with open(path) as f: json.load(f)]. *)
Definition json_load (fs : string -> file) (path : string) : load_exn + json :=
  match fs path with
  | Absent => inl (FileNotFoundError path)
  | Garbled => inl (JSONDecodeError path)
  | Holds v => inr v
  end.

(** [with open(path) as f: json.load(f)[key]]. *)
Definition load_field (fs : string -> file) (path key : string) : load_exn + json :=
  match json_load fs path with
  | inl e => inl e
  | inr v =>
      match subscript v key with
      | inl e => inl (LookupFailed e)
      | inr x => inr x
      end
  end.

(** *** fund_manager.py: [AgentClient._load_agent_arns] and [_load_memory_id] *)

Definition agent_dirs : list (string * string) :=
  [("financial", "financial_analyst"); ("portfolio", "portfolio_architect");
   ("risk", "risk_manager")].

(** [base_dir / agent_dir / "deployment_info.json"], [base_dir] being the
    parent of the directory of fund_manager.py. *)
Definition agent_info_file (agent_dir : string) : string :=
  "fund_manager/" +:+ agent_dir +:+ "/deployment_info.json".

(** The loop over [agent_dirs.items()]. *)
Fixpoint load_missing_arns (fs : string -> file) (dirs : list (string * string))
    (arns : list (string * json)) : loading (list (string * json)) :=
  match dirs with
  | [] => ([], inr arns)
  | (agent_key, agent_dir) :: rest =>
      match dict_lookup arns agent_key with
      | None => ([], inl (LookupFailed KeyError))
      | Some arn =>
          if truthy arn then load_missing_arns fs rest arns
          else
            let info_file := agent_info_file agent_dir in
            match load_field fs info_file "agent_arn" with
            | inl e => ([info_file], inl e)
            | inr v =>
                let next := load_missing_arns fs rest (dict_set arns agent_key v) in
                (info_file :: next.1, next.2)
            end
      end
  end.

Definition _load_agent_arns (env : list (string * string)) (fs : string -> file)
    : loading (list (string * json)) :=
  let arns := [("financial", getenv env "FINANCIAL_ANALYST_ARN");
               ("portfolio", getenv env "PORTFOLIO_ARCHITECT_ARN");
               ("risk", getenv env "RISK_MANAGER_ARN")] in
  if forallb truthy arns.*2 then ([], inr arns)
  else load_missing_arns fs agent_dirs arns.

(** The agents of the pipeline, the variables of the environment that name
    their runtimes, and their directories. *)
Definition agent_variables : list (string * string * string) :=
  [("financial", "FINANCIAL_ANALYST_ARN", "financial_analyst");
   ("portfolio", "PORTFOLIO_ARCHITECT_ARN", "portfolio_architect");
   ("risk", "RISK_MANAGER_ARN", "risk_manager")].

(** The deployment information of the memory, beside fund_manager.py and
    deploy.py. *)
Definition memory_info_file : string :=
  "fund_manager/completed/agentcore_memory/deployment_info.json".

Definition _load_memory_id (env : list (string * string)) (fs : string -> file)
    : loading json :=
  let memory_id := getenv env "FUND_MEMORY_ID" in
  if truthy memory_id then ([], inr memory_id)
  else ([memory_info_file], load_field fs memory_info_file "memory_id").

(** *** app.py: [load_deployment_info]

    [inl e] is [st.stop()] after the error message for [e]. *)
Definition load_deployment_info (env : list (string * string)) (fs : string -> file)
    : loading (json * json * json * string) :=
  let agent_arn := getenv env "BWB_FUND_MANAGER_ARN" in
  let memory_id := getenv env "BWB_MEMORY_ID" in
  let region := getenv env "BWB_AWS_REGION" in
  if truthy agent_arn && truthy memory_id && truthy region then
    ([], inr (agent_arn, memory_id, region, "static"))
  else
    let info_file := "fund_manager/deployment_info.json" in
    let memory_file := "fund_manager/agentcore_memory/deployment_info.json" in
    match json_load fs info_file with
    | inl e => ([info_file], inl e)
    | inr deployment_info =>
        match subscript deployment_info "agent_arn" with
        | inl e => ([info_file], inl (LookupFailed e))
        | inr agent_arn =>
            match subscript deployment_info "region" with
            | inl e => ([info_file], inl (LookupFailed e))
            | inr region =>
                match load_field fs memory_file "memory_id" with
                | inl e => ([info_file; memory_file], inl e)
                | inr memory_id =>
                    ([info_file; memory_file],
                     inr (agent_arn, memory_id, region, "../static"))
                end
            end
        end
    end.

(** *** deploy.py: [load_memory_info], [load_agent_arns] and the variables
    [deploy_fund_manager] launches the runtime with *)

Definition REGION : string := "us-west-2".

Definition load_memory_info (fs : string -> file) : loading json :=
  if file_exists fs memory_info_file then
    ([memory_info_file], json_load fs memory_info_file)
  else ([], inl (NotDeployed ["agentcore_memory"])).

Definition deployed_agent_dirs : list (string * string) :=
  [("FINANCIAL_ANALYST_ARN", "financial_analyst/completed");
   ("PORTFOLIO_ARCHITECT_ARN", "portfolio_architect/completed");
   ("RISK_MANAGER_ARN", "risk_manager/completed")].

(** The loop of [load_agent_arns] over [agent_dirs.items()]. *)
Fixpoint collect_arns (fs : string -> file) (dirs : list (string * string))
    (arns : list (string * json)) (missing_agents : list string)
    : loading (list (string * json) * list string) :=
  match dirs with
  | [] => ([], inr (arns, missing_agents))
  | (env_var_name, agent_dir) :: rest =>
      let info_file := agent_dir +:+ "/deployment_info.json" in
      if file_exists fs info_file then
        match load_field fs info_file "agent_arn" with
        | inl e => ([info_file], inl e)
        | inr v =>
            let next := collect_arns fs rest (dict_set arns env_var_name v)
                          missing_agents in
            (info_file :: next.1, next.2)
        end
      else collect_arns fs rest arns (missing_agents ++ [agent_dir])
  end.

Definition load_agent_arns (fs : string -> file) : loading (list (string * json)) :=
  match collect_arns fs deployed_agent_dirs [] [] with
  | (paths, inl e) => (paths, inl e)
  | (paths, inr (arns, [])) => (paths, inr arns)
  | (paths, inr (_, missing_agents)) => (paths, inl (NotDeployed missing_agents))
  end.

(** [env_vars] of [deploy_fund_manager]. *)
Definition env_vars (memory_info : json) (agent_arns : list (string * json))
    : exn + list (string * json) :=
  match subscript memory_info "memory_id" with
  | inl e => inl e
  | inr memory_id =>
      inr (dict_update [("FUND_MEMORY_ID", memory_id); ("AWS_REGION", JStr REGION)]
             agent_arns)
  end.

(** *** deploy.py: the wait of [deploy_fund_manager] *)

(** The statuses at which the wait ends. *)
Definition terminal (status : string) : bool :=
  existsb (String.eqb status) ["READY"; "CREATE_FAILED"; "DELETE_FAILED"; "UPDATE_FAILED"].

(** [for i in range(30)] with [n] turns left: the call of [runtime.status()]
    of turn [i] gives [poll i], [inl] when it raises.  The result is the
    variable [status] after the loop, [None] while it is unbound, and the
    number of times the loop slept. *)
Fixpoint wait_for_status (poll : nat -> string + string) (n i : nat)
    (status : option string) : option string * nat :=
  match n with
  | O => (status, 0%nat)
  | S n' =>
      match poll i with
      | inr s =>
          if terminal s then (Some s, 0%nat)
          else
            let later := wait_for_status poll n' (S i) (Some s) in
            (later.1, S later.2)
      | inl _ =>
          let later := wait_for_status poll n' (S i) status in
          (later.1, S later.2)
      end
  end.

(** What the check after the loop raises: [UnboundLocalError] when no call
    gave a status, the exception of the script with the last status. *)
Inductive deploy_exn : Type :=
| UnboundLocalError
| DeployFailed (status : string).

(** The loop and the check after it: the number of sleeps when the runtime
    is ready. *)
Definition wait_until_ready (poll : nat -> string + string) : deploy_exn + nat :=
  match wait_for_status poll 30 0 None with
  | (None, _) => inl UnboundLocalError
  | (Some status, sleeps) =>
      if String.eqb status "READY" then inr sleeps else inl (DeployFailed status)
  end.

(** *** deploy_agentcore_memory.py: [deploy_memory] *)

Definition MEMORY_NAME : string := "FundManager_Memory".

(** The calls of the memory client. *)
Inductive memory_call : Type :=
| ListMemories
| CreateMemoryAndWait (name : string) (namespaces : list string)
    (event_expiry_days max_wait poll_interval : Z).

(** [next((m for m in memories if m['id'].startswith(MEMORY_NAME)), None)]. *)
Fixpoint existing_memory (memories : list json) : exn + option json :=
  match memories with
  | [] => inr None
  | m :: rest =>
      match subscript m "id" with
      | inl e => inl e
      | inr (JStr id) =>
          if startswith MEMORY_NAME id then inr (Some m) else existing_memory rest
      | inr _ => inl AttributeError
      end
  end.

(** [deploy_memory()]: [list_memories] and [create_memory_and_wait] are the
    answers of the memory client, [inl] when it raises. *)
Definition deploy_memory (list_memories : string + list json)
    (create_memory_and_wait : string + json) : list memory_call * (exn + json) :=
  match list_memories with
  | inl cause => ([ListMemories], inl (ClientError cause))
  | inr memories =>
      match existing_memory memories with
      | inl e => ([ListMemories], inl e)
      | inr (Some m) =>
          if truthy m then ([ListMemories], subscript m "id")
          else
            ([ListMemories;
              CreateMemoryAndWait MEMORY_NAME ["fund_management/session/{sessionId}"]
                7 300 10],
             match create_memory_and_wait with
             | inl cause => inl (ClientError cause)
             | inr memory => subscript memory "id"
             end)
      | inr None =>
          ([ListMemories;
            CreateMemoryAndWait MEMORY_NAME ["fund_management/session/{sessionId}"]
              7 300 10],
           match create_memory_and_wait with
           | inl cause => inl (ClientError cause)
           | inr memory => subscript memory "id"
           end)
      end
  end.

(** ** More samples *)

(** The Fund Manager relays a chunk, an empty line and a comment, and
    closes. *)
Definition quiet_service (agent_type : string) (payload : json) : string + response :=
  if String.eqb agent_type "fund_manager" then
    closing ["data: " +:+ chunk_text; ""; ": keep-alive"]
  else healthy_service agent_type payload.

(** [{"type": "node_start", "agent_name": "financial"}] *)
Definition start_text : string :=
  "{" +:+ quoted "type" +:+ ": " +:+ quoted "node_start" +:+ ", "
  +:+ quoted "agent_name" +:+ ": " +:+ quoted "financial" +:+ "}".
Definition start_fields : list (string * json) :=
  [("type", JStr "node_start"); ("agent_name", JStr "financial")].

(** [{"type": "node_complete", "agent_name": "financial", "result": "no data"}] *)
Definition plain_complete_text : string :=
  "{" +:+ quoted "type" +:+ ": " +:+ quoted "node_complete" +:+ ", "
  +:+ quoted "agent_name" +:+ ": " +:+ quoted "financial" +:+ ", "
  +:+ quoted "result" +:+ ": " +:+ quoted "no data" +:+ "}".
Definition plain_complete_fields : list (string * json) :=
  [("type", JStr "node_complete"); ("agent_name", JStr "financial");
   ("result", JStr "no data")].

(** [sample_loads], and the two texts above. *)
Definition page_loads (text : string) : option json :=
  if String.eqb text start_text then Some (JObj start_fields)
  else if String.eqb text plain_complete_text then Some (JObj plain_complete_fields)
  else sample_loads text.

(** The Fund Manager relays a financial stage whose result is plain text. *)
Definition plain_result_service (agent_type : string) (payload : json)
    : string + response :=
  if String.eqb agent_type "fund_manager" then
    closing ["data: " +:+ start_text; "data: " +:+ plain_complete_text;
             "data: " +:+ chunk_text]
  else healthy_service agent_type payload.

(** [{"type": "tool_use", "tool_name": "gateway___calculator",
     "tool_use_id": "abc", "tool_input": "1+1"}] *)
Definition gateway_tool_use_fields : list (string * json) :=
  [("type", JStr "tool_use"); ("tool_name", JStr "gateway___calculator");
   ("tool_use_id", JStr "abc"); ("tool_input", JStr "1+1")].

(** [{"type": "tool_use", "tool_name": "calculator", "tool_use_id": "xyz",
     "tool_input": "2*3"}] *)
Definition other_tool_use_event : json :=
  JObj [("type", JStr "tool_use"); ("tool_name", JStr "calculator");
        ("tool_use_id", JStr "xyz"); ("tool_input", JStr "2*3")].

(** A deployment file with one field. *)
Definition info (key value : string) : file := Holds (JObj [(key, JStr value)]).

(** The repository after the memory and the three agents were deployed. *)
Definition deployed_files (path : string) : file :=
  if String.eqb path memory_info_file then info "memory_id" "FundManager_Memory-1"
  else if String.eqb path "financial_analyst/completed/deployment_info.json"
  then info "agent_arn" "arn:financial"
  else if String.eqb path "portfolio_architect/completed/deployment_info.json"
  then info "agent_arn" "arn:portfolio"
  else if String.eqb path "risk_manager/completed/deployment_info.json"
  then info "agent_arn" "arn:risk"
  else Absent.

(** The environment of the runtime launched from [deployed_files]. *)
Definition launched_env : list (string * string) :=
  [("FUND_MEMORY_ID", "FundManager_Memory-1"); ("AWS_REGION", "us-west-2");
   ("FINANCIAL_ANALYST_ARN", "arn:financial");
   ("PORTFOLIO_ARCHITECT_ARN", "arn:portfolio");
   ("RISK_MANAGER_ARN", "arn:risk")].

(** No file at all. *)
Definition no_files (path : string) : file := Absent.

(** Only the financial agent is named in the environment, the variable of
    the risk agent being empty; the files of the other two are under
    fund_manager/. *)
Definition partial_env : list (string * string) :=
  [("FINANCIAL_ANALYST_ARN", "arn:financial"); ("RISK_MANAGER_ARN", "")].
Definition local_files (path : string) : file :=
  if String.eqb path "fund_manager/portfolio_architect/deployment_info.json"
  then info "agent_arn" "arn:portfolio"
  else if String.eqb path "fund_manager/risk_manager/deployment_info.json"
  then info "agent_arn" "arn:risk"
  else Absent.

Section Pipeline.

(** [json.loads]: [None] stands for [JSONDecodeError]. *)
Variable json_loads : string -> option json.
(** [json.dumps(v, ensure_ascii=False)] and [str(v)]. *)
Variable json_dumps : json -> string.
Variable py_str : json -> string.
(** The Agent Service behind [invoke_agent_runtime], by agent type:
    [inl cause] when the call itself raises. *)
Variable invoke_agent_runtime : string -> json -> string + response.
(** The Memory Store behind [create_event]: [Some cause] when it raises. *)
Variable create_event : string -> string -> json -> list (string * string) -> option string.
(** [AgentClient.memory_id]. *)
Variable memory_id : string.
(** [datetime.now().strftime('%Y%m%d_%H%M%S')] at the start of the run. *)
Variable now : string.

(** The loop of [call_agent_with_streaming] over the remaining lines, with
    the current value of [final_result]. *)
Fixpoint iter_lines_loop (rest : list string) (tail : option string)
    (final_result : json) : M json :=
  match rest with
  | [] =>
      match tail with
      | Some cause => raise (StreamError cause)
      | None => ret final_result
      end
  | line :: rest' =>
      if String.eqb line "" then iter_lines_loop rest' tail final_result
      else
        match decode_utf8 line with
        | None => raise UnicodeDecodeError
        | Some text =>
            if startswith "data: " text then
              match json_loads (slice_from 6 text) with
              | None => iter_lines_loop rest' tail final_result
              | Some event_data =>
                  perform (Write event_data);;
                  do type <- py_get event_data "type";
                  if eq_str type "streaming_complete" then
                    do r <- py_get event_data "result";
                    iter_lines_loop rest' tail r
                  else iter_lines_loop rest' tail final_result
              end
            else iter_lines_loop rest' tail final_result
        end
  end.

Definition call_agent_with_streaming (agent_type : string) (data : json) : M json :=
  perform (Invoke agent_type (JObj [("input_data", data)]));;
  match invoke_agent_runtime agent_type (JObj [("input_data", data)]) with
  | inl cause => raise (ClientError cause)
  | inr resp => iter_lines_loop (lines resp) (broken resp) JNull
  end.

Definition input_text (user_input : json) : string :=
  match user_input with
  | JObj _ => json_dumps user_input
  | _ => py_str user_input
  end.

Definition turn_messages (agent_type : string) (user_input agent_result : json)
    : list (string * string) :=
  [ (agent_type +:+ " 분석 요청: " +:+ input_text user_input, "USER");
    (agent_type +:+ " 결과: " +:+ py_str agent_result, "ASSISTANT") ].

Definition save_to_memory (session_id : json) (agent_type : string)
    (user_input agent_result : json) : M unit :=
  if String.eqb memory_id "" || negb (truthy agent_result) then ret tt
  else
    try_except
      (let messages := turn_messages agent_type user_input agent_result in
       perform (CreateEvent agent_type memory_id "fund_manager_user" session_id messages);;
       match create_event memory_id "fund_manager_user" session_id messages with
       | Some cause => raise (StoreError cause)
       | None => perform (Print (SavedLine agent_type session_id))
       end)
      (fun e => perform (Print (SaveFailedLine agent_type e))).

Definition node_start (agent_name : string) (session_id : json) : json :=
  JObj [("type", JStr "node_start"); ("agent_name", JStr agent_name);
        ("session_id", session_id)].

Definition node_complete (agent_name : string) (session_id result : json) : json :=
  JObj [("type", JStr "node_complete"); ("agent_name", JStr agent_name);
        ("session_id", session_id); ("result", result)].

Definition financial_node (state : FundManagerState) : M FundManagerState :=
  perform (Write (node_start "financial" (session_id state)));;
  do result <- call_agent_with_streaming "financial" (user_input state);
  perform (Write (node_complete "financial" (session_id state) result));;
  save_to_memory (session_id state) "financial" (user_input state) result;;
  ret {| user_input := user_input state; session_id := session_id state;
         financial_analysis := result;
         portfolio_recommendation := portfolio_recommendation state;
         risk_analysis := risk_analysis state |}.

Definition portfolio_node (state : FundManagerState) : M FundManagerState :=
  perform (Write (node_start "portfolio" (session_id state)));;
  do result <- call_agent_with_streaming "portfolio" (financial_analysis state);
  perform (Write (node_complete "portfolio" (session_id state) result));;
  save_to_memory (session_id state) "portfolio" (financial_analysis state) result;;
  ret {| user_input := user_input state; session_id := session_id state;
         financial_analysis := financial_analysis state;
         portfolio_recommendation := result;
         risk_analysis := risk_analysis state |}.

Definition risk_node (state : FundManagerState) : M FundManagerState :=
  perform (Write (node_start "risk" (session_id state)));;
  do result <- call_agent_with_streaming "risk" (portfolio_recommendation state);
  perform (Write (node_complete "risk" (session_id state) result));;
  save_to_memory (session_id state) "risk" (portfolio_recommendation state) result;;
  ret {| user_input := user_input state; session_id := session_id state;
         financial_analysis := financial_analysis state;
         portfolio_recommendation := portfolio_recommendation state;
         risk_analysis := result |}.

Definition create_graph : StateGraph :=
  {| nodes := [("financial", financial_node); ("portfolio", portfolio_node);
               ("risk", risk_node)];
     entry_point := "financial";
     edges := [("financial", "portfolio"); ("portfolio", "risk"); ("risk", END)] |}.

(** [FundManager.run_consultation]; [session_id] is [JNull] when the caller
    gave none. *)
Definition run_consultation (user_input session_id : json) : M FundManagerState :=
  let session_id :=
    if truthy session_id then session_id else JStr ("session_" +:+ now) in
  stream create_graph
    {| user_input := user_input; session_id := session_id;
       financial_analysis := JStr ""; portfolio_recommendation := JStr "";
       risk_analysis := JStr "" |}.

(** [fund_manager_entrypoint(payload)]. *)
Definition fund_manager_entrypoint (payload : list (string * json)) : M FundManagerState :=
  run_consultation (dict_get payload "input_data" JNull)
                   (dict_get payload "session_id" JNull).


(** ** The client loop of app.py *)

(** [display_financial_analysis(container, result)], the one rendering
    routine of the loop with no handler of its own: [Some e] when it raises. *)
Variable display_financial_analysis : json -> option exn.

(** The branch [text_chunk].  Redrawing the text placeholder changes no
    variable and is left out. *)
Definition on_text_chunk (st : ClientState) (event_data : list (string * json))
    : M ClientState :=
  let chunk_data := dict_get event_data "data" (JStr "") in
  if truthy (current_agent st) then
    do k <- as_key (current_agent st);
    match current_thinking st !! k with
    | Some text =>
        match chunk_data with
        | JStr chunk => ret (set_thinking k (text +:+ chunk) st)
        | _ => raise TypeError
        end
    | None => ret st
    end
  else ret st.

(** The branch [tool_use]. *)
Definition on_tool_use (st : ClientState) (event_data : list (string * json))
    : M ClientState :=
  let tool_name := dict_get event_data "tool_name" (JStr "") in
  let tool_use_id := dict_get event_data "tool_use_id" (JStr "") in
  let tool_input := dict_get event_data "tool_input" (JStr "") in
  do actual_tool_name <- actual_name tool_name;
  do k <- as_key tool_use_id;
  ret (set_tool k actual_tool_name tool_input st).

(** [json.loads(v)] under a bare [except]: [None] when anything is raised. *)
Definition loads_value (v : json) : option json :=
  match v with
  | JStr text => json_loads text
  | _ => None
  end.

(** The [body] the risk branch renders, [None] when computing it raises. *)
Definition risk_body (parsed_result : json) : option json :=
  match py_in "statusCode" parsed_result with
  | None => None
  | Some false => Some parsed_result
  | Some true =>
      match py_in "body" parsed_result with
      | None => None
      | Some false => Some parsed_result
      | Some true =>
          match parsed_result with
          | JObj fields =>
              match dict_lookup fields "body" with
              | Some (JStr text) => json_loads text
              | Some body => Some body
              | None => None
              end
          | _ => None
          end
      end
  end.

(** Which routine renders a tool result, for the current agent and the
    tool name found for the result. *)
Definition render_tool_result (current_agent actual_tool_name tool_input result_text : json)
    : M unit :=
  if eq_str current_agent "financial" && eq_str actual_tool_name "calculator" then
    perform (Display "display_calculator_result" [tool_input; result_text])
  else if eq_str current_agent "portfolio" then
    match loads_value result_text with
    | Some body =>
        if eq_str actual_tool_name "analyze_etf_performance" then
          perform (Display "display_etf_analysis_result" [body])
        else if eq_str actual_tool_name "calculate_correlation" then
          perform (Display "display_correlation_analysis" [body])
        else ret tt
    | None => ret tt
    end
  else if eq_str current_agent "risk" then
    match loads_value result_text ≫= risk_body with
    | Some body =>
        if eq_str actual_tool_name "get_product_news" then
          perform (Display "display_news_data" [body])
        else if eq_str actual_tool_name "get_market_data" then
          perform (Display "display_market_data" [body])
        else if eq_str actual_tool_name "get_geopolitical_indicators" then
          perform (Display "display_geopolitical_data" [body])
        else ret tt
    | None => ret tt
    end
  else ret tt.

(** [tool_content[0].get("text", "{}")] for a truthy [tool_content] whose
    [len] was taken. *)
Definition first_text (tool_content : json) : M json :=
  match tool_content with
  | JArr (JObj fields :: _) => ret (dict_get fields "text" (JStr "{}"))
  | JArr _ | JStr _ => raise AttributeError
  | JObj _ => raise KeyError
  | JNull | JBool _ | JNum _ => raise TypeError
  end.

(** The two look-ups of the branch [tool_result]. *)
Definition correlate (st : ClientState) (k : pykey) : json * json :=
  (default (JStr "unknown") (tool_id_to_name st !! k),
   default (JStr "unknown") (tool_id_to_input st !! k)).

(** The branch [tool_result], first part: the result is rendered when it has
    content and the current agent has a container. *)
Definition show_tool_result (st : ClientState)
    (actual_tool_name tool_input tool_content : json) : M unit :=
  if truthy tool_content then
    match tool_content with
    | JBool _ | JNum _ => raise TypeError
    | _ =>
        do ca <- as_key (current_agent st);
        if decide (ca ∈ agent_thinking_containers st) then
          do result_text <- first_text tool_content;
          render_tool_result (current_agent st) actual_tool_name tool_input result_text
        else ret tt
    end
  else ret tt.

(** The branch [tool_result], second part, under [if current_agent:]: the
    thinking buffer is emptied, the entries of the call are deleted and the
    text placeholder is replaced. *)
Definition forget_tool_call (st : ClientState) (k : pykey) : M ClientState :=
  if truthy (current_agent st) then
    do ca <- as_key (current_agent st);
    let st' := del_tool k (set_thinking ca "" st) in
    if decide (ca ∈ current_text_placeholders st') then
      if decide (ca ∈ agent_thinking_containers st') then ret st' else raise KeyError
    else ret st'
  else ret st.

(** The branch [tool_result]. *)
Definition on_tool_result (st : ClientState) (event_data : list (string * json))
    : M ClientState :=
  let tool_use_id := dict_get event_data "tool_use_id" (JStr "") in
  do k <- as_key tool_use_id;
  let actual_tool_name := (correlate st k).1 in
  let tool_input := (correlate st k).2 in
  let tool_content := dict_get event_data "content" (JArr [JObj []]) in
  show_tool_result st actual_tool_name tool_input tool_content;;
  forget_tool_call st k.

(** The branch [node_start]. *)
Definition on_node_start (st : ClientState) (event_data : list (string * json))
    : M ClientState :=
  let agent_name := dict_get event_data "agent_name" JNull in
  do k <- as_key agent_name;
  ret (start_agent agent_name k st).

(** The branch [node_complete]. *)
Definition on_node_complete (st : ClientState) (event_data : list (string * json))
    : M ClientState :=
  let agent_name := dict_get event_data "agent_name" JNull in
  let result := dict_get event_data "result" JNull in
  do k <- as_key agent_name;
  if bool_decide (k ∈ agent_containers st) && truthy result then
    if eq_str agent_name "financial" then
      perform (Display "display_financial_analysis" [result]);;
      match display_financial_analysis result with
      | Some e => raise e
      | None => ret st
      end
    else if eq_str agent_name "portfolio" then
      perform (Display "display_portfolio_result" [result]);; ret st
    else if eq_str agent_name "risk" then
      perform (Display "display_risk_analysis_result" [result]);; ret st
    else ret st
  else ret st.

(** One turn of the loop body on a decoded frame: the next state, or the
    value the function returns at once. *)
Definition handle_event (st : ClientState) (event_data : json)
    : M (ClientState + status) :=
  do event_type <- py_get event_data "type";
  match event_data with
  | JObj fields =>
      if eq_str event_type "text_chunk" then
        do st' <- on_text_chunk st fields; ret (inl st')
      else if eq_str event_type "tool_use" then
        do st' <- on_tool_use st fields; ret (inl st')
      else if eq_str event_type "tool_result" then
        do st' <- on_tool_result st fields; ret (inl st')
      else if eq_str event_type "node_start" then
        do st' <- on_node_start st fields; ret (inl st')
      else if eq_str event_type "node_complete" then
        do st' <- on_node_complete st fields; ret (inl st')
      else if eq_str event_type "error" then
        ret (inr (ErrorEvent (dict_get fields "error" (JStr "Unknown error"))))
      else ret (inl st)
  | _ => raise AttributeError
  end.

(** The loop of [invoke_fund_manager] over the remaining lines; the state at
    the return is kept beside the returned value. *)
Fixpoint client_loop (rest : list string) (tail : option string) (st : ClientState)
    : M (ClientState * status) :=
  match rest with
  | [] =>
      match tail with
      | Some cause => raise (StreamError cause)
      | None => ret (st, Success)
      end
  | line :: rest' =>
      if String.eqb line "" then client_loop rest' tail st
      else
        match decode_utf8 line with
        | None => raise UnicodeDecodeError
        | Some text =>
            if startswith "data: " text then
              match json_loads (slice_from 6 text) with
              | None => client_loop rest' tail st
              | Some event_data =>
                  do next <- handle_event st event_data;
                  match next with
                  | inl st' => client_loop rest' tail st'
                  | inr returned => ret (st, returned)
                  end
              end
            else client_loop rest' tail st
        end
  end.

(** [invoke_fund_manager(input_data, session_id)]; the runtime of the Fund
    Manager is the agent ["fund_manager"] of the service. *)
Definition invoke_fund_manager (input_data session_id : json) : M status :=
  let payload_data := JObj [("input_data", input_data); ("session_id", session_id)] in
  try_except
    (perform (Invoke "fund_manager" payload_data);;
     match invoke_agent_runtime "fund_manager" payload_data with
     | inl cause => raise (ClientError cause)
     | inr resp =>
         do final <- client_loop (lines resp) (broken resp) initial_client;
         ret final.2
     end)
    (fun e => ret (ErrorException e)).

(** ** Reading the session summary (app.py) *)

(** The Memory Store behind [retrieve_memories]: [inl cause] when it raises. *)
Variable retrieve_memories : string -> string -> string -> string + list memory_record.
Variable MEMORY_ID : string.
(** [timestamp.isoformat()]. *)
Variable isoformat : Z -> string.

Definition content_text (content : json) : json :=
  match content with
  | JObj fields => dict_get fields "text" (JStr (py_str content))
  | _ => JStr (py_str content)
  end.

Definition timestamp_str (record : memory_record) : string :=
  match createdAt record, created_at record with
  | Some t, _ => isoformat t
  | None, Some t => isoformat t
  | None, None => "Unknown"
  end.

(** [load_current_session_summary()], for
    [st.session_state.current_session_id = current_session]. *)
Definition load_current_session_summary (current_session : string) : M summary :=
  try_except
    (let session_namespace := "fund_management/session/" +:+ current_session in
     perform (Retrieve MEMORY_ID session_namespace "fund management consultation summary");;
     match retrieve_memories MEMORY_ID session_namespace
             "fund management consultation summary" with
     | inl cause => raise (StoreError cause)
     | inr (latest_record :: _) =>
         ret (Found current_session (timestamp_str latest_record)
                (content_text (default (JObj []) (content latest_record))))
     | inr [] => ret (NotFound current_session None)
     end)
    (fun e => perform (Display "st.error" []);; ret (NotFound current_session (Some e))).


(** ** Reading traces *)

(** The calls of [invoke_agent_runtime], in order: agent and payload. *)
Definition invocations (t : list effect) : list (string * json) :=
  omap (fun ef => match ef with Invoke a p => Some (a, p) | _ => None end) t.

(** The events handed to the stream writer, in order. *)
Definition written (t : list effect) : list json :=
  omap (fun ef => match ef with Write e => Some e | _ => None end) t.

(** The stages for which [create_event] was called, in order. *)
Definition turn_agents (t : list effect) : list string :=
  omap (fun ef => match ef with CreateEvent a _ _ _ _ => Some a | _ => None end) t.

(** The lines printed, in order. *)
Definition printed (t : list effect) : list log_line :=
  omap (fun ef => match ef with Print l => Some l | _ => None end) t.

(** The payload [json.dumps({"input_data": data})] carries. *)
Definition payload_of (data : json) : json := JObj [("input_data", data)].

(** The order of the stages, as the edges of [create_graph] chain them. *)
Definition stage_names : list string := ["financial"; "portfolio"; "risk"].

(** A frame as the decoder's contract words it: the line starts with
    ["data: "] and what follows parses as JSON. *)
Definition frame (line : string) : option json :=
  if startswith "data: " line then json_loads (slice_from 6 line) else None.

(** The line decodes, and its frame, if any, is a JSON object. *)
Definition event_line (line : string) : bool :=
  utf8_wellformed line
  && match frame line with
     | Some (JObj _) | None => true
     | Some _ => false
     end.

(** The lines the loop of [call_agent_with_streaming] reads before it stops:
    all of them, or those up to the first line that does not decode (left
    out) or whose frame is no JSON object (included). *)
Fixpoint consumed (rest : list string) : list string :=
  match rest with
  | [] => []
  | line :: rest' =>
      if event_line line then line :: consumed rest'
      else if utf8_wellformed line then [line] else []
  end.

Definition is_complete (event : json) : bool :=
  match event with
  | JObj fields => eq_str (dict_get fields "type" JNull) "streaming_complete"
  | _ => false
  end.

Definition is_error (event : json) : bool :=
  match event with
  | JObj fields => eq_str (dict_get fields "type" JNull) "error"
  | _ => false
  end.

(** [event.get("result")] of an event. *)
Definition event_result (event : json) : json :=
  match event with
  | JObj fields => dict_get fields "result" JNull
  | _ => JNull
  end.

(** The [result] field of the last [streaming_complete] event, [None]
    ([JNull]) when there is no such event. *)
Definition last_complete_result (events : list json) : json :=
  match last (List.filter is_complete events) with
  | Some event => event_result event
  | None => JNull
  end.

(** [final_result] after one more event. *)
Definition next_result (final_result event : json) : json :=
  if is_complete event then event_result event else final_result.

(** One stage as the three nodes run it, apart from the field of the state
    the node assigns. *)
Definition stage_run (agent_name : string) (sid input : json) : M json :=
  perform (Write (node_start agent_name sid));;
  do result <- call_agent_with_streaming agent_name input;
  perform (Write (node_complete agent_name sid result));;
  save_to_memory sid agent_name input result;;
  ret result.

(** The session id a run works with. *)
Definition effective_session (sid : json) : json :=
  if truthy sid then sid else JStr ("session_" +:+ now).

(** The data stage [n] is invoked with, when every stage before it
    returned. *)
Fixpoint stage_input (req : json) (n : nat) : option json :=
  match n with
  | O => Some req
  | S n' =>
      match stage_input req n', stage_names !! n' with
      | Some d, Some a =>
          match result (call_agent_with_streaming a d) with
          | Returned r => Some r
          | Raised _ => None
          end
      | _, _ => None
      end
  end.

(** The events of one stage on the output stream: the [node_start] event,
    the events the invocation relayed, and the [node_complete] event when the
    invocation returned. *)
Definition stage_events (a : string) (sid input : json) : list json :=
  node_start a sid :: written (trace (call_agent_with_streaming a input))
  ++ match result (call_agent_with_streaming a input) with
     | Returned r => [node_complete a sid r]
     | Raised _ => []
     end.

(** An event carries the name of a stage as [agent_name] and [sid] as
    [session_id]. *)
Definition tagged (sid event : json) : Prop :=
  match event with
  | JObj fields =>
      (∃ a, a ∈ stage_names ∧ dict_lookup fields "agent_name" = Some (JStr a))
      ∧ dict_lookup fields "session_id" = Some sid
  | _ => False
  end.

(** The loop body of [invoke_fund_manager] over decoded frames. *)
Fixpoint feed (st : ClientState) (events : list json) : M (ClientState + status) :=
  match events with
  | [] => ret (inl st)
  | event :: rest =>
      do next <- handle_event st event;
      match next with
      | inl st' => feed st' rest
      | inr returned => ret (inr returned)
      end
  end.

(** [st] with other tool-id dictionaries. *)
Definition with_tools (names inputs : gmap pykey json) (st : ClientState) : ClientState :=
  {| current_agent := current_agent st; agent_containers := agent_containers st;
     agent_thinking_containers := agent_thinking_containers st;
     current_thinking := current_thinking st;
     current_text_placeholders := current_text_placeholders st;
     tool_id_to_name := names; tool_id_to_input := inputs |}.

Definition raises {A} (m : M A) : bool :=
  match result m with
  | Raised _ => true
  | Returned _ => false
  end.

(** The write is attempted exactly when a memory is configured and the
    result is truthy. *)
Definition saves (agent_result : json) : bool :=
  negb (String.eqb memory_id "") && truthy agent_result.

(** The creation time [load_current_session_summary] reads off a record. *)
Definition creation_time (record : memory_record) : option Z :=
  match createdAt record with
  | Some t => Some t
  | None => created_at record
  end.

(** ** More of app.py and fund_manager.py, read off the traces *)

(** The session ids [create_event] was called with, in order. *)
Definition stored_sessions (t : list effect) : list json :=
  omap (fun ef => match ef with CreateEvent _ _ _ sid _ => Some sid | _ => None end) t.

(** The result stage [n] returned, when it was reached and returned. *)
Definition stage_output (req : json) (n : nat) : option json := stage_input req (S n).

(** The stage a turn is stored for, when stage [n] returned a result that
    [save_to_memory] stores. *)
Definition stored_stage (req : json) (n : nat) : option string :=
  match stage_output req n, stage_names !! n with
  | Some r, Some a => if saves r then Some a else None
  | _, _ => None
  end.

(** An event that registers or resolves the call id with key [k]. *)
Definition touches (k : pykey) (event : json) : Prop :=
  match event with
  | JObj fields =>
      (eq_str (dict_get fields "type" JNull) "tool_use" = true
       ∨ eq_str (dict_get fields "type" JNull) "tool_result" = true)
      ∧ key_of (dict_get fields "tool_use_id" (JStr "")) = Some k
  | _ => False
  end.

(** [extract_json_from_text(text)] of app.py: a [dict] as it is, of a
    [str] what [json.loads] makes of [text[start:end]], from the first ["{"]
    to the last ["}"]; [None] is Python's [None].  Both characters are ASCII,
    so the slice of the bytes is the slice of the code points. *)
Definition extract_json_from_text (text : json) : option json :=
  match text with
  | JObj _ => Some text
  | JStr s =>
      match find_char "{" s with
      | Some start =>
          let end_ := match rfind_char "}" s with Some i => S i | None => 0%nat end in
          if (start <? end_)%nat then json_loads (substring start (end_ - start) s)
          else None
      | None => None
      end
  | JNull | JBool _ | JNum _ | JArr _ => None
  end.

(** The first lines of [display_financial_analysis]: [data.get("summary", "")]
    on what [extract_json_from_text] returns. *)
Definition analysis_summary (analysis_content : json) : M json :=
  match extract_json_from_text analysis_content with
  | Some (JObj fields) => ret (dict_get fields "summary" (JStr ""))
  | _ => raise AttributeError
  end.

(** ["___".join(pieces + [last])]. *)
Definition joined (pieces : list string) (last : string) : string :=
  foldr (fun piece rest => piece +:+ "___" +:+ rest) last pieces.

(** A piece of [s.split("___")] other than the last: the separator that ends
    it is the first one the scan meets, so none begins within the piece. *)
Definition split_piece (piece : string) : bool :=
  negb (contains "___" (piece +:+ "__")).

(** ** Facts about computations *)

Lemma bind_returned {A B} (t : list effect) (a : A) (k : A -> M B) :
  bind (t, Returned a) k = (t ++ trace (k a), result (k a)).
Proof. reflexivity. Qed.

Lemma bind_raised {A B} (t : list effect) (e : exn) (k : A -> M B) :
  bind (t, Raised e) k = (t, Raised e).
Proof. reflexivity. Qed.

Lemma trace_bind {A B} (m : M A) (k : A -> M B) :
  trace (bind m k) =
  trace m ++ match result m with Returned a => trace (k a) | Raised _ => [] end.
Proof. destruct m as [t [a|e]]; cbn; [reflexivity | by rewrite app_nil_r]. Qed.

Lemma result_bind {A B} (m : M A) (k : A -> M B) :
  result (bind m k) =
  match result m with Returned a => result (k a) | Raised e => Raised e end.
Proof. by destruct m as [t [a|e]]. Qed.

Lemma invocations_app (t u : list effect) :
  invocations (t ++ u) = invocations t ++ invocations u.
Proof. apply omap_app. Qed.

Lemma written_app (t u : list effect) : written (t ++ u) = written t ++ written u.
Proof. apply omap_app. Qed.

Lemma turn_agents_app (t u : list effect) :
  turn_agents (t ++ u) = turn_agents t ++ turn_agents u.
Proof. apply omap_app. Qed.

Lemma written_cons_Write (e : json) (t : list effect) :
  written (Write e :: t) = e :: written t.
Proof. reflexivity. Qed.

Lemma written_cons_Write_other (ef : effect) (t : list effect) :
  (∀ e, ef ≠ Write e) → written (ef :: t) = written t.
Proof. intros H. destruct ef; try done. by destruct (H event). Qed.

Lemma written_map_Write (events : list json) : written (map Write events) = events.
Proof. induction events as [|e events IH]; cbn; [done | by f_equal]. Qed.

Lemma invocations_map_Write (events : list json) : invocations (map Write events) = [].
Proof. induction events as [|e events IH]; [done | apply IH]. Qed.

Lemma turn_agents_map_Write (events : list json) : turn_agents (map Write events) = [].
Proof. induction events as [|e events IH]; [done | apply IH]. Qed.

(** ** Facts about [call_agent_with_streaming] *)

(** The loop only writes. *)
Lemma iter_lines_loop_trace (rest : list string) (tail : option string) (fr : json) :
  trace (iter_lines_loop rest tail fr)
  = map Write (written (trace (iter_lines_loop rest tail fr))).
Proof.
  revert fr. induction rest as [|line rest IH]; intros fr; cbn [iter_lines_loop].
  - by destruct tail.
  - destruct (String.eqb line ""); [apply IH|].
    destruct (decode_utf8 line) as [text|]; [|done].
    destruct (startswith "data: " text); [|apply IH].
    destruct (json_loads (slice_from 6 text)) as [event_data|]; [|apply IH].
    destruct event_data as [| | | | |fields]; try done.
    cbn [py_get]. rewrite !trace_bind. cbn [perform ret trace result fst snd].
    destruct (eq_str _ _); rewrite ?trace_bind; cbn [ret trace result fst snd app];
      rewrite written_cons_Write; cbn [map]; f_equal; apply IH.
Qed.

Lemma call_trace (agent_type : string) (data : json) :
  trace (call_agent_with_streaming agent_type data)
  = Invoke agent_type (payload_of data)
    :: map Write (written (trace (call_agent_with_streaming agent_type data))).
Proof.
  unfold call_agent_with_streaming, payload_of.
  destruct (invoke_agent_runtime _ _) as [cause|resp]; [done|].
  cbn. f_equal. apply iter_lines_loop_trace.
Qed.

Lemma call_of_response (agent_type : string) (data : json) (resp : response) :
  invoke_agent_runtime agent_type (payload_of data) = inr resp →
  call_agent_with_streaming agent_type data =
  (Invoke agent_type (payload_of data)
     :: trace (iter_lines_loop (lines resp) (broken resp) JNull),
   result (iter_lines_loop (lines resp) (broken resp) JNull)).
Proof.
  unfold call_agent_with_streaming, payload_of. intros ->.
  by destruct (iter_lines_loop _ _ _).
Qed.

Lemma call_of_refusal (agent_type : string) (data : json) (cause : string) :
  invoke_agent_runtime agent_type (payload_of data) = inl cause →
  call_agent_with_streaming agent_type data =
  ([Invoke agent_type (payload_of data)], Raised (ClientError cause)).
Proof. unfold call_agent_with_streaming, payload_of. by intros ->. Qed.

Lemma call_invocations (agent_type : string) (data : json) :
  invocations (trace (call_agent_with_streaming agent_type data))
  = [(agent_type, payload_of data)].
Proof.
  rewrite call_trace. cbn. f_equal. apply invocations_map_Write.
Qed.

Lemma call_turn_agents (agent_type : string) (data : json) :
  turn_agents (trace (call_agent_with_streaming agent_type data)) = [].
Proof.
  rewrite call_trace. cbn. apply turn_agents_map_Write.
Qed.

(** ** Facts about [save_to_memory] *)

Lemma save_to_memory_result (sid : json) (agent_type : string) (input r : json) :
  result (save_to_memory sid agent_type input r) = Returned tt.
Proof.
  unfold save_to_memory.
  destruct (String.eqb memory_id "" || negb (truthy r)); [done|].
  cbn. by destruct (create_event _ _ _ _).
Qed.

Lemma save_to_memory_trace (sid : json) (agent_type : string) (input r : json) :
  trace (save_to_memory sid agent_type input r)
  = if saves r then
      [ CreateEvent agent_type memory_id "fund_manager_user" sid
          (turn_messages agent_type input r);
        Print match create_event memory_id "fund_manager_user" sid
                      (turn_messages agent_type input r) with
              | Some cause => SaveFailedLine agent_type (StoreError cause)
              | None => SavedLine agent_type sid
              end ]
    else [].
Proof.
  unfold save_to_memory, saves.
  destruct (String.eqb memory_id ""); [done|].
  destruct (truthy r); [|done].
  cbn. by destruct (create_event _ _ _ _).
Qed.

(** ** The pipeline in normal form *)

Ltac pipeline_step :=
  cbn [bind ret fst snd user_input session_id financial_analysis
       portfolio_recommendation risk_analysis];
  rewrite ?app_nil_r.

Lemma stream_from_step (g : StateGraph) (fuel : nat) (node next : string)
    (fn : FundManagerState -> M FundManagerState) (state : FundManagerState) :
  String.eqb node END = false ->
  assoc node (nodes g) = Some fn ->
  assoc node (edges g) = Some next ->
  stream_from g (S fuel) node state = do state' <- fn state; stream_from g fuel next state'.
Proof. intros Hend Hfn Hnext. cbn [stream_from]. by rewrite Hend, Hfn, Hnext. Qed.

Lemma stream_from_END (g : StateGraph) (fuel : nat) (state : FundManagerState) :
  stream_from g fuel END state = ret state.
Proof. by destruct fuel. Qed.

Lemma financial_node_stage (state : FundManagerState) :
  financial_node state =
  do result <- stage_run "financial" (session_id state) (user_input state);
  ret {| user_input := user_input state; session_id := session_id state;
         financial_analysis := result;
         portfolio_recommendation := portfolio_recommendation state;
         risk_analysis := risk_analysis state |}.
Proof.
  unfold financial_node, stage_run.
  destruct (call_agent_with_streaming _ _) as [t [r|e]]; [|done].
  cbn [perform bind fst snd].
  destruct (save_to_memory _ _ _ _) as [u [[]|e]]; [|done].
  cbn. by rewrite !app_nil_r.
Qed.

Lemma portfolio_node_stage (state : FundManagerState) :
  portfolio_node state =
  do result <- stage_run "portfolio" (session_id state) (financial_analysis state);
  ret {| user_input := user_input state; session_id := session_id state;
         financial_analysis := financial_analysis state;
         portfolio_recommendation := result;
         risk_analysis := risk_analysis state |}.
Proof.
  unfold portfolio_node, stage_run.
  destruct (call_agent_with_streaming _ _) as [t [r|e]]; [|done].
  cbn [perform bind fst snd].
  destruct (save_to_memory _ _ _ _) as [u [[]|e]]; [|done].
  cbn. by rewrite !app_nil_r.
Qed.

Lemma risk_node_stage (state : FundManagerState) :
  risk_node state =
  do result <- stage_run "risk" (session_id state) (portfolio_recommendation state);
  ret {| user_input := user_input state; session_id := session_id state;
         financial_analysis := financial_analysis state;
         portfolio_recommendation := portfolio_recommendation state;
         risk_analysis := result |}.
Proof.
  unfold risk_node, stage_run.
  destruct (call_agent_with_streaming _ _) as [t [r|e]]; [|done].
  cbn [perform bind fst snd].
  destruct (save_to_memory _ _ _ _) as [u [[]|e]]; [|done].
  cbn. by rewrite !app_nil_r.
Qed.

(** The graph of [create_graph] runs the three stages one after the other,
    each on the result of the one before, within the recursion limit. *)
Lemma run_consultation_stages (req sid : json) :
  run_consultation req sid =
  do r1 <- stage_run "financial" (effective_session sid) req;
  do r2 <- stage_run "portfolio" (effective_session sid) r1;
  do r3 <- stage_run "risk" (effective_session sid) r2;
  ret {| user_input := req; session_id := effective_session sid;
         financial_analysis := r1; portfolio_recommendation := r2;
         risk_analysis := r3 |}.
Proof.
  unfold run_consultation, stream, recursion_limit. fold (effective_session sid).
  cbn [entry_point create_graph].
  rewrite (stream_from_step _ _ "financial" "portfolio" financial_node) by reflexivity.
  rewrite financial_node_stage. cbn [user_input session_id].
  destruct (stage_run "financial" _ _) as [t1 [r1|e1]]; [|done].
  pipeline_step.
  rewrite (stream_from_step _ _ "portfolio" "risk" portfolio_node) by reflexivity.
  rewrite portfolio_node_stage. pipeline_step.
  destruct (stage_run "portfolio" _ _) as [t2 [r2|e2]]; pipeline_step; [|done].
  rewrite (stream_from_step _ _ "risk" END risk_node) by reflexivity.
  rewrite risk_node_stage. pipeline_step.
  destruct (stage_run "risk" _ _) as [t3 [r3|e3]]; pipeline_step; [|done].
  rewrite stream_from_END. pipeline_step. by rewrite <- ?app_assoc.
Qed.

(** What one stage does, read off its trace. *)
Lemma stage_run_result (a : string) (sid input : json) :
  result (stage_run a sid input) = result (call_agent_with_streaming a input).
Proof.
  unfold stage_run. rewrite !result_bind. cbn [perform result snd].
  destruct (result (call_agent_with_streaming a input)) as [r|e]; [|done].
  rewrite !result_bind. cbn [perform result snd].
  by rewrite save_to_memory_result.
Qed.

Lemma stage_run_trace (a : string) (sid input : json) :
  trace (stage_run a sid input) =
  Write (node_start a sid) :: trace (call_agent_with_streaming a input)
  ++ match result (call_agent_with_streaming a input) with
     | Returned r =>
         Write (node_complete a sid r) :: trace (save_to_memory sid a input r)
     | Raised _ => []
     end.
Proof.
  unfold stage_run. rewrite !trace_bind. cbn [perform trace result fst snd app].
  f_equal. f_equal.
  destruct (result (call_agent_with_streaming a input)) as [r|e]; [|done].
  rewrite !trace_bind. cbn [perform trace result fst snd app]. f_equal.
  rewrite save_to_memory_result. cbn. by rewrite app_nil_r.
Qed.

Lemma stage_run_invocations (a : string) (sid input : json) :
  invocations (trace (stage_run a sid input)) = [(a, payload_of input)].
Proof.
  rewrite stage_run_trace. change (invocations (Write ?e :: ?t)) with (invocations t).
  rewrite invocations_app, call_invocations.
  destruct (result _) as [r|e]; [|done].
  change (invocations (Write ?e :: ?t)) with (invocations t).
  rewrite save_to_memory_trace. by destruct (saves r).
Qed.

Lemma stage_run_turn_agents (a : string) (sid input : json) :
  turn_agents (trace (stage_run a sid input)) =
  match result (call_agent_with_streaming a input) with
  | Returned r => if saves r then [a] else []
  | Raised _ => []
  end.
Proof.
  rewrite stage_run_trace. change (turn_agents (Write ?e :: ?t)) with (turn_agents t).
  rewrite turn_agents_app, call_turn_agents.
  destruct (result _) as [r|e]; [|done].
  change (turn_agents (Write ?e :: ?t)) with (turn_agents t).
  rewrite save_to_memory_trace. by destruct (saves r).
Qed.

Lemma stage_run_written (a : string) (sid input : json) :
  written (trace (stage_run a sid input)) =
  node_start a sid :: written (trace (call_agent_with_streaming a input))
  ++ match result (call_agent_with_streaming a input) with
     | Returned r => [node_complete a sid r]
     | Raised _ => []
     end.
Proof.
  rewrite stage_run_trace, written_cons_Write, written_app. f_equal. f_equal.
  destruct (result _) as [r|e]; [|done].
  rewrite written_cons_Write, save_to_memory_trace. by destruct (saves r).
Qed.

(** ** The whole run, read off its trace *)

Lemma run_result (req sid : json) :
  result (run_consultation req sid) =
  match result (call_agent_with_streaming "financial" req) with
  | Raised e => Raised e
  | Returned r1 =>
      match result (call_agent_with_streaming "portfolio" r1) with
      | Raised e => Raised e
      | Returned r2 =>
          match result (call_agent_with_streaming "risk" r2) with
          | Raised e => Raised e
          | Returned r3 =>
              Returned {| user_input := req; session_id := effective_session sid;
                          financial_analysis := r1; portfolio_recommendation := r2;
                          risk_analysis := r3 |}
          end
      end
  end.
Proof.
  rewrite run_consultation_stages, result_bind, stage_run_result.
  destruct (result (call_agent_with_streaming "financial" req)) as [r1|e]; [|done].
  rewrite result_bind, stage_run_result.
  destruct (result (call_agent_with_streaming "portfolio" r1)) as [r2|e]; [|done].
  rewrite result_bind, stage_run_result.
  by destruct (result (call_agent_with_streaming "risk" r2)) as [r3|e].
Qed.

Lemma run_trace (req sid : json) :
  trace (run_consultation req sid) =
  trace (stage_run "financial" (effective_session sid) req)
  ++ match result (call_agent_with_streaming "financial" req) with
     | Raised _ => []
     | Returned r1 =>
         trace (stage_run "portfolio" (effective_session sid) r1)
         ++ match result (call_agent_with_streaming "portfolio" r1) with
            | Raised _ => []
            | Returned r2 => trace (stage_run "risk" (effective_session sid) r2)
            end
     end.
Proof.
  rewrite run_consultation_stages, trace_bind, stage_run_result. f_equal.
  destruct (result (call_agent_with_streaming "financial" req)) as [r1|e]; [|done].
  rewrite trace_bind, stage_run_result. f_equal.
  destruct (result (call_agent_with_streaming "portfolio" r1)) as [r2|e]; [|done].
  rewrite trace_bind, stage_run_result.
  destruct (result (call_agent_with_streaming "risk" r2)) as [r3|e];
    cbn; by rewrite app_nil_r.
Qed.

Lemma run_invocations (req sid : json) :
  invocations (trace (run_consultation req sid)) =
  ("financial", payload_of req)
  :: match result (call_agent_with_streaming "financial" req) with
     | Raised _ => []
     | Returned r1 =>
         ("portfolio", payload_of r1)
         :: match result (call_agent_with_streaming "portfolio" r1) with
            | Raised _ => []
            | Returned r2 => [("risk", payload_of r2)]
            end
     end.
Proof.
  rewrite run_trace, invocations_app, stage_run_invocations. cbn [app]. f_equal.
  destruct (result (call_agent_with_streaming "financial" req)) as [r1|e]; [|done].
  rewrite invocations_app, stage_run_invocations. cbn [app]. f_equal.
  destruct (result (call_agent_with_streaming "portfolio" r1)) as [r2|e]; [|done].
  apply stage_run_invocations.
Qed.

Lemma run_turn_agents (req sid : json) :
  turn_agents (trace (run_consultation req sid)) =
  match result (call_agent_with_streaming "financial" req) with
  | Raised _ => []
  | Returned r1 =>
      (if saves r1 then ["financial"] else [])
      ++ match result (call_agent_with_streaming "portfolio" r1) with
         | Raised _ => []
         | Returned r2 =>
             (if saves r2 then ["portfolio"] else [])
             ++ match result (call_agent_with_streaming "risk" r2) with
                | Raised _ => []
                | Returned r3 => if saves r3 then ["risk"] else []
                end
         end
  end.
Proof.
  rewrite run_trace, turn_agents_app, stage_run_turn_agents.
  destruct (result (call_agent_with_streaming "financial" req)) as [r1|e]; [|done].
  f_equal. rewrite turn_agents_app, stage_run_turn_agents.
  destruct (result (call_agent_with_streaming "portfolio" r1)) as [r2|e];
    [|by rewrite app_nil_r].
  f_equal. apply stage_run_turn_agents.
Qed.

Lemma run_written (req sid : json) :
  written (trace (run_consultation req sid)) =
  written (trace (stage_run "financial" (effective_session sid) req))
  ++ match result (call_agent_with_streaming "financial" req) with
     | Raised _ => []
     | Returned r1 =>
         written (trace (stage_run "portfolio" (effective_session sid) r1))
         ++ match result (call_agent_with_streaming "portfolio" r1) with
            | Raised _ => []
            | Returned r2 =>
                written (trace (stage_run "risk" (effective_session sid) r2))
            end
     end.
Proof.
  rewrite run_trace, written_app. f_equal.
  destruct (result (call_agent_with_streaming "financial" req)) as [r1|e]; [|done].
  rewrite written_app. f_equal.
  by destruct (result (call_agent_with_streaming "portfolio" r1)) as [r2|e].
Qed.

(** ** The stage order and the data each stage receives *)

(** C1. Every run invokes the stages in the order financial, portfolio,
    risk, each at most once and none after a stage that raised; the
    financial stage receives the request, the portfolio stage the result of
    the financial invocation, the risk stage the result of the portfolio
    invocation; a run that returns has invoked all three and holds their
    results in the state. *)
Theorem stages_in_order_on_previous_result (req sid : json) :
  invocations (trace (run_consultation req sid)) =
    ("financial", payload_of req)
    :: match result (call_agent_with_streaming "financial" req) with
       | Raised _ => []
       | Returned r1 =>
           ("portfolio", payload_of r1)
           :: match result (call_agent_with_streaming "portfolio" r1) with
              | Raised _ => []
              | Returned r2 => [("risk", payload_of r2)]
              end
       end
  ∧ (invocations (trace (run_consultation req sid))).*1 `prefix_of` stage_names
  ∧ NoDup (invocations (trace (run_consultation req sid))).*1
  ∧ ∀ state, result (run_consultation req sid) = Returned state →
      invocations (trace (run_consultation req sid)) =
        [("financial", payload_of req);
         ("portfolio", payload_of (financial_analysis state));
         ("risk", payload_of (portfolio_recommendation state))]
      ∧ result (call_agent_with_streaming "financial" req)
          = Returned (financial_analysis state)
      ∧ result (call_agent_with_streaming "portfolio" (financial_analysis state))
          = Returned (portfolio_recommendation state)
      ∧ result (call_agent_with_streaming "risk" (portfolio_recommendation state))
          = Returned (risk_analysis state).
Proof.
  rewrite run_result, run_invocations. split; [done|].
  destruct (result (call_agent_with_streaming "financial" req)) as [r1|e1] eqn:H1.
  2:{ split; [by exists ["portfolio"; "risk"]|]. split; [|done].
      apply NoDup_singleton. }
  destruct (result (call_agent_with_streaming "portfolio" r1)) as [r2|e2] eqn:H2.
  2:{ split; [by exists ["risk"]|]. split; [|done].
      by apply (bool_decide_unpack _). }
  split; [by exists []|]. split; [by apply (bool_decide_unpack _)|].
  intros state Hstate.
  destruct (result (call_agent_with_streaming "risk" r2)) as [r3|e3] eqn:H3; [|done].
  injection Hstate as <-.
  cbn [financial_analysis portfolio_recommendation risk_analysis].
  by rewrite H2, H3.
Qed.

(** ** A stage that fails *)

(** From here on the invocation of a stage is used through the lemmas above. *)
Local Opaque call_agent_with_streaming stage_run save_to_memory.

Lemma stage_input_1 (req d : json) :
  stage_input req 1 = Some d ↔ result (call_agent_with_streaming "financial" req) = Returned d.
Proof.
  cbn -[call_agent_with_streaming result].
  destruct (result (call_agent_with_streaming "financial" req));
    split; intros H; by simplify_eq.
Qed.

Lemma stage_input_2 (req d : json) :
  stage_input req 2 = Some d ↔
  ∃ r1, result (call_agent_with_streaming "financial" req) = Returned r1
        ∧ result (call_agent_with_streaming "portfolio" r1) = Returned d.
Proof.
  cbn -[call_agent_with_streaming result].
  destruct (result (call_agent_with_streaming "financial" req)) as [r1|e1].
  - destruct (result (call_agent_with_streaming "portfolio" r1)) as [r2|e2] eqn:H2.
    + split; [intros H; simplify_eq; by exists r1|].
      intros (r & Hr & Hd). simplify_eq. by rewrite H2 in Hd; simplify_eq.
    + split; [done|]. intros (r & Hr & Hd). simplify_eq. by rewrite H2 in Hd.
  - split; [done|]. by intros (r & Hr & Hd).
Qed.

Lemma stage_lookup (m : nat) (b : string) :
  stage_names !! m = Some b →
  (m = 0 ∧ b = "financial") ∨ (m = 1 ∧ b = "portfolio") ∨ (m = 2 ∧ b = "risk").
Proof.
  destruct m as [|[|[|m]]]; cbn; intros H; simplify_eq; auto.
Qed.


(** ** The decoder *)

Lemma omap_cons_eq {A B} (f : A → option B) (x : A) (l : list A) :
  omap f (x :: l) =
  match f x with
  | Some y => y :: omap f l
  | None => omap f l
  end.
Proof. reflexivity. Qed.

Lemma omap_take_cons {A B} (f : A → option B) (k : nat) (x : A) (l : list A) :
  omap f (take (S k) (x :: l)) =
  match f x with
  | Some y => y :: omap f (take k l)
  | None => omap f (take k l)
  end.
Proof. reflexivity. Qed.

Lemma frame_nonempty (line : string) (event : json) :
  frame line = Some event → String.eqb line "" = false.
Proof. by destruct line. Qed.

(** A line that decodes and carries no frame is passed over. *)
Lemma iter_lines_loop_skip (line : string) (rest : list string)
    (tail : option string) (fr : json) :
  utf8_wellformed line = true →
  frame line = None →
  iter_lines_loop (line :: rest) tail fr = iter_lines_loop rest tail fr.
Proof.
  intros Hutf Hframe. cbn [iter_lines_loop]. unfold decode_utf8, frame in *.
  destruct (String.eqb line ""); [done|]. rewrite Hutf.
  destruct (startswith "data: " line); [|done]. by rewrite Hframe.
Qed.

(** A line that does not decode ends the loop. *)
Lemma iter_lines_loop_undecodable (line : string) (rest : list string)
    (tail : option string) (fr : json) :
  String.eqb line "" = false →
  utf8_wellformed line = false →
  iter_lines_loop (line :: rest) tail fr = ([], Raised UnicodeDecodeError).
Proof.
  intros Hne Hutf. cbn [iter_lines_loop]. unfold decode_utf8. by rewrite Hne, Hutf.
Qed.

(** A frame that is a JSON object is written, and the loop goes on. *)
Lemma iter_lines_loop_event (line : string) (rest : list string)
    (tail : option string) (fr : json) (fields : list (string * json)) :
  utf8_wellformed line = true →
  frame line = Some (JObj fields) →
  iter_lines_loop (line :: rest) tail fr =
  (Write (JObj fields) :: trace (iter_lines_loop rest tail (next_result fr (JObj fields))),
   result (iter_lines_loop rest tail (next_result fr (JObj fields)))).
Proof.
  intros Hutf Hframe. cbn [iter_lines_loop].
  rewrite (frame_nonempty _ _ Hframe). unfold decode_utf8, frame in *. rewrite Hutf.
  destruct (startswith "data: " line); [|done]. rewrite Hframe.
  unfold next_result, is_complete, event_result. cbn [py_get perform bind ret fst snd app].
  by destruct (eq_str _ _); destruct (iter_lines_loop _ _ _).
Qed.

(** A frame that is no JSON object is written, and ends the loop. *)
Lemma iter_lines_loop_scalar (line : string) (rest : list string)
    (tail : option string) (fr event : json) :
  utf8_wellformed line = true →
  frame line = Some event →
  (∀ fields, event ≠ JObj fields) →
  iter_lines_loop (line :: rest) tail fr = ([Write event], Raised AttributeError).
Proof.
  intros Hutf Hframe Hscalar. cbn [iter_lines_loop].
  rewrite (frame_nonempty _ _ Hframe). unfold decode_utf8, frame in *. rewrite Hutf.
  destruct (startswith "data: " line); [|done]. rewrite Hframe.
  destruct event as [| | | | |fields]; try done. by destruct (Hscalar fields).
Qed.

Lemma event_line_empty : event_line "" = true.
Proof. reflexivity. Qed.

(** Whatever the lines, what the loop has written is the frames of the lines
    it consumed. *)
Lemma iter_lines_loop_written (rest : list string) (tail : option string) (fr : json) :
  written (trace (iter_lines_loop rest tail fr)) = omap frame (consumed rest).
Proof.
  revert fr. induction rest as [|line rest IH]; intros fr; [by destruct tail|].
  cbn [consumed]. unfold event_line.
  destruct (utf8_wellformed line) eqn:Hutf; cbn [andb].
  - destruct (frame line) as [event|] eqn:Hframe.
    + destruct event as [| | | | |fields];
        try (rewrite (iter_lines_loop_scalar _ _ _ _ _ Hutf Hframe) by done;
             by rewrite omap_cons_eq, Hframe).
      rewrite (iter_lines_loop_event _ _ _ _ _ Hutf Hframe), omap_cons_eq, Hframe.
      cbn [trace fst]. rewrite written_cons_Write. by f_equal.
    + by rewrite iter_lines_loop_skip, omap_cons_eq, Hframe.
  - destruct (String.eqb line "") eqn:Hempty.
    { apply String.eqb_eq in Hempty as ->. done. }
    by rewrite iter_lines_loop_undecodable.
Qed.

(** A line that does not decode, or whose frame is no JSON object, ends the
    loop with an exception. *)
Lemma iter_lines_loop_stops (rest : list string) (tail : option string) (fr : json) :
  forallb event_line rest = false →
  result (iter_lines_loop rest tail fr) = Raised UnicodeDecodeError
  ∨ result (iter_lines_loop rest tail fr) = Raised AttributeError.
Proof.
  revert fr. induction rest as [|line rest IH]; intros fr; [done|].
  cbn [forallb]. unfold event_line at 1.
  destruct (utf8_wellformed line) eqn:Hutf; cbn [andb].
  - destruct (frame line) as [event|] eqn:Hframe.
    + destruct event as [| | | | |fields];
        try (intros _; right;
             by rewrite (iter_lines_loop_scalar _ _ _ _ _ Hutf Hframe)).
      rewrite (iter_lines_loop_event _ _ _ _ _ Hutf Hframe). apply IH.
    + rewrite iter_lines_loop_skip by done. apply IH.
  - intros _. left. destruct (String.eqb line "") eqn:Hempty.
    { by apply String.eqb_eq in Hempty as ->. }
    by rewrite iter_lines_loop_undecodable.
Qed.

Lemma consumed_prefix (rest : list string) : consumed rest `prefix_of` rest.
Proof.
  induction rest as [|line rest IH]; [done|]. cbn [consumed].
  destruct (event_line line); [by apply prefix_cons|].
  destruct (utf8_wellformed line); [|apply prefix_nil].
  apply prefix_cons, prefix_nil.
Qed.

Lemma consumed_all (rest : list string) :
  forallb event_line rest = true → consumed rest = rest.
Proof.
  induction rest as [|line rest IH]; [done|]. cbn [forallb consumed].
  intros [-> Hrest]%andb_prop. by rewrite IH.
Qed.

(** On lines that decode and whose frames are JSON objects, the loop reads to
    the end, writes every frame and keeps the last result. *)
Lemma iter_lines_loop_events (rest : list string) (tail : option string) (fr : json) :
  forallb event_line rest = true →
  iter_lines_loop rest tail fr =
  (map Write (omap frame rest),
   match tail with
   | Some cause => Raised (StreamError cause)
   | None => Returned (fold_left next_result (omap frame rest) fr)
   end).
Proof.
  revert fr. induction rest as [|line rest IH]; intros fr Hall.
  { by destruct tail. }
  cbn [forallb] in Hall. apply andb_prop in Hall as [Hline Hrest].
  unfold event_line in Hline. apply andb_prop in Hline as [Hutf Hobj].
  destruct (frame line) as [event|] eqn:Hframe.
  - destruct event as [| | | | |fields]; try done.
    rewrite (iter_lines_loop_event _ _ _ _ _ Hutf Hframe), IH by done.
    by rewrite omap_cons_eq, Hframe.
  - rewrite iter_lines_loop_skip, IH by done. by rewrite omap_cons_eq, Hframe.
Qed.

Lemma is_complete_object (event : json) :
  is_complete event = true → ∃ fields, event = JObj fields.
Proof. destruct event; try done. by eexists. Qed.

(** Folding [next_result] keeps the result of the last complete event. *)
Lemma fold_next_result (events : list json) (fr : json) :
  fold_left next_result events fr =
  match last (List.filter is_complete events) with
  | Some event => event_result event
  | None => fr
  end.
Proof.
  revert fr. induction events as [|event events IH]; intros fr; [done|].
  cbn [fold_left List.filter]. rewrite IH. unfold next_result.
  destruct (is_complete event); [|done].
  rewrite last_cons. by destruct (last _).
Qed.

(** C2 (amended). On every line stream the events the decoder emits are,
    in the order received, the frames of the lines it consumed, a line having
    a frame only when it starts with ["data: "] and its remainder parses as
    JSON; lines without the prefix and lines whose remainder does not parse
    are passed over and the loop goes on.  The lines consumed are a prefix of
    the stream, and the whole stream when every line decodes as UTF-8 and
    every frame that parses is a JSON object; the decoder then returns when
    the stream closes.  Otherwise it stops with an exception, at the first
    line that does not decode or after emitting the first frame that is no
    JSON object. *)
Theorem decoder_emits_frames_in_order (rest : list string) (tail : option string)
    (fr : json) :
  written (trace (iter_lines_loop rest tail fr)) = omap frame (consumed rest)
  ∧ consumed rest `prefix_of` rest
  ∧ (forallb event_line rest = true →
     consumed rest = rest
     ∧ (tail = None → ∃ r, result (iter_lines_loop rest tail fr) = Returned r))
  ∧ (forallb event_line rest = false →
     result (iter_lines_loop rest tail fr) = Raised UnicodeDecodeError
     ∨ result (iter_lines_loop rest tail fr) = Raised AttributeError).
Proof.
  split; [apply iter_lines_loop_written|]. split; [apply consumed_prefix|].
  split; [|apply iter_lines_loop_stops].
  intros Hall. split; [by apply consumed_all|].
  rewrite iter_lines_loop_events by done. intros ->. by eexists.
Qed.

(** C10. An invocation whose response is a stream of events reads it to the
    end, also past a [streaming_complete] frame: every frame is relayed, and
    the result is the [result] field of the last [streaming_complete] frame,
    or [None] when there is none.  When a stage returns [None], no
    [create_event] is made for it and the next stage is invoked with [None]
    as its input. *)
Theorem invocation_reads_to_the_end (req sid : json) :
  (∀ a d resp,
     invoke_agent_runtime a (payload_of d) = inr resp →
     broken resp = None →
     forallb event_line (lines resp) = true →
     written (trace (call_agent_with_streaming a d)) = omap frame (lines resp)
     ∧ result (call_agent_with_streaming a d)
       = Returned (last_complete_result (omap frame (lines resp))))
  ∧ (∀ (n : nat) a d,
       stage_names !! n = Some a →
       stage_input req n = Some d →
       result (call_agent_with_streaming a d) = Returned JNull →
       (a ∉ turn_agents (trace (run_consultation req sid)))
       ∧ (∀ b, stage_names !! S n = Some b →
            (b, payload_of JNull) ∈ invocations (trace (run_consultation req sid)))).
Proof.
  split.
  - intros a d resp Hresp Hclosed Hevents.
    rewrite (call_of_response _ _ _ Hresp), Hclosed, iter_lines_loop_events by done.
    cbn [trace result fst snd]. rewrite written_cons_Write_other by done.
    rewrite written_map_Write. split; [done|].
    unfold last_complete_result. by rewrite fold_next_result.
  - intros n a d Ha Hd Hnone. rewrite run_invocations, run_turn_agents.
    assert (saves JNull = false) as Hsave by (unfold saves; by rewrite andb_false_r).
    apply stage_lookup in Ha as [[-> ->]|[[-> ->]|[-> ->]]].
    + injection Hd as <-. rewrite Hnone, Hsave. split.
      * destruct (result (call_agent_with_streaming "portfolio" JNull)) as [r2|];
          [|compute_done].
        destruct (result (call_agent_with_streaming "risk" r2)) as [r3|];
          [destruct (saves r3)|]; destruct (saves r2); compute_done.
      * intros b Hb. injection Hb as <-. rewrite !elem_of_cons. auto.
    + apply stage_input_1 in Hd. rewrite Hd, Hnone, Hsave. split.
      * destruct (result (call_agent_with_streaming "risk" JNull)) as [r3|];
          [destruct (saves r3)|]; destruct (saves d); compute_done.
      * intros b Hb. injection Hb as <-. rewrite !elem_of_cons. auto.
    + apply stage_input_2 in Hd as (r1 & H1 & H2). rewrite H1, H2, Hnone, Hsave.
      split; [destruct (saves r1), (saves d); compute_done|]. by intros b Hb.
Qed.

(** ** A stage that fails, and a stage without a result *)




(** ** Events on the output stream *)

Lemma eq_str_true (v : json) (lit : string) : eq_str v lit = true → v = JStr lit.
Proof. destruct v; try done. cbn. by intros ->%String.eqb_eq. Qed.

Lemma relayed_is_frame (a : string) (d event : json) :
  event ∈ written (trace (call_agent_with_streaming a d)) →
  ∃ resp line,
    invoke_agent_runtime a (payload_of d) = inr resp
    ∧ line ∈ lines resp ∧ frame line = Some event.
Proof.
  destruct (invoke_agent_runtime a (payload_of d)) as [cause|resp] eqn:Hresp.
  { rewrite (call_of_refusal _ _ _ Hresp). cbn. by intros ?%elem_of_nil. }
  rewrite (call_of_response _ _ _ Hresp). cbn [trace fst].
  rewrite written_cons_Write_other by done.
  rewrite iter_lines_loop_written.
  intros (line & Hline & Hframe)%list_elem_of_omap.
  exists resp, line. split; [done|]. split; [|done].
  destruct (consumed_prefix (lines resp)) as [more ->].
  apply elem_of_app. by left.
Qed.

(** C4 (amended). The output stream of a run is, stage after stage, the
    [node_start] event of the stage, the events its invocation relayed and,
    when the invocation returned, its [node_complete] event.  Only
    [node_start] and [node_complete] are built by the pipeline, with the
    stage as [agent_name] and the session id as [session_id]; a relayed event
    is the frame of a line of the stage's response, written as it was
    decoded, with no field added. *)
Theorem relayed_events_are_written_unchanged (req sid : json) :
  written (trace (run_consultation req sid)) =
    stage_events "financial" (effective_session sid) req
    ++ match result (call_agent_with_streaming "financial" req) with
       | Raised _ => []
       | Returned r1 =>
           stage_events "portfolio" (effective_session sid) r1
           ++ match result (call_agent_with_streaming "portfolio" r1) with
              | Raised _ => []
              | Returned r2 => stage_events "risk" (effective_session sid) r2
              end
       end
  ∧ (∀ a r, a ∈ stage_names →
       tagged (effective_session sid) (node_start a (effective_session sid))
       ∧ tagged (effective_session sid) (node_complete a (effective_session sid) r))
  ∧ (∀ a d event,
       event ∈ written (trace (call_agent_with_streaming a d)) →
       ∃ resp line,
         invoke_agent_runtime a (payload_of d) = inr resp
         ∧ line ∈ lines resp ∧ frame line = Some event).
Proof.
  split; [|split].
  - unfold stage_events. rewrite run_written, !stage_run_written.
    destruct (result (call_agent_with_streaming "financial" req)) as [r1|]; [|done].
    rewrite !stage_run_written.
    destruct (result (call_agent_with_streaming "portfolio" r1)) as [r2|]; [|done].
    by rewrite !stage_run_written.
  - intros a r Ha. split; (split; [by exists a|done]).
  - apply relayed_is_frame.
Qed.

(** An [error] event is relayed like any other event: the loop of the stage
    goes on with [final_result] unchanged. *)
Lemma iter_lines_loop_error (line : string) (rest : list string)
    (tail : option string) (fr : json) (fields : list (string * json)) :
  utf8_wellformed line = true →
  frame line = Some (JObj fields) →
  is_error (JObj fields) = true →
  iter_lines_loop (line :: rest) tail fr =
  (Write (JObj fields) :: trace (iter_lines_loop rest tail fr),
   result (iter_lines_loop rest tail fr)).
Proof.
  intros Hutf Hframe Herr. rewrite (iter_lines_loop_event _ _ _ _ _ Hutf Hframe).
  unfold next_result, is_complete. cbn in Herr.
  by rewrite (eq_str_true _ _ Herr).
Qed.

(** ** The client loop *)

(** Decide the comparisons of a known string with the literals of the loop. *)
Ltac eval_eq_str :=
  repeat match goal with
         | |- context [eq_str (JStr ?s) ?lit] =>
             let b := eval vm_compute in (eq_str (JStr s) lit) in
             change (eq_str (JStr s) lit) with b
         end;
  cbn iota.

Lemma handle_event_error (st : ClientState) (fields : list (string * json)) :
  is_error (JObj fields) = true →
  handle_event st (JObj fields) =
  ([], Returned (inr (ErrorEvent (dict_get fields "error" (JStr "Unknown error"))))).
Proof.
  intros Herr. unfold handle_event. cbn in Herr.
  cbn [py_get bind ret fst snd]. by rewrite (eq_str_true _ _ Herr).
Qed.

(** The loop body returns at once only for an [error] event. *)
Lemma handle_event_returns (st : ClientState) (event : json) (t : list effect)
    (returned : status) :
  handle_event st event = (t, Returned (inr returned)) →
  ∃ error, returned = ErrorEvent error.
Proof.
  unfold handle_event. destruct event as [| | | | |fields]; try done.
  cbn [py_get bind ret fst snd app].
  repeat (destruct (eq_str _ _);
          [match goal with
           | |- context [bind ?m _] => destruct m as [u [st'|e]]
           | _ => idtac
           end; cbn; intros; simplify_eq; eauto|]).
  done.
Qed.

Lemma client_loop_skip (line : string) (rest : list string) (tail : option string)
    (st : ClientState) :
  utf8_wellformed line = true →
  frame line = None →
  client_loop (line :: rest) tail st = client_loop rest tail st.
Proof.
  intros Hutf Hframe. cbn [client_loop]. unfold decode_utf8, frame in *.
  destruct (String.eqb line ""); [done|]. rewrite Hutf.
  destruct (startswith "data: " line); [|done]. by rewrite Hframe.
Qed.

Lemma client_loop_frame (line : string) (rest : list string) (tail : option string)
    (st : ClientState) (event : json) :
  utf8_wellformed line = true →
  frame line = Some event →
  client_loop (line :: rest) tail st =
  do next <- handle_event st event;
  match next with
  | inl st' => client_loop rest tail st'
  | inr returned => ret (st, returned)
  end.
Proof.
  intros Hutf Hframe. cbn [client_loop].
  rewrite (frame_nonempty _ _ Hframe). unfold decode_utf8, frame in *. rewrite Hutf.
  destruct (startswith "data: " line); [|done]. by rewrite Hframe.
Qed.

(** Lines the loop passed through without returning can be put in front. *)
Lemma client_loop_app (before more : list string) (tail : option string)
    (st0 st : ClientState) (t : list effect) :
  client_loop before None st0 = (t, Returned (st, Success)) →
  client_loop (before ++ more) tail st0 =
  (t ++ trace (client_loop more tail st), result (client_loop more tail st)).
Proof.
  revert st0 t. induction before as [|line before IH]; intros st0 t.
  { cbn. intros [= <- <-]. by destruct (client_loop more tail st0). }
  cbn [app client_loop]. destruct (String.eqb line ""); [apply IH|].
  destruct (decode_utf8 line) as [text|]; [|done].
  destruct (startswith "data: " text); [|apply IH].
  destruct (json_loads (slice_from 6 text)) as [event|]; [|apply IH].
  destruct (handle_event st0 event) as [u [[st1|returned]|e]] eqn:Hevent; [| |done].
  - cbn [bind fst snd].
    destruct (client_loop before None st1) as [v r] eqn:Hloop. cbn [fst snd].
    intros [= <- ->]. rewrite (IH _ _ Hloop). cbn [fst snd]. by rewrite app_assoc.
  - apply handle_event_returns in Hevent as [error ->]. cbn. by intros [= _ _ ?].
Qed.

(** C7 (amended). An [error] event does not fail the invocation of a stage:
    [call_agent_with_streaming] relays it and reads on, its result being as
    without the event.  It is the client loop of [invoke_fund_manager] that
    stops at the first [error] event it reaches: it returns the status
    [error] with the [error] field of the event (["Unknown error"] when the
    field is missing), whatever lines follow and whether or not the
    transport later breaks. *)
Theorem error_event_stops_the_client_loop :
  (∀ line rest tail fr fields,
     utf8_wellformed line = true →
     frame line = Some (JObj fields) →
     is_error (JObj fields) = true →
     iter_lines_loop (line :: rest) tail fr =
     (Write (JObj fields) :: trace (iter_lines_loop rest tail fr),
      result (iter_lines_loop rest tail fr)))
  ∧ (∀ input sid resp before line rest st t fields,
       invoke_agent_runtime "fund_manager"
         (JObj [("input_data", input); ("session_id", sid)]) = inr resp →
       lines resp = before ++ line :: rest →
       client_loop before None initial_client = (t, Returned (st, Success)) →
       utf8_wellformed line = true →
       frame line = Some (JObj fields) →
       is_error (JObj fields) = true →
       invoke_fund_manager input sid =
       (Invoke "fund_manager" (JObj [("input_data", input); ("session_id", sid)]) :: t,
        Returned (ErrorEvent (dict_get fields "error" (JStr "Unknown error"))))).
Proof.
  split; [apply iter_lines_loop_error|].
  intros input sid resp before line rest st t fields Hresp Hlines Hbefore Hutf Hframe Herr.
  unfold invoke_fund_manager. rewrite Hresp, Hlines.
  rewrite (client_loop_app _ _ _ _ _ _ Hbefore).
  rewrite (client_loop_frame _ _ _ _ _ Hutf Hframe), (handle_event_error _ _ Herr).
  cbn. by rewrite !app_nil_r.
Qed.

(** ** The tool-id dictionaries *)

Lemma as_key_Some (v : json) (k : pykey) : key_of v = Some k → as_key v = ret k.
Proof. unfold as_key. by intros ->. Qed.

Lemma as_key_returns (v : json) (t : list effect) (k : pykey) :
  as_key v = (t, Returned k) → key_of v = Some k ∧ t = [].
Proof. unfold as_key. destruct (key_of v); cbn; by intros [= <- <-]. Qed.

Lemma on_node_start_returns (st st' : ClientState) (fields : list (string * json))
    (t : list effect) :
  on_node_start st fields = (t, Returned st') →
  ∃ k, key_of (dict_get fields "agent_name" JNull) = Some k
       ∧ st' = start_agent (dict_get fields "agent_name" JNull) k st.
Proof.
  unfold on_node_start. destruct (key_of _) as [k|] eqn:Hk.
  - rewrite (as_key_Some _ _ Hk). cbn. intros [= <- <-]. by exists k.
  - unfold as_key. by rewrite Hk.
Qed.

Lemma handle_event_node_start (st : ClientState) (fields : list (string * json)) :
  eq_str (dict_get fields "type" JNull) "node_start" = true →
  handle_event st (JObj fields) = do st' <- on_node_start st fields; ret (inl st').
Proof.
  intros Htype. unfold handle_event. cbn [py_get bind ret fst snd app].
  rewrite (eq_str_true _ _ Htype). eval_eq_str.
  by destruct (bind _ _).
Qed.

(** C5 (amended). A stage boundary does not clear the correlation state:
    handling [node_start] makes the named agent current and empties its
    thinking buffer, and leaves both tool-id dictionaries as they were, so a
    call id registered during an earlier stage correlates as before to a tool
    result that arrives in a later stage. *)
Theorem node_start_keeps_tool_dictionaries (st st' : ClientState)
    (fields : list (string * json)) (t : list effect) :
  eq_str (dict_get fields "type" JNull) "node_start" = true →
  handle_event st (JObj fields) = (t, Returned (inl st')) →
  tool_id_to_name st' = tool_id_to_name st
  ∧ tool_id_to_input st' = tool_id_to_input st
  ∧ (∀ k, correlate st' k = correlate st k)
  ∧ current_agent st' = dict_get fields "agent_name" JNull
  ∧ ∃ k, key_of (current_agent st') = Some k ∧ current_thinking st' !! k = Some "".
Proof.
  intros Htype. rewrite (handle_event_node_start _ _ Htype).
  destruct (on_node_start st fields) as [u [st1|e]] eqn:Hstart; [|done].
  cbn. intros [= <- <-].
  apply on_node_start_returns in Hstart as (k & Hk & ->).
  repeat split; try done.
  exists k. split; [done|]. cbn. apply lookup_insert_eq.
Qed.

Lemma render_tool_result_returns (ca name input text : json) :
  result (render_tool_result ca name input text) = Returned tt.
Proof.
  unfold render_tool_result.
  repeat first [ done
               | destruct (_ && _)
               | destruct (eq_str _ _)
               | destruct (loads_value _ ≫= _)
               | destruct (loads_value _) ].
Qed.

(** No routine renders under the name ["unknown"]. *)
Lemma render_tool_result_unknown (ca input text : json) :
  render_tool_result ca (JStr "unknown") input text = ret tt.
Proof.
  unfold render_tool_result. eval_eq_str. rewrite andb_false_r.
  repeat first [ done
               | destruct (eq_str _ _)
               | destruct (loads_value _ ≫= _)
               | destruct (loads_value _) ].
Qed.

Lemma show_tool_result_trace (st : ClientState) (name input tool_content : json) :
  trace (show_tool_result st name input tool_content) = []
  ∨ ∃ result_text,
      trace (show_tool_result st name input tool_content)
      = trace (render_tool_result (current_agent st) name input result_text).
Proof.
  unfold show_tool_result. destruct (truthy tool_content); [|by left].
  assert (∀ m : M unit,
    m = (do ca <- as_key (current_agent st);
         if decide (ca ∈ agent_thinking_containers st) then
           do result_text <- first_text tool_content;
           render_tool_result (current_agent st) name input result_text
         else ret tt) →
    trace m = [] ∨ ∃ result_text,
      trace m = trace (render_tool_result (current_agent st) name input result_text))
    as Hbody.
  { intros m ->. unfold as_key. destruct (key_of (current_agent st)) as [ca|]; [|by left].
    cbn [bind ret fst snd app trace]. destruct (decide _); [|by left].
    unfold first_text.
    destruct tool_content as [| | | |[|[] ?]|]; try by left.
    right. eexists. cbn [bind ret fst snd app trace]. reflexivity. }
  destruct tool_content; try (by left); by apply Hbody.
Qed.

Lemma show_tool_result_unknown (st : ClientState) (input tool_content : json) :
  trace (show_tool_result st (JStr "unknown") input tool_content) = [].
Proof.
  destruct (show_tool_result_trace st (JStr "unknown") input tool_content)
    as [H|[text H]]; [done|].
  by rewrite H, render_tool_result_unknown.
Qed.

(** Whether the first part raises does not depend on the dictionaries nor on
    the name and input found in them. *)
Lemma show_tool_result_result (st : ClientState) (names inputs : gmap pykey json)
    (name input name' input' tool_content : json) :
  result (show_tool_result (with_tools names inputs st) name' input' tool_content)
  = result (show_tool_result st name input tool_content).
Proof.
  unfold show_tool_result. cbn [with_tools current_agent agent_thinking_containers].
  destruct (truthy tool_content); [|done].
  assert (∀ n i,
    result (do ca <- as_key (current_agent st);
            if decide (ca ∈ agent_thinking_containers st) then
              do result_text <- first_text tool_content;
              render_tool_result (current_agent st) n i result_text
            else ret tt)
    = match result (as_key (current_agent st)) with
      | Raised e => Raised e
      | Returned ca =>
          if decide (ca ∈ agent_thinking_containers st) then
            match result (first_text tool_content) with
            | Raised e => Raised e
            | Returned _ => Returned tt
            end
          else Returned tt
      end) as Hbody.
  { intros n i. rewrite result_bind. destruct (result (as_key _)) as [ca|e]; [|done].
    destruct (decide _); [|done]. rewrite result_bind.
    destruct (result (first_text _)); [|done]. apply render_tool_result_returns. }
  destruct tool_content; try done; by rewrite !Hbody.
Qed.

Lemma forget_tool_call_returns (st st' : ClientState) (k : pykey) (t : list effect) :
  forget_tool_call st k = (t, Returned st') →
  t = []
  ∧ (truthy (current_agent st) = true →
     tool_id_to_name st' !! k = None ∧ tool_id_to_input st' !! k = None)
  ∧ (truthy (current_agent st) = false → st' = st).
Proof.
  unfold forget_tool_call. destruct (truthy (current_agent st)).
  - unfold as_key. destruct (key_of (current_agent st)) as [ca|]; [|done].
    cbn [bind ret fst snd app].
    repeat destruct (decide _); try done;
      cbn; intros [= <- <-]; (split; [done|]); (split; [|done]); intros _;
      cbn; by rewrite !lookup_delete_eq.
  - cbn. intros [= <- <-]. by repeat split.
Qed.

Lemma forget_tool_call_result (st : ClientState) (names inputs : gmap pykey json)
    (k : pykey) :
  raises (forget_tool_call (with_tools names inputs st) k) = raises (forget_tool_call st k).
Proof.
  unfold forget_tool_call, raises. cbn [with_tools current_agent].
  destruct (truthy (current_agent st)); [|done].
  unfold as_key. destruct (key_of (current_agent st)) as [ca|]; [|done].
  cbn [bind ret fst snd app result del_tool set_thinking with_tools
       current_text_placeholders agent_thinking_containers].
  by repeat destruct (decide _).
Qed.

Lemma on_tool_result_eq (st : ClientState) (fields : list (string * json)) (k : pykey) :
  key_of (dict_get fields "tool_use_id" (JStr "")) = Some k →
  on_tool_result st fields =
  (show_tool_result st (correlate st k).1 (correlate st k).2
     (dict_get fields "content" (JArr [JObj []]));;
   forget_tool_call st k).
Proof.
  intros Hk. unfold on_tool_result. rewrite (as_key_Some _ _ Hk).
  cbn [bind ret fst snd app]. by destruct (bind _ _).
Qed.

(** C6 (amended). For a [tool_result] event whose handling returns: the
    name and input looked up for it are those stored under its call id, or
    the label ["unknown"] for each that is missing, and any rendering is made
    with them; when no name is stored nothing is rendered (no routine is
    selected for ["unknown"]); when an agent is current both entries of the
    call id are deleted, so the id correlates no second time, and when no
    agent is current the dictionaries stay as they were; with any other
    content of the dictionaries, a missing entry included, the handling
    returns as well: a miss raises nothing. *)
Theorem tool_result_correlation (st st' : ClientState) (fields : list (string * json))
    (k : pykey) (t : list effect) :
  key_of (dict_get fields "tool_use_id" (JStr "")) = Some k →
  on_tool_result st fields = (t, Returned st') →
  (t = [] ∨ ∃ result_text,
     t = trace (render_tool_result (current_agent st)
                  (correlate st k).1 (correlate st k).2 result_text))
  ∧ (∀ name input,
       tool_id_to_name st !! k = Some name → tool_id_to_input st !! k = Some input →
       correlate st k = (name, input))
  ∧ (tool_id_to_name st !! k = None → (correlate st k).1 = JStr "unknown" ∧ t = [])
  ∧ (tool_id_to_input st !! k = None → (correlate st k).2 = JStr "unknown")
  ∧ (truthy (current_agent st) = true →
     tool_id_to_name st' !! k = None ∧ tool_id_to_input st' !! k = None
     ∧ correlate st' k = (JStr "unknown", JStr "unknown"))
  ∧ (truthy (current_agent st) = false → st' = st)
  ∧ (∀ names inputs, raises (on_tool_result (with_tools names inputs st) fields) = false).
Proof.
  intros Hk. rewrite (on_tool_result_eq _ _ _ Hk).
  destruct (show_tool_result st _ _ _) as [u [[]|e]] eqn:Hshow; [|done].
  destruct (forget_tool_call st k) as [v [st1|e]] eqn:Hforget; [|done].
  cbn [bind fst snd]. intros [= <- <-].
  pose proof (forget_tool_call_returns _ _ _ _ Hforget) as (-> & Hdel & Hkeep).
  rewrite app_nil_r.
  assert (u = trace (show_tool_result st (correlate st k).1 (correlate st k).2
                       (dict_get fields "content" (JArr [JObj []])))) as Hu
    by by rewrite Hshow.
  split_and!.
  - rewrite Hu. apply show_tool_result_trace.
  - intros name input Hname Hinput. unfold correlate. by rewrite Hname, Hinput.
  - intros Hmiss. split; [unfold correlate; by rewrite Hmiss|].
    rewrite Hu. unfold correlate at 1. rewrite Hmiss.
    apply show_tool_result_unknown.
  - intros Hmiss. unfold correlate. by rewrite Hmiss.
  - intros Hca. destruct (Hdel Hca) as [Hname Hinput]. unfold correlate.
    by rewrite Hname, Hinput.
  - done.
  - intros names inputs. rewrite (on_tool_result_eq _ _ _ Hk). unfold raises.
    rewrite result_bind.
    rewrite (show_tool_result_result st names inputs
               (correlate st k).1 (correlate st k).2), Hshow.
    cbn [result snd].
    pose proof (forget_tool_call_result st names inputs k) as Hsame.
    unfold raises in Hsame. rewrite Hforget in Hsame. cbn [result snd] in Hsame.
    by destruct (result (forget_tool_call _ _)).
Qed.

(** ** The session summary *)

Lemma load_summary_namespace (current_session : string) :
  ∃ t, trace (load_current_session_summary current_session)
       = Retrieve MEMORY_ID ("fund_management/session/" +:+ current_session)
           "fund management consultation summary" :: t.
Proof.
  unfold load_current_session_summary.
  destruct (retrieve_memories _ _ _) as [cause|[|record records]]; by eexists.
Qed.

Lemma load_summary_not_found (current_session : string) :
  retrieve_memories MEMORY_ID ("fund_management/session/" +:+ current_session)
    "fund management consultation summary" = inr [] →
  result (load_current_session_summary current_session)
  = Returned (NotFound current_session None).
Proof. unfold load_current_session_summary. by intros ->. Qed.

(** C9. What [load_current_session_summary] returns for a response that
    is not empty is made of the first record of the response, whatever the
    creation times of the records after it. *)
Theorem summary_reader_returns_first_record (current_session : string)
    (record : memory_record) (records : list memory_record) :
  retrieve_memories MEMORY_ID ("fund_management/session/" +:+ current_session)
    "fund management consultation summary" = inr (record :: records) →
  load_current_session_summary current_session =
  ([Retrieve MEMORY_ID ("fund_management/session/" +:+ current_session)
      "fund management consultation summary"],
   Returned (Found current_session (timestamp_str record)
               (content_text (default (JObj []) (content record))))).
Proof. unfold load_current_session_summary. by intros ->. Qed.

(** ** More on the decoder and the stages *)

Lemma startswith_app (p r : string) : startswith p (p +:+ r) = true.
Proof.
  induction p as [|a p IH]; [done|].
  change (String a p +:+ r) with (String a (p +:+ r)).
  cbn [startswith]. by rewrite Ascii.eqb_refl.
Qed.

Lemma slice_from_app (p r : string) : slice_from (String.length p) (p +:+ r) = r.
Proof. induction p as [|a p IH]; [by destruct r|]. apply IH. Qed.

Lemma startswith_split (p s : string) :
  startswith p s = true → s = p +:+ slice_from (String.length p) s.
Proof.
  revert s. induction p as [|a p IH]; intros s; [done|].
  destruct s as [|b s]; [done|]. cbn [startswith String.length slice_from].
  intros [->%Ascii.eqb_eq Hp]%andb_prop.
  change (String b p +:+ ?x) with (String b (p +:+ x)). f_equal. by apply IH.
Qed.

(** X1. A line carries a frame exactly when it is ["data: "] followed by a
    text that [json.loads] parses; the frame is the parsed value. *)
Theorem frame_is_prefixed_json (line : string) (event : json) :
  frame line = Some event ↔ ∃ rest, line = "data: " +:+ rest ∧ json_loads rest = Some event.
Proof.
  unfold frame. split.
  - destruct (startswith "data: " line) eqn:Hp; [|done]. intros Hloads.
    exists (slice_from 6 line). split; [|done]. by apply (startswith_split "data: ").
  - intros (rest & -> & Hloads).
    by rewrite (startswith_app "data: "), (slice_from_app "data: ").
Qed.

(** X2. When the transport breaks after lines that are all events, the
    invocation relays every frame and then raises the transport's exception:
    no result is returned, even if a [streaming_complete] frame was among the
    frames. *)
Theorem broken_stream_returns_no_result (a : string) (d : json) (resp : response)
    (cause : string) :
  invoke_agent_runtime a (payload_of d) = inr resp →
  broken resp = Some cause →
  forallb event_line (lines resp) = true →
  call_agent_with_streaming a d =
  (Invoke a (payload_of d) :: map Write (omap frame (lines resp)),
   Raised (StreamError cause)).
Proof.
  intros Hresp Hbroken Hevents.
  by rewrite (call_of_response _ _ _ Hresp), Hbroken, iter_lines_loop_events.
Qed.

(** X3. Over a run, [create_event] is called once for each stage that
    returned a result [save_to_memory] stores (a memory is configured and the
    result is truthy), in the order of the stages, and for no other stage. *)
Theorem turns_are_stored_for_truthy_results (req sid : json) :
  turn_agents (trace (run_consultation req sid)) = omap (stored_stage req) [0; 1; 2].
Proof.
  rewrite run_turn_agents. unfold stored_stage, stage_output.
  cbn -[call_agent_with_streaming result saves].
  destruct (result (call_agent_with_streaming "financial" req)) as [r1|]; [|done].
  destruct (result (call_agent_with_streaming "portfolio" r1)) as [r2|];
    [|by destruct (saves r1)].
  destruct (result (call_agent_with_streaming "risk" r2)) as [r3|];
    by destruct (saves r1), (saves r2); try destruct (saves r3).
Qed.

Lemma stored_sessions_app (t u : list effect) :
  stored_sessions (t ++ u) = stored_sessions t ++ stored_sessions u.
Proof. apply omap_app. Qed.

Lemma stored_sessions_map_Write (events : list json) :
  stored_sessions (map Write events) = [].
Proof. induction events as [|e events IH]; [done | apply IH]. Qed.

Lemma stage_run_stored_sessions (a : string) (sid input : json) :
  Forall (eq sid) (stored_sessions (trace (stage_run a sid input))).
Proof.
  rewrite stage_run_trace.
  change (stored_sessions (Write ?e :: ?t)) with (stored_sessions t).
  rewrite stored_sessions_app, call_trace.
  change (stored_sessions (Invoke ?x ?y :: ?t)) with (stored_sessions t).
  rewrite stored_sessions_map_Write. cbn [app].
  destruct (result _) as [r|]; [|done].
  change (stored_sessions (Write ?e :: ?t)) with (stored_sessions t).
  rewrite save_to_memory_trace. destruct (saves r); by repeat constructor.
Qed.

(** X4. A run works with one session id throughout: the id the caller gave
    when it is truthy, otherwise ["session_"] followed by the start time.  The
    first event written is the [node_start] of the financial stage with that
    id, and every [create_event] call of the run carries it. *)
Theorem session_id_is_given_or_synthesized (payload : list (string * json)) :
  let given := dict_get payload "session_id" JNull in
  let sid := if truthy given then given else JStr ("session_" +:+ now) in
  head (written (trace (fund_manager_entrypoint payload)))
  = Some (node_start "financial" sid)
  ∧ Forall (eq sid) (stored_sessions (trace (fund_manager_entrypoint payload))).
Proof.
  intros given sid. unfold fund_manager_entrypoint. fold given.
  change sid with (effective_session given).
  split.
  - by rewrite run_written, stage_run_written.
  - rewrite run_trace, stored_sessions_app. apply Forall_app. split.
    { apply stage_run_stored_sessions. }
    destruct (result (call_agent_with_streaming "financial" _)) as [r1|]; [|done].
    rewrite stored_sessions_app. apply Forall_app. split.
    { apply stage_run_stored_sessions. }
    destruct (result (call_agent_with_streaming "portfolio" r1)) as [r2|]; [|done].
    apply stage_run_stored_sessions.
Qed.

(** ** More on the tool-id dictionaries *)

Lemma last_segment_skip (skip : nat) (s cur : string) :
  last_segment skip s cur = last_segment 0 (slice_from skip s) cur.
Proof.
  revert s. induction skip as [|skip IH]; intros s; [done|].
  destruct s as [|c s]; [done|]. apply IH.
Qed.

Lemma last_segment_found (c : ascii) (s cur : string) :
  startswith "___" (String c s) = true →
  last_segment 0 (String c s) cur
  = last_segment 0 (slice_from 3 (String c s)) (slice_from 3 (String c s)).
Proof.
  intros Hsep. cbn [last_segment]. rewrite Hsep. by rewrite last_segment_skip.
Qed.

Lemma last_segment_passed (c : ascii) (s cur : string) :
  startswith "___" (String c s) = false →
  last_segment 0 (String c s) cur = last_segment 0 s cur.
Proof. intros Hsep. cbn [last_segment]. by rewrite Hsep. Qed.

Lemma contains_cons (sub : string) (c : ascii) (s : string) :
  contains sub (String c s) = startswith sub (String c s) || contains sub s.
Proof. reflexivity. Qed.

Lemma slice_from_length (n : nat) (s : string) :
  (String.length (slice_from n s) ≤ String.length s)%nat.
Proof.
  revert s. induction n as [|n IH]; intros s; [done|].
  destruct s as [|c s]; [done|]. cbn [slice_from String.length].
  specialize (IH s). lia.
Qed.

Lemma slice_from_suffix (n : nat) (s : string) : ∃ pre, s = pre +:+ slice_from n s.
Proof.
  revert s. induction n as [|n IH]; intros s; [by exists ""|].
  destruct s as [|c s]; [by exists ""|].
  destruct (IH s) as [pre Hpre]. exists (String c pre).
  cbn [slice_from]. change (String c pre +:+ ?x) with (String c (pre +:+ x)).
  by f_equal.
Qed.

Lemma append_assoc (a b c : string) : (a +:+ b) +:+ c = a +:+ (b +:+ c).
Proof.
  induction a as [|x a IH]; [done|].
  change ((String x a +:+ b) +:+ c) with (String x ((a +:+ b) +:+ c)).
  change (String x a +:+ (b +:+ c)) with (String x (a +:+ (b +:+ c))).
  by f_equal.
Qed.

(** What the scan returns holds no separator, unless it is [cur] and the
    text scanned holds none. *)
Lemma last_segment_no_separator (n : nat) (s cur : string) :
  (String.length s ≤ n)%nat →
  contains "___" (last_segment 0 s cur) = false
  ∨ (last_segment 0 s cur = cur ∧ contains "___" s = false).
Proof.
  revert s cur. induction n as [|n IH]; intros s cur Hlen.
  { destruct s; [by right | cbn in Hlen; lia]. }
  destruct s as [|c s]; [by right|].
  destruct (startswith "___" (String c s)) eqn:Hsep.
  - rewrite (last_segment_found _ _ _ Hsep). left.
    destruct (IH (slice_from 3 (String c s)) (slice_from 3 (String c s))) as [H|[-> H]];
      [|done..].
    pose proof (slice_from_length 2 s). cbn [slice_from String.length] in *. lia.
  - rewrite (last_segment_passed _ _ _ Hsep).
    destruct (IH s cur) as [H|[-> H]]; [cbn in Hlen; lia|by left|].
    right. split; [done|]. by rewrite contains_cons, Hsep.
Qed.

(** What the scan returns is [cur] or the end of the text scanned. *)
Lemma last_segment_suffix (n : nat) (s cur : string) :
  (String.length s ≤ n)%nat →
  last_segment 0 s cur = cur ∨ ∃ pre, s = pre +:+ last_segment 0 s cur.
Proof.
  revert s cur. induction n as [|n IH]; intros s cur Hlen.
  { destruct s; [by left | cbn in Hlen; lia]. }
  destruct s as [|c s]; [by left|].
  destruct (startswith "___" (String c s)) eqn:Hsep.
  - rewrite (last_segment_found _ _ _ Hsep). right.
    destruct (slice_from_suffix 3 (String c s)) as [pre Hpre].
    destruct (IH (slice_from 3 (String c s)) (slice_from 3 (String c s))) as [->|[mid H]].
    { pose proof (slice_from_length 2 s). cbn [slice_from String.length] in *. lia. }
    { by exists pre. }
    exists (pre +:+ mid). by rewrite append_assoc, <- H.
  - rewrite (last_segment_passed _ _ _ Hsep).
    destruct (IH s cur) as [->|[pre H]]; [cbn in Hlen; lia|by left|].
    right. exists (String c pre).
    change (String c pre +:+ ?x) with (String c (pre +:+ x)). by f_equal.
Qed.

Lemma last_segment_none (s cur : string) :
  contains "___" s = false → last_segment 0 s cur = cur.
Proof.
  revert cur. induction s as [|c s IH]; intros cur; [done|].
  rewrite contains_cons. intros [Hsep Hs]%orb_false_elim.
  rewrite (last_segment_passed _ _ _ Hsep). by apply IH.
Qed.

Lemma actual_name_str (s : string) : actual_name (JStr s) = ret (JStr (split_last s)).
Proof.
  unfold actual_name, py_in, split_last. destruct (contains "___" s) eqn:Hs; [done|].
  by rewrite last_segment_none.
Qed.

(** ** More on the client loop *)

Lemma handle_event_dispatch (st : ClientState) (fields : list (string * json)) :
  handle_event st (JObj fields) =
  let event_type := dict_get fields "type" JNull in
  if eq_str event_type "text_chunk" then
    do st' <- on_text_chunk st fields; ret (inl st')
  else if eq_str event_type "tool_use" then
    do st' <- on_tool_use st fields; ret (inl st')
  else if eq_str event_type "tool_result" then
    do st' <- on_tool_result st fields; ret (inl st')
  else if eq_str event_type "node_start" then
    do st' <- on_node_start st fields; ret (inl st')
  else if eq_str event_type "node_complete" then
    do st' <- on_node_complete st fields; ret (inl st')
  else if eq_str event_type "error" then
    ret (inr (ErrorEvent (dict_get fields "error" (JStr "Unknown error"))))
  else ret (inl st).
Proof.
  unfold handle_event. cbn [py_get bind ret fst snd app].
  by destruct (if eq_str _ "text_chunk" then _ else _).
Qed.

Lemma bind_inl_returns {A B} (m : M A) (t : list effect) (a : A) :
  (do x <- m; ret (inl x : A + B)) = (t, Returned (inl a)) → m = (t, Returned a).
Proof.
  destruct m as [u [x|e]]; cbn; [|done]. rewrite app_nil_r. by intros [= <- <-].
Qed.

Lemma on_text_chunk_tools (st st' : ClientState) (fields : list (string * json))
    (t : list effect) :
  on_text_chunk st fields = (t, Returned st') →
  tool_id_to_name st' = tool_id_to_name st ∧ tool_id_to_input st' = tool_id_to_input st.
Proof.
  unfold on_text_chunk. destruct (truthy (current_agent st)); [|by intros [= <- <-]].
  unfold as_key. destruct (key_of (current_agent st)) as [k|]; [|done].
  cbn [bind ret fst snd app].
  destruct (current_thinking st !! k); [|by cbn; intros [= <- <-]].
  destruct (dict_get fields "data" (JStr "")); try done.
  cbn. by intros [= <- <-].
Qed.

Lemma on_tool_use_returns (st st' : ClientState) (fields : list (string * json))
    (t : list effect) :
  on_tool_use st fields = (t, Returned st') →
  ∃ k name,
    key_of (dict_get fields "tool_use_id" (JStr "")) = Some k
    ∧ st' = set_tool k name (dict_get fields "tool_input" (JStr "")) st.
Proof.
  unfold on_tool_use.
  destruct (actual_name _) as [u [name|e]] eqn:Hname; [|done].
  cbn [bind fst snd].
  destruct (key_of (dict_get fields "tool_use_id" (JStr ""))) as [k|] eqn:Hk.
  - rewrite (as_key_Some _ _ Hk). cbn. intros [= <- <-]. by exists k, name.
  - unfold as_key. by rewrite Hk.
Qed.

Lemma on_node_complete_returns (st st' : ClientState) (fields : list (string * json))
    (t : list effect) :
  on_node_complete st fields = (t, Returned st') → st' = st.
Proof.
  unfold on_node_complete. unfold as_key.
  destruct (key_of (dict_get fields "agent_name" JNull)) as [k|]; [|done].
  cbn [bind ret fst snd app].
  destruct (_ && _); [|by intros [= <- <-]].
  repeat (destruct (eq_str _ _);
          [cbn; try destruct (display_financial_analysis _); cbn;
           by intros; simplify_eq|]).
  by intros [= <- <-].
Qed.

Lemma on_tool_result_tools (st st' : ClientState) (fields : list (string * json))
    (k : pykey) (t : list effect) :
  on_tool_result st fields = (t, Returned st') →
  key_of (dict_get fields "tool_use_id" (JStr "")) ≠ Some k →
  correlate st' k = correlate st k.
Proof.
  intros Hres Hother.
  destruct (key_of (dict_get fields "tool_use_id" (JStr ""))) as [k'|] eqn:Hk; last first.
  { unfold on_tool_result, as_key in Hres. by rewrite Hk in Hres. }
  rewrite (on_tool_result_eq _ _ _ Hk) in Hres.
  destruct (show_tool_result st _ _ _) as [u [[]|e]]; [|done].
  cbn [bind fst snd] in Hres.
  destruct (forget_tool_call st k') as [v [st1|e]] eqn:Hforget; [|done].
  cbn [fst snd] in Hres. injection Hres as <- <-.
  unfold forget_tool_call in Hforget.
  destruct (truthy (current_agent st)); [|by injection Hforget as <- <-].
  unfold as_key in Hforget. destruct (key_of (current_agent st)) as [ca|]; [|done].
  cbn [bind ret fst snd app] in Hforget.
  assert (st1 = del_tool k' (set_thinking ca "" st)) as ->.
  { revert Hforget. repeat destruct (decide _); cbn; intros; by simplify_eq. }
  unfold correlate. cbn [del_tool set_thinking tool_id_to_name tool_id_to_input].
  assert (k' ≠ k) by congruence. by rewrite !lookup_delete_ne.
Qed.

Lemma handle_event_keeps_other_calls (st st' : ClientState) (event : json) (k : pykey)
    (t : list effect) :
  handle_event st event = (t, Returned (inl st')) →
  ¬ touches k event →
  correlate st' k = correlate st k.
Proof.
  destruct event as [| | | | |fields]; try done.
  rewrite handle_event_dispatch. cbn zeta. unfold touches. intros Hev Hno.
  destruct (eq_str _ "text_chunk").
  { apply bind_inl_returns, on_text_chunk_tools in Hev as [Hn Hi].
    unfold correlate. by rewrite Hn, Hi. }
  destruct (eq_str _ "tool_use") eqn:Huse.
  { apply bind_inl_returns, on_tool_use_returns in Hev as (k' & name & Hk & ->).
    assert (k' ≠ k) by (intros ->; apply Hno; auto).
    unfold correlate. cbn [set_tool tool_id_to_name tool_id_to_input].
    by rewrite !lookup_insert_ne. }
  destruct (eq_str _ "tool_result") eqn:Hres.
  { apply bind_inl_returns in Hev. apply (on_tool_result_tools _ _ _ _ _ Hev).
    intros Hk. apply Hno; auto. }
  destruct (eq_str _ "node_start").
  { apply bind_inl_returns, on_node_start_returns in Hev as (k' & _ & ->). done. }
  destruct (eq_str _ "node_complete").
  { by apply bind_inl_returns, on_node_complete_returns in Hev as ->. }
  destruct (eq_str _ "error"); [done|]. by injection Hev as <- <-.
Qed.

(** X6. A [tool_use] event whose name is a [str] and whose call id can be a
    key is handled without an effect: afterwards the call id correlates to
    the name after the last ["___"] and to the input of the event, whatever
    was stored under it before, and every other call id correlates as
    before. *)
Theorem tool_use_registers_the_call (st : ClientState) (fields : list (string * json))
    (name : string) (k : pykey) :
  dict_get fields "tool_name" (JStr "") = JStr name →
  key_of (dict_get fields "tool_use_id" (JStr "")) = Some k →
  ∃ st',
    on_tool_use st fields = ([], Returned st')
    ∧ correlate st' k = (JStr (split_last name), dict_get fields "tool_input" (JStr ""))
    ∧ (∀ k', k' ≠ k → correlate st' k' = correlate st k')
    ∧ current_agent st' = current_agent st
    ∧ current_thinking st' = current_thinking st.
Proof.
  intros Hname Hk. eexists. unfold on_tool_use. rewrite Hname, (as_key_Some _ _ Hk).
  rewrite actual_name_str.
  cbn [bind ret fst snd app]. split; [reflexivity|].
  unfold correlate. cbn [set_tool tool_id_to_name tool_id_to_input current_agent
                         current_thinking].
  rewrite !lookup_insert_eq. split_and!; try done.
  intros k' Hk'. by rewrite !lookup_insert_ne.
Qed.

(** X7. Events that neither register nor resolve a call id leave what it
    correlates to: after any sequence of events the loop body handles without
    returning, none of them a [tool_use] or [tool_result] with that call id, the
    name and input found for the id are those found before. *)
Theorem untouched_call_id_correlates_as_before (st st' : ClientState)
    (events : list json) (k : pykey) (t : list effect) :
  feed st events = (t, Returned (inl st')) →
  Forall (λ event, ¬ touches k event) events →
  correlate st' k = correlate st k.
Proof.
  revert st t. induction events as [|event events IH]; intros st t.
  { cbn. by intros [= <- <-]. }
  cbn [feed]. intros Hfeed Hno. apply Forall_cons in Hno as [Hevent Hrest].
  destruct (handle_event st event) as [u [[st1|returned]|e]] eqn:Hev; [| done |done].
  cbn [bind fst snd] in Hfeed.
  destruct (feed st1 events) as [v r] eqn:Hnext. cbn [fst snd] in Hfeed.
  injection Hfeed as <- ->.
  rewrite (IH _ _ Hnext Hrest). by apply (handle_event_keeps_other_calls _ _ _ _ _ Hev).
Qed.

(** ** More on what the client returns *)

Lemma frame_empty : frame "" = None.
Proof. reflexivity. Qed.

(** The loop returns [success] only from the clean end of the stream. *)
Lemma client_loop_success (rest : list string) (tail : option string)
    (st st' : ClientState) (t : list effect) :
  client_loop rest tail st = (t, Returned (st', Success)) →
  tail = None
  ∧ Forall (λ line, utf8_wellformed line = true) rest
  ∧ Forall (λ event, ∃ fields, event = JObj fields ∧ is_error event = false)
      (omap frame rest).
Proof.
  revert st t. induction rest as [|line rest IH]; intros st t.
  { cbn. destruct tail; [done|]. by intros _. }
  cbn [client_loop]. rewrite omap_cons_eq.
  destruct (String.eqb line "") eqn:Hline.
  { apply String.eqb_eq in Hline as ->. rewrite frame_empty.
    intros (-> & Hutf & Hev)%IH. split_and!; [done| |done].
    by apply Forall_cons. }
  unfold decode_utf8, frame.
  destruct (utf8_wellformed line) eqn:Hutf; [|done].
  destruct (startswith "data: " line).
  2: { intros (-> & ? & ?)%IH. split_and!; [done| |done]. by apply Forall_cons. }
  destruct (json_loads (slice_from 6 line)) as [event|].
  2: { intros (-> & ? & ?)%IH. split_and!; [done| |done]. by apply Forall_cons. }
  destruct (handle_event st event) as [u [[st1|returned]|e]] eqn:Hevent; [| |done].
  - cbn [bind fst snd].
    destruct (client_loop rest tail st1) as [v r] eqn:Hloop. cbn [fst snd].
    intros [= <- ->]. apply IH in Hloop as (-> & ? & ?).
    split_and!; [done | by apply Forall_cons|]. apply Forall_cons. split; [|done].
    destruct event as [| | | | |fields]; try done. exists fields. split; [done|].
    destruct (is_error (JObj fields)) eqn:Herr; [|done].
    by rewrite (handle_event_error _ _ Herr) in Hevent.
  - apply handle_event_returns in Hevent as [error ->]. cbn. by intros [= _ _ ?].
Qed.

Lemma render_tool_result_invocations (ca name input text : json) :
  invocations (trace (render_tool_result ca name input text)) = [].
Proof.
  unfold render_tool_result.
  repeat first [ done
               | destruct (_ && _)
               | destruct (eq_str _ _)
               | destruct (loads_value _ ≫= _)
               | destruct (loads_value _) ].
Qed.

Lemma invocations_bind {A B} (m : M A) (k : A → M B) :
  invocations (trace m) = [] →
  (∀ a, invocations (trace (k a)) = []) →
  invocations (trace (bind m k)) = [].
Proof.
  intros Hm Hk. rewrite trace_bind, invocations_app, Hm.
  destruct (result m); [apply Hk | done].
Qed.

Lemma as_key_trace (v : json) : trace (as_key v) = [].
Proof. unfold as_key. by destruct (key_of v). Qed.

(** Handling an event calls no runtime. *)
Lemma handle_event_invocations (st : ClientState) (event : json) :
  invocations (trace (handle_event st event)) = [].
Proof.
  destruct event as [| | | | |fields]; try done.
  rewrite handle_event_dispatch. cbn zeta.
  destruct (eq_str _ "text_chunk").
  { apply invocations_bind; [|done].
    unfold on_text_chunk. destruct (truthy _); [|done].
    apply invocations_bind; [by rewrite as_key_trace|]. intros k.
    destruct (_ !! _); [|done]. by destruct (dict_get _ _ _). }
  destruct (eq_str _ "tool_use").
  { apply invocations_bind; [|done].
    unfold on_tool_use. apply invocations_bind.
    { unfold actual_name. destruct (py_in _ _) as [[]|]; try done.
      by destruct (dict_get _ _ _). }
    intros name. apply invocations_bind; [by rewrite as_key_trace | done]. }
  destruct (eq_str _ "tool_result").
  { apply invocations_bind; [|done].
    unfold on_tool_result. apply invocations_bind; [by rewrite as_key_trace|].
    intros k. apply invocations_bind.
    - destruct (show_tool_result_trace st (correlate st k).1 (correlate st k).2
                  (dict_get fields "content" (JArr [JObj []]))) as [->|[text ->]];
        [done | apply render_tool_result_invocations].
    - intros _. unfold forget_tool_call. destruct (truthy _); [|done].
      apply invocations_bind; [by rewrite as_key_trace|]. intros ca.
      by repeat destruct (decide _). }
  destruct (eq_str _ "node_start").
  { apply invocations_bind; [|done].
    unfold on_node_start. apply invocations_bind; [by rewrite as_key_trace | done]. }
  destruct (eq_str _ "node_complete").
  { apply invocations_bind; [|done].
    unfold on_node_complete. apply invocations_bind; [by rewrite as_key_trace|].
    intros k. destruct (_ && _); [|done].
    destruct (eq_str _ "financial"); [cbn; by destruct (display_financial_analysis _)|].
    destruct (eq_str _ "portfolio"); [done|].
    by destruct (eq_str _ "risk"). }
  by destruct (eq_str _ "error").
Qed.

Lemma client_loop_invocations (rest : list string) (tail : option string)
    (st : ClientState) :
  invocations (trace (client_loop rest tail st)) = [].
Proof.
  revert st. induction rest as [|line rest IH]; intros st; [by destruct tail|].
  cbn [client_loop]. destruct (String.eqb line ""); [apply IH|].
  destruct (decode_utf8 line) as [text|]; [|done].
  destruct (startswith "data: " text); [|apply IH].
  destruct (json_loads _) as [event|]; [|apply IH].
  apply invocations_bind; [apply handle_event_invocations|].
  intros [st1|returned]; [apply IH | done].
Qed.

(** X8. [invoke_fund_manager] calls the runtime once and always returns a
    status, whatever the runtime and the stream do: a call that is refused
    gives the status [error] with the cause, and so does a stream that breaks
    after lines the loop went through, with all that was rendered before. *)
Theorem client_reports_failures_as_status (input sid : json) :
  let payload := JObj [("input_data", input); ("session_id", sid)] in
  (∃ s, result (invoke_fund_manager input sid) = Returned s)
  ∧ invocations (trace (invoke_fund_manager input sid)) = [("fund_manager", payload)]
  ∧ (∀ cause, invoke_agent_runtime "fund_manager" payload = inl cause →
       invoke_fund_manager input sid
       = ([Invoke "fund_manager" payload], Returned (ErrorException (ClientError cause))))
  ∧ (∀ resp cause st t,
       invoke_agent_runtime "fund_manager" payload = inr resp →
       broken resp = Some cause →
       client_loop (lines resp) None initial_client = (t, Returned (st, Success)) →
       invoke_fund_manager input sid
       = (Invoke "fund_manager" payload :: t,
          Returned (ErrorException (StreamError cause)))).
Proof.
  cbn zeta. unfold invoke_fund_manager. split_and!.
  - destruct (invoke_agent_runtime _ _) as [cause|resp]; [by eexists|].
    destruct (client_loop _ _ _) as [u [[st s]|e]]; by eexists.
  - destruct (invoke_agent_runtime _ _) as [cause|resp]; [done|].
    pose proof (client_loop_invocations (lines resp) (broken resp) initial_client) as H.
    destruct (client_loop _ _ _) as [u [[st s]|e]]; cbn in *;
      rewrite ?app_nil_r; by rewrite H.
  - by intros cause ->.
  - intros resp cause st t -> Hbroken Hloop.
    pose proof (client_loop_app (lines resp) [] (Some cause) _ _ _ Hloop) as Happ.
    rewrite app_nil_r in Happ. rewrite Hbroken, Happ. cbn. by rewrite !app_nil_r.
Qed.

(** X9. The status [success] means the stream was read to its clean end:
    the runtime answered, the transport did not break, every line was
    well-formed UTF-8, and every frame was a JSON object other than an
    [error] event. *)
Theorem success_means_a_clean_stream (input sid : json) :
  result (invoke_fund_manager input sid) = Returned Success →
  ∃ resp,
    invoke_agent_runtime "fund_manager"
      (JObj [("input_data", input); ("session_id", sid)]) = inr resp
    ∧ broken resp = None
    ∧ Forall (λ line, utf8_wellformed line = true) (lines resp)
    ∧ Forall (λ event, ∃ fields, event = JObj fields ∧ is_error event = false)
        (omap frame (lines resp)).
Proof.
  unfold invoke_fund_manager.
  destruct (invoke_agent_runtime _ _) as [cause|resp]; [done|].
  destruct (client_loop _ _ _) as [u [[st s]|e]] eqn:Hloop; [|done].
  cbn. intros [= ->]. exists resp. split; [done|].
  by apply client_loop_success in Hloop.
Qed.

(** ** More on the session summary *)

(** X10. [load_current_session_summary] always returns, for the session
    asked for: it reports no summary and no error exactly when the store
    answers with no record, and it reports the failure of the store, after an
    error message on the page, exactly when the store raises. *)
Theorem summary_reader_reports_store_failure (current_session : string) :
  let namespace := "fund_management/session/" +:+ current_session in
  let query := "fund management consultation summary" in
  (∃ s, result (load_current_session_summary current_session) = Returned s
        ∧ match s with
          | Found sid _ _ | NotFound sid _ => sid = current_session
          end)
  ∧ (result (load_current_session_summary current_session)
     = Returned (NotFound current_session None)
     ↔ retrieve_memories MEMORY_ID namespace query = inr [])
  ∧ (∀ cause,
       load_current_session_summary current_session
       = ([Retrieve MEMORY_ID namespace query; Display "st.error" []],
          Returned (NotFound current_session (Some (StoreError cause))))
       ↔ retrieve_memories MEMORY_ID namespace query = inl cause).
Proof.
  cbn zeta. unfold load_current_session_summary.
  destruct (retrieve_memories _ _ _) as [cause|[|record records]]; cbn.
  - split_and!; [by eexists| |].
    + split; intros; simplify_eq.
    + intros cause'. split; intros; by simplify_eq.
  - split_and!; [by eexists|done|].
    intros cause'. split; intros; simplify_eq.
  - split_and!; [by eexists| |].
    + split; intros; simplify_eq.
    + intros cause'. split; intros; simplify_eq.
Qed.

(** ** The JSON object in a text *)

Lemma append_cons (a : ascii) (p r : string) : String a p +:+ r = String a (p +:+ r).
Proof. reflexivity. Qed.

Lemma string_length_app (a b : string) :
  String.length (a +:+ b) = (String.length a + String.length b)%nat.
Proof.
  induction a as [|c a IH]; [done|]. rewrite append_cons. cbn [String.length Nat.add].
  by rewrite IH.
Qed.

Lemma find_char_app (c : ascii) (pre post : string) :
  c ∉ list_ascii_of_string pre →
  find_char c (pre +:+ String c post) = Some (String.length pre).
Proof.
  induction pre as [|a pre IH].
  - intros _. change (find_char c (String c post) = Some 0%nat).
    cbn [find_char]. by rewrite Ascii.eqb_refl.
  - cbn [list_ascii_of_string]. intros [Ha Hpre]%not_elem_of_cons.
    rewrite append_cons. cbn [find_char String.length].
    destruct (Ascii.eqb_spec a c) as [->|_]; [done|]. by rewrite IH.
Qed.

Lemma find_char_Some (c : ascii) (s : string) (n : nat) :
  find_char c s = Some n →
  ∃ pre post, s = pre +:+ String c post ∧ (c ∉ list_ascii_of_string pre)
              ∧ String.length pre = n.
Proof.
  revert n. induction s as [|a s IH]; intros n; [done|]. cbn [find_char].
  destruct (Ascii.eqb_spec a c) as [->|Hne].
  - intros [= <-]. exists "", s. split_and!; [done | apply not_elem_of_nil | done].
  - destruct (find_char c s) as [m|]; [|done]. cbn. intros [= <-].
    destruct (IH m eq_refl) as (pre & post & -> & Hpre & <-).
    exists (String a pre), post. split_and!; [done| |done].
    cbn [list_ascii_of_string]. apply not_elem_of_cons. split; [congruence | done].
Qed.

Lemma rfind_char_None (c : ascii) (s : string) :
  rfind_char c s = None ↔ c ∉ list_ascii_of_string s.
Proof.
  induction s as [|a s IH]; cbn [rfind_char list_ascii_of_string].
  { split; [intros _; apply not_elem_of_nil | done]. }
  rewrite not_elem_of_cons, <- IH.
  destruct (rfind_char c s); [split; [done | by intros [_ ?]]|].
  destruct (Ascii.eqb_spec a c) as [->|Hne]; split; try done; by intros [? _].
Qed.

Lemma rfind_char_app (c : ascii) (pre post : string) :
  c ∉ list_ascii_of_string post →
  rfind_char c (pre +:+ String c post) = Some (String.length pre).
Proof.
  intros Hpost%rfind_char_None. induction pre as [|a pre IH].
  - change (rfind_char c (String c post) = Some 0%nat).
    cbn [rfind_char]. by rewrite Hpost, Ascii.eqb_refl.
  - rewrite append_cons. cbn [rfind_char String.length]. by rewrite IH.
Qed.

Lemma rfind_char_Some (c : ascii) (s : string) (n : nat) :
  rfind_char c s = Some n →
  ∃ pre post, s = pre +:+ String c post ∧ (c ∉ list_ascii_of_string post)
              ∧ String.length pre = n.
Proof.
  revert n. induction s as [|a s IH]; intros n; [done|]. cbn [rfind_char].
  destruct (rfind_char c s) as [m|] eqn:Hs.
  - intros [= <-]. destruct (IH m eq_refl) as (pre & post & -> & Hpost & <-).
    by exists (String a pre), post.
  - destruct (Ascii.eqb_spec a c) as [->|Hne]; [|done]. intros [= <-].
    exists "", s. split_and!; [done | by apply rfind_char_None | done].
Qed.

Lemma substring_skip (pre s : string) (m : nat) :
  substring (String.length pre) m (pre +:+ s) = substring 0 m s.
Proof.
  induction pre as [|a pre IH]; [done|]. rewrite append_cons.
  cbn [String.length substring]. apply IH.
Qed.

Lemma substring_take (a b : string) :
  substring 0 (String.length a) (a +:+ b) = a.
Proof.
  induction a as [|c a IH]; [by destruct b|]. rewrite append_cons.
  cbn [String.length substring]. by rewrite IH.
Qed.

(** Two occurrences of different characters, the first one not after the
    second: the second lies in what follows the first. *)
Lemma two_occurrences (c1 c2 : ascii) (pre1 post1 pre2 post2 : string) :
  pre1 +:+ String c1 post1 = pre2 +:+ String c2 post2 →
  c1 ≠ c2 →
  (String.length pre1 ≤ String.length pre2)%nat →
  ∃ body, pre2 = pre1 +:+ String c1 body.
Proof.
  revert pre2. induction pre1 as [|a pre1 IH]; intros pre2.
  - destruct pre2 as [|b pre2].
    + cbn. intros [= ? _]. done.
    + rewrite append_cons. cbn. intros [= <- _] _ _. by exists pre2.
  - destruct pre2 as [|b pre2]; [cbn; lia|]. rewrite !append_cons.
    cbn [String.length].
    intros [= <- Heq] Hne Hlen. destruct (IH pre2 Heq Hne) as [body ->]; [lia|].
    by exists body.
Qed.

Lemma brace_slice (pre body post : string) :
  substring (String.length pre)
    (S (String.length pre + S (String.length body)) - String.length pre)
    (pre +:+ "{" +:+ body +:+ "}" +:+ post)
  = "{" +:+ body +:+ "}".
Proof.
  replace (S (String.length pre + S (String.length body)) - String.length pre)%nat
    with (String.length ("{" +:+ body +:+ "}")).
  2: { rewrite !string_length_app. cbn [String.length]. lia. }
  assert ("{" +:+ body +:+ "}" +:+ post = ("{" +:+ body +:+ "}") +:+ post) as ->.
  { change (String "{" (body +:+ ("}" +:+ post)) = String "{" ((body +:+ "}") +:+ post)).
    by rewrite append_assoc. }
  by rewrite substring_skip, substring_take.
Qed.

(** X11. Of a [str], [extract_json_from_text] parses the text from the first
    ["{"] to the last ["}"], both included, and nothing else: it returns a
    value exactly when the text has a ["{"] with a ["}"] somewhere after it
    and that slice parses.  A [dict] is returned as it is, any other value
    gives [None]. *)
Theorem extract_json_parses_first_to_last_brace :
  (∀ s v,
     extract_json_from_text (JStr s) = Some v
     ↔ ∃ pre body post,
         s = pre +:+ "{" +:+ body +:+ "}" +:+ post
         ∧ ("{"%char ∉ list_ascii_of_string pre)
         ∧ ("}"%char ∉ list_ascii_of_string post)
         ∧ json_loads ("{" +:+ body +:+ "}") = Some v)
  ∧ (∀ fields, extract_json_from_text (JObj fields) = Some (JObj fields))
  ∧ (∀ text, (∀ s, text ≠ JStr s) → (∀ fields, text ≠ JObj fields) →
       extract_json_from_text text = None).
Proof.
  split_and!; [|done|]; last first.
  { intros [| | |s| |fields] Hs Hf; try done; [by destruct (Hs s) | by destruct (Hf fields)]. }
  intros s v. unfold extract_json_from_text. split.
  - destruct (find_char "{" s) as [start|] eqn:Hstart; [|done].
    destruct (rfind_char "}" s) as [e|] eqn:Hend; [|done].
    destruct (Nat.ltb_spec start (S e)) as [Hlt|]; [|done].
    apply find_char_Some in Hstart as (pre1 & post1 & Hs1 & Hpre & <-).
    apply rfind_char_Some in Hend as (pre2 & post2 & Hs2 & Hpost & <-).
    destruct (two_occurrences "{" "}" pre1 post1 pre2 post2) as [body ->];
      [congruence | done | lia |].
    assert (s = pre1 +:+ "{" +:+ body +:+ "}" +:+ post2) as ->
      by (by rewrite Hs2, append_assoc).
    rewrite string_length_app. cbn [String.length]. rewrite brace_slice.
    intros Hloads. by exists pre1, body, post2.
  - intros (pre & body & post & -> & Hpre & Hpost & Hloads).
    rewrite (find_char_app "{" pre (body +:+ "}" +:+ post) Hpre
             : find_char "{" (pre +:+ "{" +:+ body +:+ "}" +:+ post) = _).
    assert (rfind_char "}" (pre +:+ "{" +:+ body +:+ "}" +:+ post)
            = Some (String.length pre + S (String.length body))%nat) as ->.
    { replace (pre +:+ "{" +:+ body +:+ "}" +:+ post)
        with ((pre +:+ String "{" body) +:+ String "}" post)
        by (by rewrite append_assoc).
      by rewrite (rfind_char_app _ _ _ Hpost), string_length_app. }
    destruct (Nat.ltb_spec (String.length pre) (S (String.length pre + S (String.length body))))
      as [_|]; [|lia].
    by rewrite brace_slice.
Qed.

(** X12. A financial result that holds no JSON object ends the client.
    [display_financial_analysis] has no handler of its own and starts with
    [data.get] on what [extract_json_from_text] returns; provided it raises
    what these first lines raise, a [node_complete] event of the financial
    stage whose result is truthy and gives no object raises [AttributeError]
    in the loop, and [invoke_fund_manager] returns the status [error] with
    it, whatever lines follow. *)
Theorem financial_result_without_object_ends_the_client
    (input sid : json) (resp : response) (before rest : list string) (line : string)
    (st : ClientState) (t : list effect) (fields : list (string * json)) :
  let payload := JObj [("input_data", input); ("session_id", sid)] in
  let analysis := dict_get fields "result" JNull in
  (∀ r e, result (analysis_summary r) = Raised e → display_financial_analysis r = Some e) →
  invoke_agent_runtime "fund_manager" payload = inr resp →
  lines resp = before ++ line :: rest →
  client_loop before None initial_client = (t, Returned (st, Success)) →
  utf8_wellformed line = true →
  frame line = Some (JObj fields) →
  eq_str (dict_get fields "type" JNull) "node_complete" = true →
  dict_get fields "agent_name" JNull = JStr "financial" →
  Some (inr "financial") ∈ agent_containers st →
  truthy analysis = true →
  extract_json_from_text analysis = None →
  handle_event st (JObj fields)
  = ([Display "display_financial_analysis" [analysis]], Raised AttributeError)
  ∧ invoke_fund_manager input sid
    = (Invoke "fund_manager" payload :: t ++ [Display "display_financial_analysis" [analysis]],
       Returned (ErrorException AttributeError)).
Proof.
  cbn zeta.
  intros Hdisplay Hresp Hlines Hbefore Hutf Hframe Htype Hagent Hcontainer Htruthy Hnone.
  assert (handle_event st (JObj fields)
          = ([Display "display_financial_analysis" [dict_get fields "result" JNull]],
             Raised AttributeError)) as Hevent.
  { rewrite handle_event_dispatch. cbn zeta. rewrite (eq_str_true _ _ Htype). eval_eq_str.
    unfold on_node_complete. rewrite Hagent. cbn [as_key key_of bind ret fst snd app].
    rewrite bool_decide_eq_true_2 by done. rewrite Htruthy. cbn [andb]. eval_eq_str.
    rewrite (Hdisplay _ AttributeError); [done|].
    unfold analysis_summary. by rewrite Hnone. }
  split; [done|].
  unfold invoke_fund_manager. rewrite Hresp, Hlines.
  rewrite (client_loop_app _ _ _ _ _ _ Hbefore).
  rewrite (client_loop_frame _ _ _ _ _ Hutf Hframe), Hevent.
  cbn. by rewrite !app_nil_r.
Qed.

(** ** The thinking buffer *)

Lemma handle_event_text_chunk (st : ClientState) (fields : list (string * json)) :
  eq_str (dict_get fields "type" JNull) "text_chunk" = true →
  handle_event st (JObj fields) = do st' <- on_text_chunk st fields; ret (inl st').
Proof. intros Htype. rewrite handle_event_dispatch. cbn zeta. by rewrite Htype. Qed.

Lemma append_nil_r (s : string) : s +:+ "" = s.
Proof. induction s as [|c s IH]; [done|]. by rewrite append_cons, IH. Qed.

(** X18. Text chunks accumulate in the thinking buffer of the current
    agent: a run of [text_chunk] events whose data are strings is handled
    without an effect, and leaves in the buffer what was there followed by
    the chunks in the order received; the current agent and the tool-id
    dictionaries stay as they were. *)
Theorem text_chunks_accumulate (st : ClientState) (events : list json)
    (chunks : list string) (k : pykey) (text : string) :
  truthy (current_agent st) = true →
  key_of (current_agent st) = Some k →
  current_thinking st !! k = Some text →
  Forall2 (λ event chunk, ∃ fields,
             event = JObj fields
             ∧ eq_str (dict_get fields "type" JNull) "text_chunk" = true
             ∧ dict_get fields "data" (JStr "") = JStr chunk) events chunks →
  ∃ st',
    feed st events = ([], Returned (inl st'))
    ∧ current_thinking st' !! k = Some (text +:+ foldr String.append "" chunks)
    ∧ current_agent st' = current_agent st
    ∧ tool_id_to_name st' = tool_id_to_name st
    ∧ tool_id_to_input st' = tool_id_to_input st.
Proof.
  intros Htruthy Hk Htext Hevents. revert st text Htruthy Hk Htext.
  induction Hevents as [|event chunk events chunks (fields & -> & Htype & Hdata) _ IH];
    intros st text Htruthy Hk Htext.
  { exists st. cbn [feed ret foldr]. by rewrite append_nil_r. }
  cbn [feed]. rewrite (handle_event_text_chunk _ _ Htype).
  unfold on_text_chunk. rewrite Htruthy, (as_key_Some _ _ Hk).
  cbn [bind ret fst snd app]. rewrite Htext, Hdata. cbn [bind ret fst snd app].
  destruct (IH (set_thinking k (text +:+ chunk) st) (text +:+ chunk))
    as (st' & Hfeed & Hbuffer & Hagent & Hnames & Hinputs);
    [done | done | cbn; apply lookup_insert_eq |].
  exists st'. rewrite Hfeed. cbn [fst snd app]. split_and!; try done.
  rewrite Hbuffer. cbn [foldr]. by rewrite append_assoc.
Qed.

(** ** What is kept of a tool name *)

(** The first three characters after [c] are the same in both texts. *)
Lemma startswith_separator_agree (c : ascii) (p r : string) :
  startswith "___" (String c (p +:+ "__"))
  = startswith "___" (String c (p +:+ "___" +:+ r)).
Proof. by destruct p as [|a [|b p]]. Qed.

(** The scan passes a piece and the separator after it, and goes on with
    what follows. *)
Lemma last_segment_piece (p r cur : string) :
  split_piece p = true →
  last_segment 0 (p +:+ "___" +:+ r) cur = last_segment 0 r r.
Proof.
  unfold split_piece. revert cur. induction p as [|c p IH]; intros cur Hpiece.
  { exact (last_segment_found "_" ("__" +:+ r) cur eq_refl). }
  rewrite append_cons in *. rewrite contains_cons in Hpiece.
  apply negb_true_iff, orb_false_elim in Hpiece as [Hsep Hrest].
  rewrite startswith_separator_agree with (r := r) in Hsep.
  rewrite (last_segment_passed _ _ _ Hsep). apply IH. by rewrite Hrest.
Qed.

(** A text with a separator starts with a piece and a separator. *)
Lemma first_piece (s : string) :
  contains "___" s = true →
  ∃ p r, s = p +:+ "___" +:+ r ∧ split_piece p = true.
Proof.
  induction s as [|c s IH]; [done|]. rewrite contains_cons.
  destruct (startswith "___" (String c s)) eqn:Hsep.
  - intros _. exists "", (slice_from 3 (String c s)). split; [|done].
    exact (startswith_split "___" (String c s) Hsep).
  - cbn [orb]. intros (p & r & -> & Hpiece)%IH. exists (String c p), r.
    split; [by rewrite append_cons|].
    unfold split_piece in *. rewrite append_cons, contains_cons.
    rewrite startswith_separator_agree with (r := r), Hsep. done.
Qed.

Lemma split_last_joined (pieces : list string) (last : string) :
  Forall (λ p, split_piece p = true) pieces →
  contains "___" last = false →
  split_last (joined pieces last) = last.
Proof.
  intros Hpieces Hlast. unfold split_last.
  induction Hpieces as [|p pieces Hp _ IH]; [by apply last_segment_none|].
  cbn [joined foldr]. by rewrite (last_segment_piece _ _ _ Hp).
Qed.

Lemma split_last_pieces (n : nat) (s : string) :
  (String.length s ≤ n)%nat →
  ∃ pieces, s = joined pieces (split_last s) ∧ Forall (λ p, split_piece p = true) pieces.
Proof.
  revert s. induction n as [|n IH]; intros s Hlen.
  { destruct s; [by exists [] | cbn in Hlen; lia]. }
  destruct (contains "___" s) eqn:Hs.
  - destruct (first_piece s Hs) as (p & r & -> & Hpiece).
    destruct (IH r) as (pieces & Hr & Hpieces).
    { rewrite !string_length_app in Hlen. cbn [String.length] in Hlen. lia. }
    exists (p :: pieces). split; [|by apply Forall_cons].
    unfold split_last. rewrite (last_segment_piece _ _ _ Hpiece).
    change (p +:+ "___" +:+ r = p +:+ "___" +:+ joined pieces (split_last r)).
    by rewrite <- Hr.
  - exists []. split; [|done]. unfold split_last. by rewrite last_segment_none.
Qed.

Lemma joined_ends (pieces : list string) (p last : string) :
  ∃ pre, joined (p :: pieces) last = pre +:+ "___" +:+ last.
Proof.
  revert p. induction pieces as [|q pieces IH]; intros p; [by exists p|].
  destruct (IH q) as [pre Hpre]. exists (p +:+ "___" +:+ pre).
  cbn [joined foldr] in *. by rewrite Hpre, !append_assoc.
Qed.

(** X5. The name kept for a tool is what follows the last separator
    ["___"] of the name received, as [split] finds the separators from the
    left: the name received is its pieces joined by the separator with the
    kept name last, and with any such pieces the last one is the kept name.
    So the kept name holds no separator, the name received ends with a
    separator and the kept name when it holds a separator, and is kept as it
    is when it holds none. *)
Theorem split_last_cuts_the_prefix (s : string) :
  (∃ pieces, s = joined pieces (split_last s)
             ∧ Forall (λ p, split_piece p = true) pieces)
  ∧ (∀ pieces last,
       s = joined pieces last →
       Forall (λ p, split_piece p = true) pieces →
       contains "___" last = false →
       split_last s = last)
  ∧ contains "___" (split_last s) = false
  ∧ (contains "___" s = true → ∃ pre, s = pre +:+ "___" +:+ split_last s)
  ∧ (contains "___" s = false → split_last s = s)
  ∧ actual_name (JStr s) = ret (JStr (split_last s)).
Proof.
  pose proof (last_segment_no_separator (String.length s) s s (le_n _)) as Hno.
  assert (contains "___" (split_last s) = false) as Hkept.
  { unfold split_last. destruct Hno as [H|[H1 H2]]; [done | by rewrite H1]. }
  destruct (split_last_pieces (String.length s) s (le_n _)) as (pieces & Hs & Hpieces).
  split_and!.
  - by exists pieces.
  - intros pieces' last -> Hpieces' Hlast. by apply split_last_joined.
  - done.
  - intros Hsep. destruct pieces as [|p pieces].
    + cbn [joined foldr] in Hs. rewrite <- Hs in Hkept. congruence.
    + destruct (joined_ends pieces p (split_last s)) as [pre Hpre].
      exists pre. by rewrite <- Hpre.
  - intros Hnone. unfold split_last. by apply last_segment_none.
  - apply actual_name_str.
Qed.

End Pipeline.

(** A run against a sample service and store. *)
Abbreviation sample_run service store :=
  (run_consultation sample_loads sample_dumps sample_str service store
     "mem-1" "20240101_120000" sample_request sample_session).

(** [display_financial_analysis] as far as its first lines go, on the texts
    of [page_loads]. *)
Definition strict_display (analysis_content : json) : option exn :=
  match result (analysis_summary page_loads analysis_content) with
  | Raised e => Some e
  | Returned _ => None
  end.

(** ** A Memory Store that fails *)

(** C8. Whatever the Memory Store does, [save_to_memory] returns: when
    [create_event] raises, the call is followed by a printed failure line and
    nothing is raised.  The run does not depend on the store: with any two
    stores it ends the same way, invokes the same stages with the same
    payloads, each stage after the first receiving the result the stage
    before returned, and writes the same events. *)
Theorem store_failure_is_swallowed
    (json_loads : string → option json) (json_dumps py_str : json → string)
    (invoke_agent_runtime : string → json → string + response)
    (create_event create_event' :
       string → string → json → list (string * string) → option string)
    (memory_id now : string) (req sid : json) :
  (∀ session a input r,
     result (save_to_memory json_dumps py_str create_event memory_id session a input r)
     = Returned tt
     ∧ ∀ cause,
         saves memory_id r = true →
         create_event memory_id "fund_manager_user" session
           (turn_messages json_dumps py_str a input r) = Some cause →
         trace (save_to_memory json_dumps py_str create_event memory_id session a input r)
         = [ CreateEvent a memory_id "fund_manager_user" session
               (turn_messages json_dumps py_str a input r);
             Print (SaveFailedLine a (StoreError cause)) ])
  ∧ result (run_consultation json_loads json_dumps py_str invoke_agent_runtime
              create_event memory_id now req sid)
    = result (run_consultation json_loads json_dumps py_str invoke_agent_runtime
                create_event' memory_id now req sid)
  ∧ invocations (trace (run_consultation json_loads json_dumps py_str
                          invoke_agent_runtime create_event memory_id now req sid))
    = invocations (trace (run_consultation json_loads json_dumps py_str
                            invoke_agent_runtime create_event' memory_id now req sid))
  ∧ invocations (trace (run_consultation json_loads json_dumps py_str
                          invoke_agent_runtime create_event memory_id now req sid))
    = ("financial", payload_of req)
      :: match result (call_agent_with_streaming json_loads invoke_agent_runtime
                         "financial" req) with
         | Raised _ => []
         | Returned r1 =>
             ("portfolio", payload_of r1)
             :: match result (call_agent_with_streaming json_loads
                                invoke_agent_runtime "portfolio" r1) with
                | Raised _ => []
                | Returned r2 => [("risk", payload_of r2)]
                end
         end
  ∧ written (trace (run_consultation json_loads json_dumps py_str
                      invoke_agent_runtime create_event memory_id now req sid))
    = written (trace (run_consultation json_loads json_dumps py_str
                        invoke_agent_runtime create_event' memory_id now req sid)).
Proof.
  split_and!.
  - intros session a input r. split; [apply save_to_memory_result|].
    intros cause Hsaves Hraise. rewrite save_to_memory_trace, Hsaves. by rewrite Hraise.
  - by rewrite !run_result.
  - by rewrite !run_invocations.
  - apply run_invocations.
  - rewrite !run_written, !stage_run_written.
    destruct (result (call_agent_with_streaming _ _ "financial" req)) as [r1|]; [|done].
    rewrite !stage_run_written.
    destruct (result (call_agent_with_streaming _ _ "portfolio" r1)) as [r2|]; [|done].
    by rewrite !stage_run_written.
Qed.



(** ** Where the deployment information comes from *)

(** X13. [AgentClient._load_agent_arns] decides agent by agent: the ARN of
    an agent is the value of its variable when that is set and not empty, and
    no file is opened for it; otherwise it is the field [agent_arn] of the
    agent's [deployment_info.json] under fund_manager/, which is opened.  No
    other file is opened. *)
Theorem agent_arn_is_taken_per_agent (env : list (string * string))
    (fs : string → file) (paths : list string) (arns : list (string * json)) :
  _load_agent_arns env fs = (paths, inr arns) →
  Forall (λ '(agent_key, name, agent_dir),
            if truthy (getenv env name) then
              dict_lookup arns agent_key = Some (getenv env name)
              ∧ agent_info_file agent_dir ∉ paths
            else
              (∃ v, load_field fs (agent_info_file agent_dir) "agent_arn" = inr v
                    ∧ dict_lookup arns agent_key = Some v)
              ∧ agent_info_file agent_dir ∈ paths)
    agent_variables
  ∧ paths ⊆ map (λ v, agent_info_file v.2) agent_variables.
Proof.
  unfold _load_agent_arns, agent_variables.
  rewrite !Forall_cons, Forall_nil.
  remember (getenv env "FINANCIAL_ANALYST_ARN") as f eqn:Ef.
  remember (getenv env "PORTFOLIO_ARCHITECT_ARN") as p eqn:Ep.
  remember (getenv env "RISK_MANAGER_ARN") as r eqn:Er.
  cbn [forallb fmap list_fmap snd map].
  destruct (truthy f) eqn:Hf, (truthy p) eqn:Hp, (truthy r) eqn:Hr;
    cbn [andb load_missing_arns agent_dirs];
    repeat (cbn [dict_lookup dict_set String.eqb Ascii.eqb Bool.eqb fst snd];
            rewrite ?Hf, ?Hp, ?Hr;
            try match goal with
                | |- context [load_field ?a ?b ?c] =>
                    let H := fresh "Hload" in destruct (load_field a b c) eqn:H
                end);
    try done.
  all: intros [= <- <-].
  all: cbn [dict_lookup String.eqb Ascii.eqb Bool.eqb].
  all: split_and!; try done; try (by eexists); compute_done.
Qed.

(** X14. What deploy.py launches the runtime with configures the client of
    fund_manager.py without any file: when the deployment information of the
    memory and of the three agents loads, and the environment of the runtime
    holds the variables of the launch, all of them strings that are not
    empty, [AgentClient] takes the ARN of each agent and the memory id from
    the environment, opening no file, and they are the fields [agent_arn] and
    [memory_id] of the deployment files. *)
Theorem deployed_environment_configures_the_client
    (fs fs' : string → file) (env : list (string * string))
    (memory_info : json) (agent_arns vars : list (string * json))
    (opened opened' : list string) :
  load_memory_info fs = (opened, inr memory_info) →
  load_agent_arns fs = (opened', inr agent_arns) →
  env_vars memory_info agent_arns = inr vars →
  Forall (λ kv, ∃ s, kv.2 = JStr s ∧ s ≠ "" ∧ assoc kv.1 env = Some s) vars →
  ∃ f p r m,
    load_field fs "financial_analyst/completed/deployment_info.json" "agent_arn" = inr f
    ∧ load_field fs "portfolio_architect/completed/deployment_info.json" "agent_arn" = inr p
    ∧ load_field fs "risk_manager/completed/deployment_info.json" "agent_arn" = inr r
    ∧ load_field fs memory_info_file "memory_id" = inr m
    ∧ _load_agent_arns env fs' = ([], inr [("financial", f); ("portfolio", p); ("risk", r)])
    ∧ _load_memory_id env fs' = ([], inr m)
    ∧ getenv env "AWS_REGION" = JStr REGION.
Proof.
  unfold load_memory_info, load_agent_arns, env_vars.
  cbn [collect_arns deployed_agent_dirs].
  change ("financial_analyst/completed" +:+ "/deployment_info.json")
    with "financial_analyst/completed/deployment_info.json".
  change ("portfolio_architect/completed" +:+ "/deployment_info.json")
    with "portfolio_architect/completed/deployment_info.json".
  change ("risk_manager/completed" +:+ "/deployment_info.json")
    with "risk_manager/completed/deployment_info.json".
  unfold file_exists, load_field, json_load.
  destruct (fs memory_info_file) as [| |mi]; try done. intros [= <- <-].
  destruct (fs "financial_analyst/completed/deployment_info.json") as [| |fi],
    (fs "portfolio_architect/completed/deployment_info.json") as [| |pi],
    (fs "risk_manager/completed/deployment_info.json") as [| |ri];
    cbn [app fst snd]; try done;
    try (destruct (subscript fi "agent_arn") as [?|f]; [done|]);
    try (destruct (subscript pi "agent_arn") as [?|p]; cbn [fst snd]; [done|]);
    try (destruct (subscript ri "agent_arn") as [?|r]; cbn [fst snd]; [done|]);
    try done.
  cbn [fst snd]. intros [= <- <-].
  destruct (subscript mi "memory_id") as [?|m]; [done|]. intros [= <-].
  cbn. rewrite !Forall_cons. cbn [fst snd].
  intros ((sm & -> & Hm%String.eqb_neq & Em) & (sg & [= <-] & _ & Eg) & (sf & -> & Hf%String.eqb_neq & Ef)
          & (sp & -> & Hp%String.eqb_neq & Ep) & (sr & -> & Hr%String.eqb_neq & Er) & _).
  exists (JStr sf), (JStr sp), (JStr sr), (JStr sm).
  unfold _load_agent_arns, _load_memory_id, getenv. rewrite Em, Eg, Ef, Ep, Er.
  cbn [forallb fmap list_fmap snd truthy]. rewrite Hm, Hf, Hp, Hr. by cbn.
Qed.

(** X15. The page of app.py takes the environment as a whole: with the
    three variables set and not empty it uses them and opens no file; with
    one of them unset or empty it ignores all three, those that are set
    included, and takes the ARN and the region from the deployment file of
    the Fund Manager and the memory id from that of the memory. *)
Theorem page_environment_is_all_or_nothing (env : list (string * string))
    (fs : string → file) :
  let agent_arn := getenv env "BWB_FUND_MANAGER_ARN" in
  let memory_id := getenv env "BWB_MEMORY_ID" in
  let region := getenv env "BWB_AWS_REGION" in
  let info_file := "fund_manager/deployment_info.json" in
  let memory_file := "fund_manager/agentcore_memory/deployment_info.json" in
  (truthy agent_arn && truthy memory_id && truthy region = true →
   load_deployment_info env fs = ([], inr (agent_arn, memory_id, region, "static")))
  ∧ (truthy agent_arn && truthy memory_id && truthy region = false →
     load_deployment_info env fs = load_deployment_info [] fs
     ∧ ∀ opened a m r static_path,
         load_deployment_info env fs = (opened, inr (a, m, r, static_path)) →
         opened = [info_file; memory_file]
         ∧ load_field fs info_file "agent_arn" = inr a
         ∧ load_field fs info_file "region" = inr r
         ∧ load_field fs memory_file "memory_id" = inr m
         ∧ static_path = "../static").
Proof.
  cbn zeta. unfold load_deployment_info. split; intros ->; [done|].
  split; [done|]. intros opened a m r static_path.
  unfold load_field.
  destruct (json_load fs "fund_manager/deployment_info.json") as [?|info]; [done|].
  destruct (subscript info "agent_arn") as [?|a']; [done|].
  destruct (subscript info "region") as [?|r']; [done|].
  destruct (json_load fs "fund_manager/agentcore_memory/deployment_info.json")
    as [?|memory]; [done|].
  destruct (subscript memory "memory_id") as [?|m']; [done|].
  by intros [= <- <- <- <- <-].
Qed.

(** ** The wait for the runtime *)

Lemma terminal_READY : terminal "READY" = true.
Proof. reflexivity. Qed.

(** The loop ends with the status [READY] after [k] sleeps exactly when the
    call of turn [k] is the first to give a terminal status, and gives
    [READY]. *)
Lemma wait_for_status_ready (poll : nat → string + string) (n i k : nat)
    (status : option string) :
  (∀ s, status = Some s → terminal s = false) →
  wait_for_status poll n i status = (Some "READY", k)
  ↔ (k < n)%nat ∧ poll (i + k)%nat = inr "READY"
    ∧ ∀ j, (j < k)%nat →
        match poll (i + j)%nat with
        | inr s => terminal s = false
        | inl _ => True
        end.
Proof.
  revert i k status. induction n as [|n IH]; intros i k status Hstatus.
  { cbn. split; [|lia]. intros [= -> _]. by specialize (Hstatus _ eq_refl). }
  cbn [wait_for_status].
  assert (∀ status',
    (∀ s, status' = Some s → terminal s = false) →
    match poll i with inr s => terminal s = false | inl _ => True end →
    ((wait_for_status poll n (S i) status').1, S (wait_for_status poll n (S i) status').2)
    = (Some "READY", k)
    ↔ (k < S n)%nat ∧ poll (i + k)%nat = inr "READY"
      ∧ ∀ j, (j < k)%nat →
          match poll (i + j)%nat with
          | inr s => terminal s = false
          | inl _ => True
          end) as Hlater.
  { intros status' Hstatus' Hi. split.
    - destruct (wait_for_status poll n (S i) status') as [st k'] eqn:Hwait.
      cbn [fst snd]. intros [= -> <-].
      apply (IH _ _ _ Hstatus') in Hwait as (Hlt & Hready & Hbefore).
      split_and!; [lia | by rewrite Nat.add_succ_r |].
      intros [|j] Hj; [by rewrite Nat.add_0_r|].
      rewrite Nat.add_succ_r. apply (Hbefore j). lia.
    - intros (Hlt & Hready & Hbefore). destruct k as [|k].
      { rewrite Nat.add_0_r in Hready. rewrite Hready, terminal_READY in Hi. done. }
      assert (wait_for_status poll n (S i) status' = (Some "READY", k)) as ->; [|done].
      apply (IH _ _ _ Hstatus'). split_and!; [lia | by rewrite Nat.add_succ_r in Hready |].
      intros j Hj. specialize (Hbefore (S j)). rewrite Nat.add_succ_r in Hbefore.
      apply Hbefore. lia. }
  destruct (poll i) as [cause|s] eqn:Hpoll; [by apply Hlater|].
  destruct (terminal s) eqn:Hs; [|apply Hlater; [by intros ? [= <-] | done]].
  split.
  - intros [= -> <-]. rewrite Nat.add_0_r. split_and!; [lia | done | lia].
  - intros (_ & Hready & Hbefore). destruct k as [|k].
    + rewrite Nat.add_0_r, Hpoll in Hready. by injection Hready as ->.
    + specialize (Hbefore 0%nat). rewrite Nat.add_0_r, Hpoll, Hs in Hbefore.
      by discriminate Hbefore; lia.
Qed.

(** The variable [status] is unbound after the loop exactly when every call
    raised. *)
Lemma wait_for_status_unbound (poll : nat → string + string) (n i : nat)
    (status : option string) :
  (wait_for_status poll n i status).1 = None
  ↔ status = None ∧ ∀ j, (j < n)%nat → ∃ cause, poll (i + j)%nat = inl cause.
Proof.
  revert i status. induction n as [|n IH]; intros i status.
  { cbn. split; [intros ->; split; [done | lia] | by intros [-> _]]. }
  cbn [wait_for_status]. destruct (poll i) as [cause|s] eqn:Hpoll.
  - cbn [fst]. rewrite IH. split; intros [-> Hall]; (split; [done|]).
    + intros [|j] Hj; [rewrite Nat.add_0_r; by eexists|].
      rewrite Nat.add_succ_r. apply Hall. lia.
    + intros j Hj. specialize (Hall (S j)). rewrite Nat.add_succ_r in Hall.
      apply Hall. lia.
  - split.
    + destruct (terminal s); [done|]. cbn [fst]. rewrite IH. by intros [? _].
    + intros [_ Hall]. destruct (Hall 0%nat) as [cause Hcause]; [lia|].
      rewrite Nat.add_0_r in Hcause. congruence.
Qed.

(** X16. The wait of [deploy_fund_manager]: the deployment goes on exactly
    when, within 30 calls, the first call of [runtime.status()] that gives a
    terminal status gives [READY], calls that raise being passed over, and
    the script has then slept once for each call before it; when all 30
    calls raise, the check after the loop finds [status] unbound. *)
Theorem runtime_wait_ends_at_first_terminal_status (poll : nat → string + string) :
  (∀ k, wait_until_ready poll = inr k
        ↔ (k < 30)%nat ∧ poll k = inr "READY"
          ∧ ∀ j, (j < k)%nat →
              match poll j with
              | inr s => terminal s = false
              | inl _ => True
              end)
  ∧ (wait_until_ready poll = inl UnboundLocalError
     ↔ ∀ j, (j < 30)%nat → ∃ cause, poll j = inl cause).
Proof.
  unfold wait_until_ready. split.
  - intros k.
    rewrite <- (wait_for_status_ready poll 30 0 k None) by done.
    destruct (wait_for_status poll 30 0 None) as [[s|] sleeps]; [|done].
    destruct (String.eqb_spec s "READY") as [->|Hne]; split; intros; by simplify_eq.
  - pose proof (wait_for_status_unbound poll 30 0 None) as Hunbound.
    destruct (wait_for_status poll 30 0 None) as [[s|] sleeps]; cbn [fst] in Hunbound.
    + split; [by destruct (String.eqb s "READY")|].
      intros Hall. assert (Some s = None) as [=].
      apply Hunbound. by split.
    + split; [|done]. intros _. by apply Hunbound.
Qed.

(** ** The memory of the deployment *)

Lemma existing_memory_found (before after : list json) (m : json) (id : string) :
  Forall (λ m', ∃ id', subscript m' "id" = inr (JStr id')
                       ∧ startswith MEMORY_NAME id' = false) before →
  subscript m "id" = inr (JStr id) →
  startswith MEMORY_NAME id = true →
  existing_memory (before ++ m :: after) = inr (Some m).
Proof.
  intros Hbefore Hid Hprefix. induction Hbefore as [|m' before (id' & Hid' & Hno) _ IH].
  - cbn [app existing_memory]. by rewrite Hid, Hprefix.
  - cbn [app existing_memory]. by rewrite Hid', Hno.
Qed.

Lemma existing_memory_none (memories : list json) :
  Forall (λ m', ∃ id', subscript m' "id" = inr (JStr id')
                       ∧ startswith MEMORY_NAME id' = false) memories →
  existing_memory memories = inr None.
Proof.
  induction 1 as [|m' before (id' & Hid' & Hno) _ IH]; [done|].
  cbn [existing_memory]. by rewrite Hid', Hno.
Qed.

(** X17. [deploy_memory] creates a memory only when none is listed whose
    id starts with the memory name: it returns the id of the first memory
    listed whose id does, creating nothing, and otherwise the id of the
    memory it creates, with the session namespace, an expiry of 7 days and a
    wait of at most 300 seconds. *)
Theorem memory_is_reused_before_created (create : string + json) :
  let other := λ m', ∃ id', subscript m' "id" = inr (JStr id')
                            ∧ startswith MEMORY_NAME id' = false in
  (∀ before after m id,
     Forall other before →
     subscript m "id" = inr (JStr id) →
     startswith MEMORY_NAME id = true →
     deploy_memory (inr (before ++ m :: after)) create = ([ListMemories], inr (JStr id)))
  ∧ (∀ memories,
       Forall other memories →
       deploy_memory (inr memories) create
       = ([ListMemories;
           CreateMemoryAndWait "FundManager_Memory"
             ["fund_management/session/{sessionId}"] 7 300 10],
          match create with
          | inl cause => inl (ClientError cause)
          | inr memory => subscript memory "id"
          end)).
Proof.
  cbn zeta. split.
  - intros before after m id Hbefore Hid Hprefix. unfold deploy_memory.
    rewrite (existing_memory_found _ _ _ _ Hbefore Hid Hprefix).
    destruct m as [| | | | |[|kv fields]]; try done.
    cbn [truthy]. by rewrite Hid.
  - intros memories Hnone. unfold deploy_memory.
    by rewrite (existing_memory_none _ Hnone).
Qed.

(** ** The theorems on the sample services *)

(** The Python helpers on a few inputs. *)
Example split_last_examples :
  split_last "target___calculator" = "calculator"
  ∧ split_last "a____b" = "_b"
  ∧ split_last "calculator" = "calculator"
  ∧ split_last "a___b___" = "".
Proof. by vm_compute. Qed.

Example utf8_wellformed_examples :
  utf8_wellformed "data: 노후 준비" = true
  ∧ utf8_wellformed stray_byte = false
  ∧ utf8_wellformed (String "192"%char (String "128"%char EmptyString)) = false
  ∧ utf8_wellformed
      (String "237"%char (String "160"%char (String "128"%char EmptyString))) = false
  ∧ utf8_wellformed (String "226"%char (String "130"%char EmptyString)) = false.
Proof. by vm_compute. Qed.

Example key_of_examples :
  key_of (JBool true) = key_of (JNum 1)
  ∧ key_of (JStr "1") ≠ key_of (JNum 1)
  ∧ key_of (JArr []) = None.
Proof. by vm_compute. Qed.

(** The healthy run invokes the three stages, each on the result before. *)
Example healthy_run_invocations :
  invocations (trace (sample_run healthy_service store_up)) =
  [("financial", payload_of sample_request); ("portfolio", payload_of (JStr "F"));
   ("risk", payload_of (JStr "P"))]
  ∧ turn_agents (trace (sample_run healthy_service store_up)) = stage_names.
Proof. by vm_compute. Qed.

(** Witness of C2: the lines of the healthy financial response. *)
Lemma decoder_on_healthy_lines :
  let lines :=
    [": keep-alive"; "data: " +:+ chunk_text; "data: {oops";
     "data: " +:+ complete_text "F"] in
  forallb (event_line sample_loads) lines = true
  ∧ consumed sample_loads lines = lines
  ∧ written (trace (iter_lines_loop sample_loads lines None JNull))
    = [chunk_event; complete_event "F"].
Proof.
  split; [by vm_compute|].
  destruct (decoder_emits_frames_in_order sample_loads
              [": keep-alive"; "data: " +:+ chunk_text; "data: {oops";
               "data: " +:+ complete_text "F"] None JNull) as (-> & _ & Hall & _).
  destruct Hall as [-> _]; by vm_compute.
Defined.

(** Counterexample to C2 as stated.  Both lines of the first stream start
    with ["data: "] and parse as JSON, yet only the first is emitted: the
    loop raises after writing a frame that is no JSON object.  The second
    stream starts with a line without the prefix that is not discarded: it
    does not decode, and the loop raises before the frame after it. *)
Lemma decoder_stops_after_scalar_frame :
  let lines := ["data: 42"; "data: " +:+ chunk_text] in
  let lines' := [stray_byte; "data: " +:+ chunk_text] in
  omap (frame sample_loads) lines = [JNum 42; chunk_event]
  ∧ iter_lines_loop sample_loads lines None JNull
    = ([Write (JNum 42)], Raised AttributeError)
  ∧ written (trace (iter_lines_loop sample_loads lines None JNull))
    ≠ omap (frame sample_loads) lines
  ∧ omap (frame sample_loads) lines' = [chunk_event]
  ∧ iter_lines_loop sample_loads lines' None JNull = ([], Raised UnicodeDecodeError).
Proof. by vm_compute. Qed.



(** Counterexample to C4 as stated: the text chunk relayed during the
    financial stage is on the output stream with neither [agent_name] nor
    [session_id]. *)
Lemma relayed_chunk_is_not_tagged :
  chunk_event ∈ written (trace (sample_run healthy_service store_up))
  ∧ ¬ tagged sample_session chunk_event
  ∧ ¬ Forall (tagged sample_session)
        (written (trace (sample_run healthy_service store_up))).
Proof.
  assert (chunk_event ∈ written (trace (sample_run healthy_service store_up))) as Hin.
  { set (events := written _). vm_compute in events. subst events.
    rewrite !elem_of_cons. right. by left. }
  assert (¬ tagged sample_session chunk_event) as Hno.
  { intros [_ Hsid]. by vm_compute in Hsid. }
  split; [done|]. split; [done|].
  intros Hall. rewrite Forall_forall in Hall. by apply Hno, Hall.
Qed.

Example client_after_tool_use_reached :
  result (feed sample_loads calm_display initial_client
            [node_start "financial" sample_session; tool_use_event])
  = Returned (inl client_after_tool_use).
Proof. by vm_compute. Qed.

(** Counterexample to C5 as stated: call ["abc"] is registered during the
    financial stage; after the [node_start] of the portfolio stage the
    dictionaries are not empty and the call still correlates. *)
Lemma call_id_survives_stage_boundary :
  match result (feed sample_loads calm_display initial_client
                  [node_start "financial" sample_session; tool_use_event;
                   node_start "portfolio" sample_session]) with
  | Returned (inl st) =>
      current_agent st = JStr "portfolio"
      ∧ tool_id_to_name st !! abc = Some (JStr "calculator")
      ∧ correlate st abc = (JStr "calculator", JStr "1+1")
      ∧ correlate st abc ≠ (JStr "unknown", JStr "unknown")
  | _ => False
  end.
Proof. by vm_compute. Qed.

(** Witness of C5: the [node_start] of the portfolio stage, handled in the
    state that holds call ["abc"]. *)
Lemma portfolio_start_keeps_call :
  ∃ st',
    handle_event sample_loads calm_display client_after_tool_use
      (node_start "portfolio" sample_session) = ([], Returned (inl st'))
    ∧ correlate st' abc = (JStr "calculator", JStr "1+1").
Proof.
  eexists. split; [by vm_compute|].
  destruct (node_start_keeps_tool_dictionaries sample_loads calm_display
              client_after_tool_use
              (start_agent (JStr "portfolio") (Some (inr "portfolio"))
                 client_after_tool_use)
              [("type", JStr "node_start"); ("agent_name", JStr "portfolio");
               ("session_id", sample_session)] [])
    as (_ & _ & Hsame & _); [by vm_compute..|].
  rewrite Hsame. by vm_compute.
Defined.

(** Counterexample to C6 as stated.  Before any [node_start] no agent is
    current: the result of call ["abc"] is handled and the entry stays, so
    the same call id correlates a second time.  And during the financial
    stage a result whose call id was never registered gets the label
    ["unknown"] and nothing is rendered for it. *)
Lemma entry_stays_without_current_agent :
  match result (feed sample_loads calm_display initial_client
                  [tool_use_event; tool_result_event]) with
  | Returned (inl st) =>
      tool_id_to_name st !! abc = Some (JStr "calculator")
      ∧ correlate st abc = (JStr "calculator", JStr "1+1")
  | _ => False
  end
  ∧ correlate (start_agent (JStr "financial") (Some (inr "financial")) initial_client)
      abc = (JStr "unknown", JStr "unknown")
  ∧ trace (on_tool_result sample_loads
             (start_agent (JStr "financial") (Some (inr "financial")) initial_client)
             tool_result_fields) = [].
Proof. by vm_compute. Qed.

(** Witness of C6: the result of call ["abc"] during the financial stage is
    rendered by the calculator routine with the stored input, and the entry
    is deleted. *)
Lemma calculator_result_is_correlated_once :
  ∃ st',
    on_tool_result sample_loads client_after_tool_use tool_result_fields
    = ([Display "display_calculator_result" [JStr "1+1"; JStr "2"]], Returned st')
    ∧ correlate client_after_tool_use abc = (JStr "calculator", JStr "1+1")
    ∧ correlate st' abc = (JStr "unknown", JStr "unknown").
Proof.
  eexists. split; [by vm_compute|].
  destruct (tool_result_correlation sample_loads client_after_tool_use
              (del_tool abc (set_thinking (Some (inr "financial")) ""
                               client_after_tool_use))
              tool_result_fields abc
              [Display "display_calculator_result" [JStr "1+1"; JStr "2"]])
    as (_ & Hhit & _ & _ & Hgone & _); [by vm_compute..|].
  split; [by apply Hhit|]. by apply Hgone.
Defined.

(** Counterexample to C7 as stated: the financial agent streams an [error]
    event; the invocation of the stage returns [None], the run goes on to
    the portfolio stage and returns. *)
Lemma error_event_does_not_fail_the_stage :
  is_error error_event = true
  ∧ call_agent_with_streaming sample_loads erring_service "financial" sample_request
    = ([Invoke "financial" (payload_of sample_request); Write error_event],
       Returned JNull)
  ∧ (invocations (trace (sample_run erring_service store_up))).*1 = stage_names
  ∧ ¬ ∃ e, result (sample_run erring_service store_up) = Raised e.
Proof.
  split; [by vm_compute|]. split; [by vm_compute|]. split; [by vm_compute|].
  intros [e He]. by vm_compute in He.
Qed.

(** Witness of C7: the stream of the Fund Manager carries an [error] event
    first; the client returns its message and leaves the next line unread. *)
Lemma client_returns_error_event :
  invoke_fund_manager sample_loads erring_service calm_display
    sample_request sample_session
  = ([Invoke "fund_manager"
        (JObj [("input_data", sample_request); ("session_id", sample_session)])],
     Returned (ErrorEvent (JStr "boom"))).
Proof.
  destruct (error_event_stops_the_client_loop sample_loads erring_service calm_display)
    as [_ Hclient].
  apply (Hclient sample_request sample_session
           {| lines := ["data: " +:+ error_text; "data: " +:+ chunk_text];
              broken := None |}
           [] ("data: " +:+ error_text) ["data: " +:+ chunk_text] initial_client []
           [("type", JStr "error"); ("error", JStr "boom")]); by vm_compute.
Defined.

(** The store fails at every write: the lines say so, and the stages are
    invoked as with a store that works. *)
Example store_down_run :
  printed (trace (sample_run healthy_service store_down))
  = [SaveFailedLine "financial" (StoreError "throttled");
     SaveFailedLine "portfolio" (StoreError "throttled");
     SaveFailedLine "risk" (StoreError "throttled")]
  ∧ invocations (trace (sample_run healthy_service store_down))
    = invocations (trace (sample_run healthy_service store_up))
  ∧ result (sample_run healthy_service store_down)
    = result (sample_run healthy_service store_up).
Proof. by vm_compute. Qed.

(** Witness of C9, at the failing input: the store answers with the older
    record first, and the summary returned is made of it although the second
    record was created later. *)
Lemma summary_reader_on_unordered_response :
  load_current_session_summary sample_str unordered_store "mem-1" sample_isoformat
    "session_20240101_120000"
  = ([Retrieve "mem-1" "fund_management/session/session_20240101_120000"
        "fund management consultation summary"],
     Returned (Found "session_20240101_120000" "100" (JStr "first summary")))
  ∧ creation_time older_record = Some 100%Z
  ∧ creation_time newer_record = Some 200%Z.
Proof.
  split; [|by vm_compute].
  apply (summary_reader_returns_first_record sample_str unordered_store "mem-1"
           sample_isoformat "session_20240101_120000" older_record [newer_record]).
  by vm_compute.
Defined.

(** A session with no summary yet. *)
Example summary_reader_not_found :
  load_current_session_summary sample_str unordered_store "mem-1" sample_isoformat
    "session_20250101_000000"
  = ([Retrieve "mem-1" "fund_management/session/session_20250101_000000"
        "fund management consultation summary"],
     Returned (NotFound "session_20250101_000000" None)).
Proof. by vm_compute. Qed.

(** Witness of C10: the healthy portfolio response is read to the end, and
    the financial stage of the silent service returns [None]. *)
Lemma silent_stage_is_followed_by_the_next :
  result (call_agent_with_streaming sample_loads healthy_service "portfolio" (JStr "F"))
  = Returned (JStr "P")
  ∧ ("financial" ∉ turn_agents (trace (sample_run silent_service store_up)))
  ∧ ("portfolio", payload_of JNull)
    ∈ invocations (trace (sample_run silent_service store_up)).
Proof.
  destruct (invocation_reads_to_the_end sample_loads sample_dumps sample_str
              healthy_service store_up "mem-1" "20240101_120000"
              sample_request sample_session) as [Hreads _].
  destruct (invocation_reads_to_the_end sample_loads sample_dumps sample_str
              silent_service store_up "mem-1" "20240101_120000"
              sample_request sample_session) as [_ Hnone].
  split.
  - destruct (Hreads "portfolio" (JStr "F")
                {| lines := ["data: " +:+ chunk_text; "data: " +:+ complete_text "P"];
                   broken := None |}) as [_ ->]; by vm_compute.
  - destruct (Hnone 0 "financial" sample_request) as [Hturn Hnext]; [by vm_compute..|].
    split; [exact Hturn|]. by apply Hnext.
Defined.

(** ** More theorems on the samples *)

(** The stream of the financial agent breaks after its complete result:
    both frames were relayed, and the stage has no result. *)
Lemma broken_financial_stream :
  call_agent_with_streaming sample_loads breaking_service "financial" sample_request
  = ([Invoke "financial" (payload_of sample_request);
      Write chunk_event; Write (complete_event "F")],
     Raised (StreamError "connection reset")).
Proof.
  apply (broken_stream_returns_no_result sample_loads breaking_service
           "financial" sample_request
           {| lines := ["data: " +:+ chunk_text; "data: " +:+ complete_text "F"];
              broken := Some "connection reset" |} "connection reset");
    by vm_compute.
Defined.

(** A tool of the gateway is registered under its own name. *)
Lemma gateway_tool_is_registered :
  ∃ st',
    on_tool_use initial_client gateway_tool_use_fields = ([], Returned st')
    ∧ correlate st' abc = (JStr "calculator", JStr "1+1").
Proof.
  destruct (tool_use_registers_the_call initial_client gateway_tool_use_fields
              "gateway___calculator" abc) as (st' & Huse & Hcall & _);
    [by vm_compute..|].
  exists st'. split; [done|]. rewrite Hcall. by vm_compute.
Defined.

(** Call ["abc"] is still known after a chunk, the call ["xyz"] and the start
    of the next stage. *)
Lemma call_survives_other_events :
  ∃ st',
    feed sample_loads calm_display client_after_tool_use
      [chunk_event; other_tool_use_event; node_start "portfolio" sample_session]
    = ([], Returned (inl st'))
    ∧ correlate st' abc = (JStr "calculator", JStr "1+1").
Proof.
  assert (∃ st', feed sample_loads calm_display client_after_tool_use
                   [chunk_event; other_tool_use_event;
                    node_start "portfolio" sample_session]
                 = ([], Returned (inl st'))) as [st' Hfeed]
    by (eexists; by vm_compute).
  exists st'. split; [done|].
  rewrite (untouched_call_id_correlates_as_before sample_loads calm_display
             client_after_tool_use st' _ abc [] Hfeed); [by vm_compute|].
  repeat (apply Forall_cons; split); try done;
    vm_compute; intros [[?|?] ?]; done.
Defined.

(** The quiet stream is read through. *)
Lemma quiet_stream_is_clean :
  ∃ resp,
    quiet_service "fund_manager"
      (JObj [("input_data", sample_request); ("session_id", sample_session)]) = inr resp
    ∧ broken resp = None
    ∧ Forall (λ line, utf8_wellformed line = true) (lines resp)
    ∧ Forall (λ event, ∃ fields, event = JObj fields ∧ is_error event = false)
        (omap (frame sample_loads) (lines resp)).
Proof.
  apply (success_means_a_clean_stream sample_loads quiet_service calm_display
           sample_request sample_session).
  by vm_compute.
Defined.

(** The financial stage returns plain text: the page shows nothing of it and
    the client ends with [AttributeError], the chunk after it unread. *)
Lemma plain_financial_result_ends_the_client :
  invoke_fund_manager page_loads plain_result_service strict_display
    sample_request sample_session
  = ([Invoke "fund_manager"
        (JObj [("input_data", sample_request); ("session_id", sample_session)]);
      Display "display_financial_analysis" [JStr "no data"]],
     Returned (ErrorException AttributeError)).
Proof.
  destruct (financial_result_without_object_ends_the_client
              page_loads plain_result_service strict_display
              sample_request sample_session
              {| lines := ["data: " +:+ start_text; "data: " +:+ plain_complete_text;
                           "data: " +:+ chunk_text];
                 broken := None |}
              ["data: " +:+ start_text] ["data: " +:+ chunk_text]
              ("data: " +:+ plain_complete_text)
              (start_agent (JStr "financial") (Some (inr "financial")) initial_client)
              [] plain_complete_fields) as [_ Hclient].
  - intros r e Hraised. unfold strict_display. by rewrite Hraised.
  - by vm_compute.
  - by vm_compute.
  - by vm_compute.
  - by vm_compute.
  - by vm_compute.
  - by vm_compute.
  - by vm_compute.
  - compute_done.
  - by vm_compute.
  - by vm_compute.
  - exact Hclient.
Defined.

(** Two chunks of the financial stage. *)
Lemma two_chunks_accumulate :
  ∃ st',
    feed sample_loads calm_display client_after_tool_use [chunk_event; chunk_event]
    = ([], Returned (inl st'))
    ∧ current_thinking st' !! Some (inr "financial") = Some "hihi".
Proof.
  destruct (text_chunks_accumulate sample_loads calm_display client_after_tool_use
              [chunk_event; chunk_event] ["hi"; "hi"] (Some (inr "financial")) "")
    as (st' & Hfeed & Hbuffer & _).
  - by vm_compute.
  - by vm_compute.
  - by vm_compute.
  - repeat (apply Forall2_cons; split); [..|apply Forall2_nil];
      eexists; split_and!; reflexivity.
  - exists st'. split; [done | exact Hbuffer].
Defined.

(** The client with the financial agent named in the environment only. *)
Lemma partial_environment_reads_two_files :
  Forall (λ '(agent_key, name, agent_dir),
            if truthy (getenv partial_env name) then
              dict_lookup [("financial", JStr "arn:financial");
                           ("portfolio", JStr "arn:portfolio");
                           ("risk", JStr "arn:risk")] agent_key
              = Some (getenv partial_env name)
              ∧ agent_info_file agent_dir
                ∉ ["fund_manager/portfolio_architect/deployment_info.json";
                   "fund_manager/risk_manager/deployment_info.json"]
            else
              (∃ v, load_field local_files (agent_info_file agent_dir) "agent_arn" = inr v
                    ∧ dict_lookup [("financial", JStr "arn:financial");
                                   ("portfolio", JStr "arn:portfolio");
                                   ("risk", JStr "arn:risk")] agent_key = Some v)
              ∧ agent_info_file agent_dir
                ∈ ["fund_manager/portfolio_architect/deployment_info.json";
                   "fund_manager/risk_manager/deployment_info.json"])
    agent_variables
  ∧ ["fund_manager/portfolio_architect/deployment_info.json";
     "fund_manager/risk_manager/deployment_info.json"]
    ⊆ map (λ v, agent_info_file v.2) agent_variables.
Proof.
  apply (agent_arn_is_taken_per_agent partial_env local_files
           ["fund_manager/portfolio_architect/deployment_info.json";
            "fund_manager/risk_manager/deployment_info.json"]
           [("financial", JStr "arn:financial"); ("portfolio", JStr "arn:portfolio");
            ("risk", JStr "arn:risk")]).
  by vm_compute.
Defined.

(** The runtime launched by deploy.py needs no file. *)
Lemma launched_client_reads_no_file :
  ∃ f p r m,
    load_field deployed_files "financial_analyst/completed/deployment_info.json"
      "agent_arn" = inr f
    ∧ load_field deployed_files "portfolio_architect/completed/deployment_info.json"
        "agent_arn" = inr p
    ∧ load_field deployed_files "risk_manager/completed/deployment_info.json"
        "agent_arn" = inr r
    ∧ load_field deployed_files memory_info_file "memory_id" = inr m
    ∧ _load_agent_arns launched_env no_files
      = ([], inr [("financial", f); ("portfolio", p); ("risk", r)])
    ∧ _load_memory_id launched_env no_files = ([], inr m)
    ∧ getenv launched_env "AWS_REGION" = JStr REGION.
Proof.
  apply (deployed_environment_configures_the_client deployed_files no_files launched_env
           (JObj [("memory_id", JStr "FundManager_Memory-1")])
           [("FINANCIAL_ANALYST_ARN", JStr "arn:financial");
            ("PORTFOLIO_ARCHITECT_ARN", JStr "arn:portfolio");
            ("RISK_MANAGER_ARN", JStr "arn:risk")]
           [("FUND_MEMORY_ID", JStr "FundManager_Memory-1");
            ("AWS_REGION", JStr "us-west-2");
            ("FINANCIAL_ANALYST_ARN", JStr "arn:financial");
            ("PORTFOLIO_ARCHITECT_ARN", JStr "arn:portfolio");
            ("RISK_MANAGER_ARN", JStr "arn:risk")]
           [memory_info_file]
           ["financial_analyst/completed/deployment_info.json";
            "portfolio_architect/completed/deployment_info.json";
            "risk_manager/completed/deployment_info.json"]).
  - by vm_compute.
  - by vm_compute.
  - by vm_compute.
  - repeat (apply Forall_cons; split); try done;
      eexists; (split_and!; [reflexivity | done | reflexivity]).
Defined.

(** The wait on a runtime that is ready at the third call, the second
    having raised; on one that fails; on one that stays in creation; and on
    one that never answers. *)
Example runtime_wait_examples :
  wait_until_ready (λ i, match i with
                         | 0 => inr "CREATING"
                         | 1 => inl "timeout"
                         | _ => inr "READY"
                         end%nat) = inr 2%nat
  ∧ wait_until_ready (λ i, match i with
                           | 0 => inr "CREATING"
                           | _ => inr "CREATE_FAILED"
                           end%nat) = inl (DeployFailed "CREATE_FAILED")
  ∧ wait_until_ready (λ _, inr "CREATING") = inl (DeployFailed "CREATING")
  ∧ wait_until_ready (λ _, inl "timeout") = inl UnboundLocalError.
Proof. by vm_compute. Qed.

(** A memory of another name is reused when its id starts with the name. *)
Example memory_examples :
  deploy_memory
    (inr [JObj [("id", JStr "Other-1")]; JObj [("id", JStr "FundManager_Memory_old-7")];
          JObj [("id", JStr "FundManager_Memory-2")]])
    (inr (JObj [("id", JStr "FundManager_Memory-3")]))
  = ([ListMemories], inr (JStr "FundManager_Memory_old-7"))
  ∧ (deploy_memory (inr [JObj [("id", JStr "Other-1")]])
       (inr (JObj [("id", JStr "FundManager_Memory-3")]))).2
    = inr (JStr "FundManager_Memory-3").
Proof. by vm_compute. Qed.

(** The page with two of its three variables set opens the files. *)
Example page_examples :
  load_deployment_info [("BWB_FUND_MANAGER_ARN", "arn:fm"); ("BWB_MEMORY_ID", "mem-1")]
    no_files
  = (["fund_manager/deployment_info.json"],
     inl (FileNotFoundError "fund_manager/deployment_info.json"))
  ∧ load_deployment_info
      [("BWB_FUND_MANAGER_ARN", "arn:fm"); ("BWB_MEMORY_ID", "mem-1");
       ("BWB_AWS_REGION", "us-west-2")] no_files
    = ([], inr (JStr "arn:fm", JStr "mem-1", JStr "us-west-2", "static")).
Proof. by vm_compute. Qed.

(** A text with words around its object, and texts without an object. *)
Example extract_json_examples :
  extract_json_from_text sample_loads (JStr ("Result: " +:+ chunk_text +:+ " (end)"))
  = Some chunk_event
  ∧ extract_json_from_text sample_loads (JStr "} no object {") = None
  ∧ extract_json_from_text sample_loads (JStr "no data") = None
  ∧ extract_json_from_text sample_loads (JArr []) = None.
Proof. by vm_compute. Qed.
